(** * code-diary: the worklog document model and the week calculator

    A shallow embedding of
      - [scripts/get_week_info.cjs]  ([getWeekNumber], [getWeekRange],
        [getWeekInfo]),
      - [skills/code-diary/scripts/log_work.cjs]  ([parseArgs],
        [parseWorklog], [formatDateHeader], [compareDates], [logWork]),
      - [scripts/parse_task_input.cjs]  ([parseTaskInput]),
      - [scripts/generate_filename.cjs]  ([toKebabCase],
        [generateFilename]),
      - [scripts/get_current_project.cjs]  ([getProjectNameFromGit]),
      - [scripts/init_project.cjs]  ([initProject]), and
      - [scripts/find_task.cjs]  ([findTaskFiles]),
    together with the parts of the JavaScript library they call: string
    splitting, trimming and the regular expressions, the Date arithmetic
    of ECMAScript (section "Date Objects"), [Array.prototype.sort], and a
    small model of the file system calls.

    Conventions.
      - A JavaScript string is a [string]; text is taken to be 8-bit, so
        the only line terminators are LF and CR.
      - A time value is a [Z] (milliseconds since the epoch); an invalid
        Date (NaN) is [None].  Time values are not clipped to the range of
        ECMAScript's TimeClip.
      - What depends on the machine the script runs on is gathered in a
        [Host]: the offset of local time, the clock, the worklogs root, the
        date formats an engine accepts beyond the ISO one, and prettier.
      - A thrown exception or [process.exit(1)] is an [Error] value.
      - [Array.prototype.sort] is a stable insertion sort, as the
        language requires of it since ES2019.
      - [mkdirSync] with [recursive] records the directory it is called
        for; [path.join] joins with a slash and does not normalise.
      - [JSON.stringify] is not modelled: [initProject] takes it as a
        function from the configuration to text. *)

From Stdlib Require Import ZArith String Ascii List Lia Bool Sorted Permutation.
From stdpp Require Import base gmap strings list.
Import ListNotations.
Local Open Scope string_scope.
Local Open Scope list_scope.
Local Open Scope Z_scope.

(* ================================================================= *)
(** ** Strings *)

Definition LF : ascii := ascii_of_nat 10.
Definition CR : ascii := ascii_of_nat 13.

Definition is_digit (c : ascii) : bool :=
  let n := nat_of_ascii c in (48 <=? n)%nat && (n <=? 57)%nat.

Definition is_upper (c : ascii) : bool :=
  let n := nat_of_ascii c in (65 <=? n)%nat && (n <=? 90)%nat.

(** [.] of a regular expression without the [s] flag. *)
Definition is_dot (c : ascii) : bool :=
  negb (Ascii.eqb c LF) && negb (Ascii.eqb c CR).

(** [strip_prefix p s] is what follows [p] in [s], when [s] starts with [p]. *)
Fixpoint strip_prefix (p s : string) : option string :=
  match p, s with
  | EmptyString, _ => Some s
  | String a p', String b s' => if Ascii.eqb a b then strip_prefix p' s' else None
  | String _ _, EmptyString => None
  end.

(** The longest prefix of [s] whose characters satisfy [f], and the rest. *)
Fixpoint span (f : ascii -> bool) (s : string) : string * string :=
  match s with
  | EmptyString => (EmptyString, EmptyString)
  | String c r =>
      if f c then let (a, b) := span f r in (String c a, b)
      else (EmptyString, s)
  end.

Fixpoint str_forall (f : ascii -> bool) (s : string) : bool :=
  match s with
  | EmptyString => true
  | String c r => f c && str_forall f r
  end.

Definition str_empty (s : string) : bool :=
  match s with EmptyString => true | _ => false end.

(** One or more characters of the class [f], greedily. *)
Definition plus (f : ascii -> bool) (s : string) : option (string * string) :=
  let (a, b) := span f s in if str_empty a then None else Some (a, b).

(** Exactly [n] characters of the class [f]. *)
Fixpoint exactly (n : nat) (f : ascii -> bool) (s : string) : option string :=
  match n with
  | O => Some s
  | S k => match s with
           | String c r => if f c then exactly k f r else None
           | EmptyString => None
           end
  end.

(** [s.split('\n')]: never the empty list. *)
Fixpoint split_lines (s : string) : list string :=
  match s with
  | EmptyString => [EmptyString]
  | String c r =>
      if Ascii.eqb c LF then EmptyString :: split_lines r
      else match split_lines r with
           | l :: ls => String c l :: ls
           | [] => [String c EmptyString]
           end
  end.

(** [lines.join('\n')]. *)
Fixpoint join_lines (ls : list string) : string :=
  match ls with
  | [] => EmptyString
  | [l] => l
  | l :: r => l +:+ String LF (join_lines r)
  end.

(** [s.replace(pat, rep)] with a string pattern: the first occurrence only. *)
Fixpoint replace_first (pat rep s : string) : string :=
  match strip_prefix pat s with
  | Some rest => rep +:+ rest
  | None => match s with
            | EmptyString => EmptyString
            | String c r => String c (replace_first pat rep r)
            end
  end.

(** [s.replace(/\//g, '-')]. *)
Fixpoint slashes_to_dashes (s : string) : string :=
  match s with
  | EmptyString => EmptyString
  | String c r =>
      String (if Ascii.eqb c "/" then "-"%char else c) (slashes_to_dashes r)
  end.

Definition digit_char (d : Z) : ascii := ascii_of_nat (48 + Z.to_nat d).
Definition digit_val (c : ascii) : Z := Z.of_nat (nat_of_ascii c) - 48.

(** The decimal digits of a non-negative integer, most significant first. *)
Fixpoint dec_digits (fuel : nat) (n : Z) (acc : string) : string :=
  match fuel with
  | O => acc
  | S k =>
      let acc' := String (digit_char (n mod 10)) acc in
      if n <? 10 then acc' else dec_digits k (n / 10) acc'
  end.

(** [String(n)] and [`${n}`] for an integer. *)
Definition dec (n : Z) : string :=
  if n <? 0 then String "-" (dec_digits (S (Z.to_nat (Z.log2 (- n)))) (- n) EmptyString)
  else dec_digits (S (Z.to_nat (Z.log2 n))) n EmptyString.

(** [s.padStart(n, '0')]. *)
Fixpoint zeros (n : nat) : string :=
  match n with O => EmptyString | S k => String "0" (zeros k) end.

Definition padStart0 (n : nat) (s : string) : string :=
  zeros (n - String.length s) +:+ s.

(** The value of a string of decimal digits, as [parseInt] reads it. *)
Fixpoint digits_val (acc : Z) (s : string) : Z :=
  match s with
  | EmptyString => acc
  | String c r => digits_val (10 * acc + digit_val c) r
  end.

(** [s.match(/\d+/)[0]]: the first run of digits of [s]. *)
Fixpoint first_digits (s : string) : string :=
  match s with
  | EmptyString => EmptyString
  | String c r => if is_digit c then fst (span is_digit s) else first_digits r
  end.

Definition first_chars (n : nat) (s : string) : string := substring 0 n s.

(* ================================================================= *)
(** ** The regular expressions of [parseWorklog] *)

Definition then_char (c : ascii) (s : string) : option string :=
  match s with
  | String a r => if Ascii.eqb a c then Some r else None
  | EmptyString => None
  end.

Definition is_some {A} (o : option A) : bool :=
  match o with Some _ => true | None => false end.

(** [/^## Week \d+/] *)
Definition week_header_re (line : string) : bool :=
  match strip_prefix "## Week " line with
  | Some r => is_some (plus is_digit r)
  | None => false
  end.

(** [/^### \d{4}\/\d{2}\/\d{2}/] *)
Definition day_header_re (line : string) : bool :=
  is_some (r ← strip_prefix "### " line;
           r ← exactly 4 is_digit r;
           r ← then_char "/" r;
           r ← exactly 2 is_digit r;
           r ← then_char "/" r;
           exactly 2 is_digit r).

(** The common start [- [A-Z]+-\d+] of the two task expressions: the
    tracking id and what follows it.  The classes [[A-Z]] and [\d] never
    contain the character that has to follow them, so the greedy match is
    the only one. *)
Definition tracking_id_prefix (line : string) : option (string * string) :=
  r ← strip_prefix "- " line;
  '(letters, r) ← plus is_upper r;
  r ← then_char "-" r;
  '(digits, r) ← plus is_digit r;
  Some (letters +:+ "-" +:+ digits, r).

(** [/^- [A-Z]+-\d+:/] *)
Definition task_line_re (line : string) : bool :=
  is_some ('(_, r) ← tracking_id_prefix line; then_char ":" r).

(** [/^- ([A-Z]+-\d+): (.+)$/]: the two groups. *)
Definition task_groups_re (line : string) : option (string * string) :=
  '(id, r) ← tracking_id_prefix line;
  r ← then_char ":" r;
  r ← then_char " " r;
  if negb (str_empty r) && str_forall is_dot r then Some (id, r) else None.

(* ================================================================= *)
(** ** ECMAScript time values *)

Module JSDate.

Definition msPerDay : Z := 86400000.

Definition Day (t : Z) : Z := t / msPerDay.
Definition TimeWithinDay (t : Z) : Z := t mod msPerDay.

Definition DaysInYear (y : Z) : Z :=
  if negb (y mod 4 =? 0) then 365
  else if negb (y mod 100 =? 0) then 366
  else if negb (y mod 400 =? 0) then 365
  else 366.

Definition DayFromYear (y : Z) : Z :=
  365 * (y - 1970) + (y - 1969) / 4 - (y - 1901) / 100 + (y - 1601) / 400.

Definition TimeFromYear (y : Z) : Z := msPerDay * DayFromYear y.

(** The year of a day number.  ECMAScript defines it as the largest [y]
    with [DayFromYear y <= d]; it is computed here from an estimate that is
    off by at most one ([YearFromDay_spec] below). *)
Definition YearFromDay (d : Z) : Z :=
  let y0 := 1970 + (400 * d) / 146097 in
  if d <? DayFromYear y0 then y0 - 1
  else if DayFromYear (y0 + 1) <=? d then y0 + 1
  else y0.

Definition YearFromTime (t : Z) : Z := YearFromDay (Day t).

Definition InLeapYear (t : Z) : Z :=
  if DaysInYear (YearFromTime t) =? 366 then 1 else 0.

Definition DayWithinYear (t : Z) : Z := Day t - DayFromYear (YearFromTime t).

(** The day within the year on which month [m] (0 to 11) starts. *)
Definition month_start (leap m : Z) : Z :=
  if m =? 0 then 0 else if m =? 1 then 31
  else if m =? 2 then 59 + leap else if m =? 3 then 90 + leap
  else if m =? 4 then 120 + leap else if m =? 5 then 151 + leap
  else if m =? 6 then 181 + leap else if m =? 7 then 212 + leap
  else if m =? 8 then 243 + leap else if m =? 9 then 273 + leap
  else if m =? 10 then 304 + leap else if m =? 11 then 334 + leap
  else 365 + leap.

Definition MonthFromTime (t : Z) : Z :=
  let d := DayWithinYear t in
  let leap := InLeapYear t in
  if d <? 31 then 0 else if d <? 59 + leap then 1
  else if d <? 90 + leap then 2 else if d <? 120 + leap then 3
  else if d <? 151 + leap then 4 else if d <? 181 + leap then 5
  else if d <? 212 + leap then 6 else if d <? 243 + leap then 7
  else if d <? 273 + leap then 8 else if d <? 304 + leap then 9
  else if d <? 334 + leap then 10 else 11.

Definition DateFromTime (t : Z) : Z :=
  DayWithinYear t - month_start (InLeapYear t) (MonthFromTime t) + 1.

Definition WeekDay (t : Z) : Z := (Day t + 4) mod 7.

(** [MakeDay]: the day number of the first of the month, plus [date - 1];
    months and dates out of range carry over. *)
Definition MakeDay (year month date : Z) : Z :=
  let ym := year + month / 12 in
  let mn := month mod 12 in
  let leap := if DaysInYear ym =? 366 then 1 else 0 in
  DayFromYear ym + month_start leap mn + date - 1.

Definition MakeDate (day time : Z) : Z := day * msPerDay + time.

Definition DaysInMonth (year month : Z) : Z :=
  MakeDay year (month + 1) 1 - MakeDay year month 1.

(** [Date.UTC(year, month, date)]: a year from 0 to 99 means 1900 + year. *)
Definition Date_UTC (year month date : Z) : Z :=
  let yr := if (0 <=? year) && (year <=? 99) then 1900 + year else year in
  MakeDate (MakeDay yr month date) 0.

Definition getUTCFullYear (t : Z) : Z := YearFromTime t.
Definition getUTCDate (t : Z) : Z := DateFromTime t.
Definition getUTCDay (t : Z) : Z := WeekDay t.

(** [d.setUTCDate(dt)]: the new time value. *)
Definition setUTCDate (t dt : Z) : Z :=
  MakeDate (MakeDay (YearFromTime t) (MonthFromTime t) dt) (TimeWithinDay t).

(** The date-only form [YYYY-MM-DD] of the ECMAScript date-time string
    format: midnight UTC of that day. *)
Definition iso_date (s : string) : option Z :=
  let y := first_chars 4 s in
  let m := substring 5 2 s in
  let d := substring 8 2 s in
  if (String.length s =? 10)%nat
     && str_forall is_digit y && str_forall is_digit m && str_forall is_digit d
     && String.eqb (substring 4 1 s) "-" && String.eqb (substring 7 1 s) "-"
  then
    let yv := digits_val 0 y in
    let mv := digits_val 0 m in
    let dv := digits_val 0 d in
    if (1 <=? mv) && (mv <=? 12) && (1 <=? dv) && (dv <=? DaysInMonth yv (mv - 1))
    then Some (MakeDate (MakeDay yv (mv - 1) dv) 0)
    else None
  else None.

(** [d.toISOString().slice(0, 10)]. *)
Definition toISOString_10 (t : Z) : string :=
  let y := YearFromTime t in
  let md := "-" +:+ padStart0 2 (dec (MonthFromTime t + 1))
            +:+ "-" +:+ padStart0 2 (dec (DateFromTime t)) in
  if (0 <=? y) && (y <=? 9999) then padStart0 4 (dec y) +:+ md
  else first_chars 10
         ((if y <? 0 then "-" else "+") +:+ padStart0 6 (dec (Z.abs y)) +:+ md).

End JSDate.

(* ================================================================= *)
(** ** The host *)

Record Host := {
  (** offset of local time from UTC, in milliseconds (a zone without
      daylight-saving transitions) *)
  LocalTZA : Z;
  (** [new Date()]: the time value of the clock *)
  now : Z;
  (** [Date.parse] on a string that is not of the form [YYYY-MM-DD]: the
      other ISO forms and the engine's own heuristics *)
  other_parse : string -> option Z;
  (** [getWorklogsPath()] : [CODE_DIARY_PATH] or the default *)
  worklogsPath : string;
  (** what [npx prettier --write] makes of a file's text; [None] when the
      command fails *)
  prettier : string -> option string;
}.

(* ================================================================= *)
(** ** Errors *)

Inductive Error :=
| MissingFields           (* 'Missing required fields: ...' *)
| InvalidDate (dateStr : string)   (* `Invalid date: ${dateStr}` *)
| TypeError               (* a property of null or undefined is read *)
| IOFailure               (* a file system call fails *)
| ProcessExit.            (* formatWorklog: process.exit(1) *)

Inductive Result (A : Type) :=
| Ok (a : A)
| Throw (e : Error).
Arguments Ok {A} a.
Arguments Throw {A} e.

#[global] Instance Result_ret : MRet Result := fun A a => Ok a.
#[global] Instance Result_bind : MBind Result := fun A B f r =>
  match r with Ok a => f a | Throw e => Throw e end.

(* ================================================================= *)
(** ** get_week_info.cjs *)

Module WeekInfo.
Import JSDate.

Section WithHost.
Variable h : Host.

Definition LocalTime (t : Z) : Z := t + LocalTZA h.
Definition UTC (t : Z) : Z := t - LocalTZA h.

Definition getFullYear (t : Z) : Z := YearFromTime (LocalTime t).
Definition getMonth (t : Z) : Z := MonthFromTime (LocalTime t).
Definition getDate (t : Z) : Z := DateFromTime (LocalTime t).
Definition getDay (t : Z) : Z := WeekDay (LocalTime t).

(** [d.setDate(dt)]: the new time value. *)
Definition setDate (t dt : Z) : Z :=
  let lt := LocalTime t in
  UTC (MakeDate (MakeDay (YearFromTime lt) (MonthFromTime lt) dt) (TimeWithinDay lt)).

(** [new Date(s)] for a string [s]: the time value, [None] for NaN. *)
Definition Date_parse (s : string) : option Z :=
  match iso_date s with
  | Some t => Some t
  | None => other_parse h s
  end.

(** [Math.ceil(a / b)] for integers [a] and [b > 0]. *)
Definition ceil_div (a b : Z) : Z := - ((- a) / b).

Definition getWeekNumber (date : Z) : Z :=
  let d := Date_UTC (getFullYear date) (getMonth date) (getDate date) in
  let dayNum := if getUTCDay d =? 0 then 7 else getUTCDay d in
  let d := setUTCDate d (getUTCDate d + 4 - dayNum) in
  let yearStart := Date_UTC (getUTCFullYear d) 0 1 in
  let weekNum := ceil_div ((d - yearStart) / 86400000 + 1) 7 in
  weekNum.

Record WeekRange := { range_start : string; range_end : string }.

Definition getWeekRange (date : Z) : WeekRange :=
  let d := date in
  let day := getDay d in
  let diff := getDate d - day + (if day =? 0 then -6 else 1) in
  let monday := setDate d diff in
  let sunday := setDate monday (getDate monday + 6) in
  {| range_start := toISOString_10 monday;
     range_end := toISOString_10 sunday |}.

Definition weekday_short (d : Z) : string :=
  nth (Z.to_nat d) ["Sun"; "Mon"; "Tue"; "Wed"; "Thu"; "Fri"; "Sat"] "".

Definition month_long (m : Z) : string :=
  nth (Z.to_nat m)
    ["January"; "February"; "March"; "April"; "May"; "June"; "July";
     "August"; "September"; "October"; "November"; "December"] "".

Definition month_short (m : Z) : string := first_chars 3 (month_long m).

Record Info := {
  info_date : string;
  year : Z;
  month : string;
  weekNumber : Z;
  weekHeader : string;
  weekRange : WeekRange;
  dailyHeader : string;    (* en-US, short weekday and month *)
  monthHeader : string;    (* en-US, long month and year *)
}.

Definition truthy (s : option string) : bool :=
  match s with Some s => negb (str_empty s) | None => false end.

Definition getWeekInfo (dateStr : option string) : Result Info :=
  let date := if truthy dateStr then Date_parse (default "" dateStr)
              else Some (now h) in
  match date with
  | None => Throw (InvalidDate (default "" dateStr))
  | Some date =>
      let weekNum := getWeekNumber date in
      let weekRange := getWeekRange date in
      let year := getFullYear date in
      let month := padStart0 2 (dec (getMonth date + 1)) in
      Ok {| info_date := toISOString_10 date;
            year := year;
            month := dec year +:+ "-" +:+ month;
            weekNumber := weekNum;
            weekHeader := "Week " +:+ dec weekNum;
            weekRange := weekRange;
            dailyHeader :=
              weekday_short (getDay date) +:+ ", "
              +:+ month_short (getMonth date) +:+ " " +:+ dec (getDate date)
              +:+ ", " +:+ dec year;
            monthHeader := month_long (getMonth date) +:+ " " +:+ dec year |}
  end.

End WithHost.
End WeekInfo.

(* ================================================================= *)
(** ** [Array.prototype.sort] and [Array.prototype.find] *)

(** The comparator's number, with NaN as [None]; [sort] reads NaN as 0. *)
Definition cmp_value (v : option Z) : Z := default 0 v.

(** [sort] is stable.  It is modelled by the insertion sort: an element
    moves behind the ones that follow it only while the comparator is
    positive.  On a consistent comparator every stable sort gives this
    result. *)
Fixpoint sort_insert {A} (cmp : A -> A -> option Z) (x : A) (l : list A) : list A :=
  match l with
  | [] => [x]
  | y :: r => if 0 <? cmp_value (cmp x y) then y :: sort_insert cmp x r
              else x :: l
  end.

Definition js_sort {A} (cmp : A -> A -> option Z) (l : list A) : list A :=
  fold_right (sort_insert cmp) [] l.

(** [l.find(p)] returns the first element that satisfies [p]; the caller
    then mutates that object in place.  [alter_first p f l] is the array
    after such a mutation [f]. *)
Fixpoint alter_first {A} (p : A -> bool) (f : A -> A) (l : list A) : list A :=
  match l with
  | [] => []
  | x :: r => if p x then f x :: r else x :: alter_first p f r
  end.

(* ================================================================= *)
(** ** log_work.cjs: the document *)

Module Worklog.

Record Task := {
  trackingId : string;
  summary : string;
  task_content : list string;
}.

Record Day := {
  day_header : string;
  date : string;
  day_content : list string;
  tasks : list Task;
}.

Record Week := {
  week_header : string;
  weekNumber : Z;
  week_content : list string;
  days : list Day;
}.

(** An element of [sections]: [{type: 'header', lines}] or a week. *)
Inductive TopSection :=
| HeaderBlock (lines : list string)
| WeekSection (w : Week).

Definition is_header (s : TopSection) : bool :=
  match s with HeaderBlock _ => true | WeekSection _ => false end.
Definition is_week (s : TopSection) : bool := negb (is_header s).

Definition header_lines (s : TopSection) : list string :=
  match s with HeaderBlock ls => ls | WeekSection _ => [] end.

Definition weeks_of (sections : list TopSection) : list Week :=
  flat_map (fun s => match s with WeekSection w => [w] | HeaderBlock _ => [] end)
           sections.

Definition add_task_content (t : Task) (ls : list string) : Task :=
  {| trackingId := trackingId t; summary := summary t;
     task_content := task_content t ++ ls |}.
Definition add_day_content (d : Day) (ls : list string) : Day :=
  {| day_header := day_header d; date := date d;
     day_content := day_content d ++ ls; tasks := tasks d |}.
Definition add_week_content (w : Week) (ls : list string) : Week :=
  {| week_header := week_header w; weekNumber := weekNumber w;
     week_content := week_content w ++ ls; days := days w |}.
Definition push_task (d : Day) (t : Task) : Day :=
  {| day_header := day_header d; date := date d;
     day_content := day_content d; tasks := tasks d ++ [t] |}.
Definition push_day (w : Week) (d : Day) : Week :=
  {| week_header := week_header w; weekNumber := weekNumber w;
     week_content := week_content w; days := days w ++ [d] |}.

(* ----------------------------------------------------------------- *)
(** *** parseWorklog *)

(** The variables of the loop. *)
Record PState := {
  sections : list TopSection;
  currentWeek : option Week;
  currentDay : option Day;
  currentTask : option Task;
  buffer : list string;
}.

Definition init : PState :=
  {| sections := []; currentWeek := None; currentDay := None;
     currentTask := None; buffer := [] |}.

Definition flushBuffer (st : PState) : PState :=
  match buffer st with
  | [] => st
  | _ :: _ =>
      match currentTask st, currentDay st, currentWeek st with
      | Some t, _, _ =>
          {| sections := sections st; currentWeek := currentWeek st;
             currentDay := currentDay st;
             currentTask := Some (add_task_content t (buffer st));
             buffer := [] |}
      | None, Some d, _ =>
          {| sections := sections st; currentWeek := currentWeek st;
             currentDay := Some (add_day_content d (buffer st));
             currentTask := None; buffer := [] |}
      | None, None, Some w =>
          {| sections := sections st;
             currentWeek := Some (add_week_content w (buffer st));
             currentDay := None; currentTask := None; buffer := [] |}
      | None, None, None =>
          {| sections := sections st ++ [HeaderBlock (buffer st)];
             currentWeek := None; currentDay := None; currentTask := None;
             buffer := [] |}
      end
  end.

(** [parent.list.push(child)] when [child] is not null; reading [.list] of
    a null parent throws. *)
Definition push_into {P C} (push : P -> C -> P)
    (parent : option P) (child : option C) : Result (option P) :=
  match child, parent with
  | None, _ => Ok parent
  | Some c, Some p => Ok (Some (push p c))
  | Some _, None => Throw TypeError
  end.

Definition close_week (st : PState) : list TopSection :=
  match currentWeek st with
  | Some w => sections st ++ [WeekSection w]
  | None => sections st
  end.

(** One turn of the [for (const line of lines)] loop. *)
Definition step (st : PState) (line : string) : Result PState :=
  if week_header_re line then
    let st := flushBuffer st in
    Ok {| sections := close_week st;
          currentWeek :=
            Some {| week_header := line;
                    weekNumber := digits_val 0 (first_digits line);
                    week_content := []; days := [] |};
          currentDay := None; currentTask := None; buffer := buffer st |}
  else if day_header_re line then
    let st := flushBuffer st in
    w ← push_into push_day (currentWeek st) (currentDay st);
    Ok {| sections := sections st; currentWeek := w;
          currentDay :=
            Some {| day_header := line;
                    date := replace_first "### " "" line;
                    day_content := []; tasks := [] |};
          currentTask := None; buffer := buffer st |}
  else if is_some (currentDay st) && task_line_re line then
    let st := flushBuffer st in
    d ← push_into push_task (currentDay st) (currentTask st);
    match task_groups_re line with
    | None => Throw TypeError
    | Some (id, text) =>
        Ok {| sections := sections st; currentWeek := currentWeek st;
              currentDay := d;
              currentTask :=
                Some {| trackingId := id; summary := text; task_content := [] |};
              buffer := buffer st |}
    end
  else
    Ok {| sections := sections st; currentWeek := currentWeek st;
          currentDay := currentDay st; currentTask := currentTask st;
          buffer := buffer st ++ [line] |}.

Fixpoint run (st : PState) (lines : list string) : Result PState :=
  match lines with
  | [] => Ok st
  | l :: r => st' ← step st l; run st' r
  end.

(** What follows the loop. *)
Definition finish (st : PState) : Result (list TopSection) :=
  let st := flushBuffer st in
  d ← push_into push_task (currentDay st) (currentTask st);
  w ← push_into push_day (currentWeek st) d;
  Ok (match w with
      | Some w => sections st ++ [WeekSection w]
      | None => sections st
      end).

Definition parse_lines (lines : list string) : Result (list TopSection) :=
  st ← run init lines; finish st.

Definition parseWorklog (content : string) : Result (list TopSection) :=
  parse_lines (split_lines content).

End Worklog.

(* ================================================================= *)
(** ** log_work.cjs: logWork *)

Module LogWork.
Import JSDate WeekInfo Worklog.

(** The file system, and the calls made on it so far. *)
Inductive Event :=
| EExists (path : string)
| EMkdir (path : string)
| ERead (path : string)
| EWrite (path content : string)
| EFormat (path : string).

Record World := {
  files : gmap string string;
  dirs : gset string;
  trace : list Event;
}.

Definition IO (A : Type) : Type := World -> Result A * World.

#[global] Instance IO_ret : MRet IO := fun A a w => (Ok a, w).
#[global] Instance IO_bind : MBind IO := fun A B f m w =>
  match m w with
  | (Ok a, w') => f a w'
  | (Throw e, w') => (Throw e, w')
  end.

Definition throw {A} (e : Error) : IO A := fun w => (Throw e, w).
Definition lift {A} (r : Result A) : IO A := fun w => (r, w).

Definition log_event (e : Event) (w : World) : World :=
  {| files := files w; dirs := dirs w; trace := trace w ++ [e] |}.

Definition existsSync (p : string) : IO bool := fun w =>
  (Ok (bool_decide (p ∈ dirs w) || is_some (files w !! p)),
   log_event (EExists p) w).

Definition mkdirSync (p : string) : IO unit := fun w =>
  (Ok tt, log_event (EMkdir p)
            {| files := files w; dirs := {[p]} ∪ dirs w; trace := trace w |}).

Definition readFileSync (p : string) : IO string := fun w =>
  (match files w !! p with Some c => Ok c | None => Throw IOFailure end,
   log_event (ERead p) w).

Definition writeFileSync (p c : string) : IO unit := fun w =>
  (Ok tt, log_event (EWrite p c)
            {| files := <[p := c]> (files w); dirs := dirs w; trace := trace w |}).

(** [path.join(a, b)], without the normalisation of the result. *)
Definition path_join (a b : string) : string := a +:+ "/" +:+ b.

Section WithHost.
Variable h : Host.

(** format_worklog.cjs: prettier rewrites the file; any failure ends the
    process. *)
Definition formatWorklog (p : string) : IO unit := fun w =>
  let w := log_event (EFormat p) w in
  match files w !! p with
  | None => (Throw ProcessExit, w)
  | Some c =>
      match prettier h c with
      | None => (Throw ProcessExit, w)
      | Some c' =>
          (Ok tt, {| files := <[p := c']> (files w); dirs := dirs w;
                     trace := trace w |})
      end
  end.

Definition formatDateHeader (dateStr : string) : string :=
  match Date_parse h dateStr with
  | None => "NaN/NaN/NaN"
  | Some date =>
      let year := getFullYear h date in
      let month := padStart0 2 (dec (getMonth h date + 1)) in
      let day := padStart0 2 (dec (getDate h date)) in
      dec year +:+ "/" +:+ month +:+ "/" +:+ day
  end.

(** [d2 - d1], NaN when one of the two is an invalid Date. *)
Definition compareDates (dateStr1 dateStr2 : string) : option Z :=
  d1 ← Date_parse h (slashes_to_dashes dateStr1);
  d2 ← Date_parse h (slashes_to_dashes dateStr2);
  Some (d2 - d1).

(** The comparator of [sections.sort]. *)
Definition compareSections (a b : TopSection) : option Z :=
  match a, b with
  | WeekSection a, WeekSection b => Some (Worklog.weekNumber b - Worklog.weekNumber a)
  | _, _ => Some 0
  end.

Definition compareDays (a b : Day) : option Z := compareDates (date a) (date b).

Record Options := {
  opt_date : option string;
  opt_trackingId : option string;
  opt_summary : option string;
  opt_workItems : list string;
}.

(* ----------------------------------------------------------------- *)
(** *** Find or create, then add *)

Definition workLine (workItem : string) : string := "  - " +:+ workItem.

(** [content.includes(line)] *)
Definition includes (content : list string) (line : string) : bool :=
  existsb (String.eqb line) content.

Definition add_work_item (content : list string) (workItem : string) : list string :=
  if includes content (workLine workItem) then content
  else content ++ [workLine workItem].

Definition add_work_items (content : list string) (workItems : list string) : list string :=
  fold_left add_work_item workItems content.

Definition has_id (id : string) (t : Task) : bool := String.eqb (trackingId t) id.
Definition has_date (dh : string) (d : Day) : bool := String.eqb (date d) dh.
Definition has_number (n : Z) (s : TopSection) : bool :=
  match s with
  | WeekSection w => Worklog.weekNumber w =? n
  | HeaderBlock _ => false
  end.

Definition set_summary (text : string) (t : Task) : Task :=
  {| trackingId := trackingId t; summary := text; task_content := task_content t |}.
Definition set_task_content (f : list string -> list string) (t : Task) : Task :=
  {| trackingId := trackingId t; summary := summary t;
     task_content := f (task_content t) |}.
Definition set_tasks (f : list Task -> list Task) (d : Day) : Day :=
  {| day_header := day_header d; date := date d;
     day_content := day_content d; tasks := f (tasks d) |}.
Definition set_days (f : list Day -> list Day) (s : TopSection) : TopSection :=
  match s with
  | WeekSection w =>
      WeekSection {| week_header := week_header w; weekNumber := Worklog.weekNumber w;
                     week_content := week_content w; days := f (days w) |}
  | HeaderBlock ls => HeaderBlock ls
  end.

Definition merge_tasks (id text : string) (workItems : list string)
    (ts : list Task) : list Task :=
  let ts :=
    if existsb (has_id id) ts then alter_first (has_id id) (set_summary text) ts
    else ts ++ [{| trackingId := id; summary := text; task_content := [] |}] in
  alter_first (has_id id)
    (set_task_content (fun c => add_work_items c workItems)) ts.

Definition merge_days (dh id text : string) (workItems : list string)
    (ds : list Day) : list Day :=
  let ds :=
    if existsb (has_date dh) ds then ds
    else js_sort compareDays
           (ds ++ [{| day_header := "### " +:+ dh; date := dh;
                      day_content := []; tasks := [] |}]) in
  alter_first (has_date dh) (set_tasks (merge_tasks id text workItems)) ds.

Definition merge_sections (weekInfo : Info) (dh id text : string)
    (workItems : list string) (sections : list TopSection) : list TopSection :=
  let n := WeekInfo.weekNumber weekInfo in
  let sections :=
    if existsb (has_number n) sections then sections
    else js_sort compareSections
           (sections ++
            [WeekSection {| week_header := "## " +:+ weekHeader weekInfo;
                            weekNumber := n;
                            week_content := [""; "Last week:"; ""; "This week:"; ""];
                            days := [] |}]) in
  alter_first (has_number n) (set_days (merge_days dh id text workItems)) sections.

(* ----------------------------------------------------------------- *)
(** *** Rebuild content *)

Definition task_line (t : Task) : string :=
  "- " +:+ trackingId t +:+ ": " +:+ summary t.

Definition render_task (t : Task) : list string :=
  "" :: task_line t :: task_content t.

Definition render_day (d : Day) : list string :=
  "" :: day_header d :: day_content d ++ flat_map render_task (tasks d).

Definition render_week (w : Week) : list string :=
  "" :: week_header w :: week_content w ++ flat_map render_day (days w).

Definition render_lines (sections : list TopSection) : list string :=
  let headerSections := List.filter is_header sections in
  let weekSections := List.filter is_week sections in
  flat_map header_lines headerSections
  ++ flat_map (fun s => match s with WeekSection w => render_week w | _ => [] end)
       weekSections.

Definition render (sections : list TopSection) : string :=
  join_lines (render_lines sections) +:+ String LF "".

(* ----------------------------------------------------------------- *)
(** *** logWork *)

Record Logged := {
  worklogFile : string;
  logged_date : string;
  logged_dailyHeader : string;
  logged_trackingId : string;
  logged_summary : string;
  logged_workItems : list string;
}.

(** The text a new monthly file starts from. *)
Definition new_file_content (weekInfo : Info) : string :=
  "# " +:+ replace_first "-" "/" (month weekInfo) +:+ " Contribution log"
  +:+ String LF "".

Definition logWork (options : Options) : IO Logged :=
  if negb (truthy (opt_trackingId options)) || negb (truthy (opt_summary options))
     || (length (opt_workItems options) =? 0)%nat
  then throw MissingFields
  else
    let trackingId := default "" (opt_trackingId options) in
    let summary := default "" (opt_summary options) in
    let workItems := opt_workItems options in
    let dateStr := if truthy (opt_date options) then default "" (opt_date options)
                   else toISOString_10 (now h) in
    weekInfo ← lift (getWeekInfo h (Some dateStr));
    let dailyHeader := formatDateHeader dateStr in
    let logsDir := path_join (worklogsPath h) "logs" in
    let worklogFile := path_join logsDir (month weekInfo +:+ ".md") in
    dirExists ← existsSync logsDir;
    _ ← (if dirExists : bool then mret tt else mkdirSync logsDir);
    fileExists ← existsSync worklogFile;
    content ← (if fileExists : bool then readFileSync worklogFile
               else mret (new_file_content weekInfo));
    sections ← lift (parseWorklog content);
    let sections :=
      merge_sections weekInfo dailyHeader trackingId summary workItems sections in
    let newContent := render sections in
    _ ← writeFileSync worklogFile newContent;
    _ ← formatWorklog worklogFile;
    mret {| worklogFile := worklogFile; logged_date := dateStr;
            logged_dailyHeader := dailyHeader; logged_trackingId := trackingId;
            logged_summary := summary; logged_workItems := workItems |}.

End WithHost.
End LogWork.

(* ================================================================= *)
(** ** log_work.cjs: the command line *)

Module Cli.
Import LogWork.

Definition no_args : Options :=
  {| opt_date := None; opt_trackingId := None; opt_summary := None;
     opt_workItems := [] |}.

Definition with_date (v : string) (a : Options) : Options :=
  {| opt_date := Some v; opt_trackingId := opt_trackingId a;
     opt_summary := opt_summary a; opt_workItems := opt_workItems a |}.
Definition with_trackingId (v : string) (a : Options) : Options :=
  {| opt_date := opt_date a; opt_trackingId := Some v;
     opt_summary := opt_summary a; opt_workItems := opt_workItems a |}.
Definition with_summary (v : string) (a : Options) : Options :=
  {| opt_date := opt_date a; opt_trackingId := opt_trackingId a;
     opt_summary := Some v; opt_workItems := opt_workItems a |}.
Definition push_workItem (v : string) (a : Options) : Options :=
  {| opt_date := opt_date a; opt_trackingId := opt_trackingId a;
     opt_summary := opt_summary a; opt_workItems := opt_workItems a ++ [v] |}.

(** The loop of [parseArgs], with [argv] from the index [i] on.  One of
    the four options takes the argument after it as its value and the loop
    goes on behind that; an option in the last place, and any other
    argument, is passed over. *)
Fixpoint parseArgs_from (args : Options) (argv : list string) : Options :=
  match argv with
  | [] => args
  | arg :: rest =>
      match rest with
      | [] => args
      | v :: rest' =>
          if String.eqb arg "--date" then parseArgs_from (with_date v args) rest'
          else if String.eqb arg "--tracking-id"
          then parseArgs_from (with_trackingId v args) rest'
          else if String.eqb arg "--summary"
          then parseArgs_from (with_summary v args) rest'
          else if String.eqb arg "--work"
          then parseArgs_from (push_workItem v args) rest'
          else parseArgs_from args rest
      end
  end.

Definition parseArgs (argv : list string) : Options := parseArgs_from no_args argv.

End Cli.

(* ================================================================= *)
(** ** parse_task_input.cjs *)

Module TaskInput.
Import WeekInfo.

(** The class [\s], which is also what [trim] removes: in 8-bit text the
    tab, the line feed, the vertical tab, the form feed, the carriage
    return, the space and the no-break space. *)
Definition is_space (c : ascii) : bool :=
  let n := nat_of_ascii c in
  ((9 <=? n)%nat && (n <=? 13)%nat) || (n =? 32)%nat || (n =? 160)%nat.

Definition trimStart (s : string) : string := snd (span is_space s).

Fixpoint trimEnd (s : string) : string :=
  match s with
  | EmptyString => EmptyString
  | String c r =>
      let r' := trimEnd r in
      if str_empty r' && is_space c then EmptyString else String c r'
  end.

(** [s.trim()] *)
Definition trim (s : string) : string := trimEnd (trimStart s).

Fixpoint last_char (s : string) : option ascii :=
  match s with
  | EmptyString => None
  | String c EmptyString => Some c
  | String _ r => last_char r
  end.

(** [[A-Z]+-\d+] at the start of a line: the id and what follows it.
    Neither class contains the character that has to follow it, so the
    greedy match is the only one. *)
Definition jira_id_prefix (line : string) : option (string * string) :=
  '(letters, r) ← plus is_upper line;
  r ← then_char "-" r;
  '(digits, r) ← plus is_digit r;
  Some (letters +:+ "-" +:+ digits, r).

(** [/^([A-Z]+-\d+)$/]: the group. *)
Definition jiraIdMatch (line : string) : option string :=
  '(id, r) ← jira_id_prefix line;
  if str_empty r then Some id else None.

(** [/^([A-Z]+-\d+)\s+(.+)$/]: the two groups.  [\s+] takes the whole
    run of white space when characters follow it; they all have to be
    matched by [.], up to the end.  When the line ends with the run,
    [\s+] gives its last character back to [(.+)], which needs the run to
    have two characters and the last one to be no line terminator. *)
Definition oneLineMatch (line : string) : option (string * string) :=
  '(id, r) ← jira_id_prefix line;
  let (ws, rest) := span is_space r in
  if str_empty ws then None
  else if negb (str_empty rest) then
    if str_forall is_dot rest then Some (id, rest) else None
  else
    match last_char ws with
    | Some c =>
        if (2 <=? String.length ws)%nat && is_dot c
        then Some (id, String c EmptyString) else None
    | None => None
    end.

Record Task := {
  trackingId : option string;
  summary : option string;
}.

(** The variables of the loop. *)
Record TState := {
  tasks : list Task;
  currentTask : option Task;
}.

(** [if (currentTask) tasks.push(currentTask)] *)
Definition push_current (st : TState) : list Task :=
  match currentTask st with
  | Some t => tasks st ++ [t]
  | None => tasks st
  end.

(** One turn of the loop. *)
Definition step (st : TState) (line : string) : TState :=
  match jiraIdMatch line with
  | Some id =>
      {| tasks := push_current st;
         currentTask := Some {| trackingId := Some id; summary := None |} |}
  | None =>
      match oneLineMatch line with
      | Some (id, text) =>
          {| tasks := push_current st
                      ++ [{| trackingId := Some id; summary := Some text |}];
             currentTask := None |}
      | None =>
          match currentTask st with
          | Some t =>
              if negb (truthy (summary t))
              then {| tasks := tasks st
                               ++ [{| trackingId := trackingId t;
                                      summary := Some line |}];
                      currentTask := None |}
              else {| tasks := tasks st
                               ++ [{| trackingId := None; summary := Some line |}];
                      currentTask := currentTask st |}
          | None =>
              {| tasks := tasks st
                          ++ [{| trackingId := None; summary := Some line |}];
                 currentTask := None |}
          end
      end
  end.

(** The warning written with [console.error]. *)
Definition warning (t : Task) : string :=
  "Warning: JIRA ID " +:+ default "null" (trackingId t) +:+ " has no summary".

(** What follows the loop: the tasks, and the lines written to the error
    stream. *)
Definition finish (st : TState) : list Task * list string :=
  match currentTask st with
  | Some t =>
      if truthy (summary t) then (tasks st ++ [t], [])
      else (tasks st, [warning t])
  | None => (tasks st, [])
  end.

(** [input.trim().split('\n').map(line => line.trim()).filter(Boolean)] *)
Definition input_lines (input : string) : list string :=
  List.filter (fun l => negb (str_empty l)) (map trim (split_lines (trim input))).

Definition parseTaskInput (input : string) : list Task * list string :=
  finish (fold_left step (input_lines input)
            {| tasks := []; currentTask := None |}).

End TaskInput.

(* ================================================================= *)
(** ** generate_filename.cjs *)

Module Filename.
Import JSDate WeekInfo TaskInput.

(** [toLowerCase] on 8-bit text: the letters A to Z, and the capital
    letters of Latin-1 (192 to 222 but for the multiplication sign). *)
Definition to_lower (c : ascii) : ascii :=
  let n := nat_of_ascii c in
  if ((65 <=? n)%nat && (n <=? 90)%nat)
     || ((192 <=? n)%nat && (n <=? 222)%nat && negb (n =? 215)%nat)
  then ascii_of_nat (n + 32) else c.

Fixpoint toLowerCase (s : string) : string :=
  match s with
  | EmptyString => EmptyString
  | String c r => String (to_lower c) (toLowerCase r)
  end.

Definition is_lower (c : ascii) : bool :=
  let n := nat_of_ascii c in (97 <=? n)%nat && (n <=? 122)%nat.

Definition is_dash (c : ascii) : bool := Ascii.eqb c "-".

(** The class [\w]. *)
Definition is_word (c : ascii) : bool :=
  is_upper c || is_lower c || is_digit c || Ascii.eqb c "_".

(** [s.replace(/[^...]/g, '')] for a class given by [keep]. *)
Fixpoint str_filter (keep : ascii -> bool) (s : string) : string :=
  match s with
  | EmptyString => EmptyString
  | String c r =>
      if keep c then String c (str_filter keep r) else str_filter keep r
  end.

(** [s.replace(/C+/g, '-')] for a class [C] given by [f]: every run of
    characters of the class becomes one dash.  [in_run] says that the
    character before was of the class. *)
Fixpoint squeeze (f : ascii -> bool) (in_run : bool) (s : string) : string :=
  match s with
  | EmptyString => EmptyString
  | String c r =>
      if f c then
        if in_run then squeeze f true r else String "-" (squeeze f true r)
      else String c (squeeze f false r)
  end.

(** [s.replace(/-$/, '')] *)
Fixpoint drop_last_dash (s : string) : string :=
  match s with
  | EmptyString => EmptyString
  | String c EmptyString => if is_dash c then EmptyString else s
  | String c r => String c (drop_last_dash r)
  end.

(** [s.replace(/^-|-$/g, '')]: a dash in the first place goes, and a
    dash in the last place. *)
Definition drop_first_dash (s : string) : string :=
  match s with
  | String c r => if is_dash c then r else s
  | EmptyString => EmptyString
  end.

Definition strip_dashes (s : string) : string :=
  drop_last_dash (drop_first_dash s).

Definition toKebabCase (str : string) : string :=
  strip_dashes
    (squeeze is_dash false
       (squeeze is_space false
          (str_filter (fun c => is_word c || is_space c || is_dash c)
             (toLowerCase (trim str))))).

(** [generateFilename(summary, trackingId)], at the time [now]. *)
Definition generateFilename (now : Z) (summary : string)
    (trackingId : option string) : string :=
  let kebabSummary := toKebabCase summary in
  let truncatedSummary := drop_last_dash (first_chars 50 kebabSummary) in
  if truthy trackingId
  then default "" trackingId +:+ "_" +:+ truncatedSummary
  else
    let dateId := str_filter (fun c => negb (is_dash c)) (toISOString_10 now) in
    dateId +:+ "_" +:+ truncatedSummary.

End Filename.

(* ================================================================= *)
(** ** get_current_project.cjs: the project name of a git remote *)

Module CurrentProject.
Import TaskInput.

(** What a function returns: a string, [null], or nothing. *)
Inductive Returned :=
| Str (s : string)
| Null
| Undefined.

Definition not_slash (c : ascii) : bool := negb (Ascii.eqb c "/").

(** The group [([^/]+?)] of [([^/]+?)(\.git)?$] on a string without a
    slash: the shortest start of at least one character after which
    [.git] or nothing is left. *)
Fixpoint lazy_name (r : string) : string :=
  match r with
  | EmptyString => EmptyString
  | String c r' =>
      if String.eqb r' ".git" then String c EmptyString
      else String c (lazy_name r')
  end.

(** [([^/]+?)(\.git)?$] at the start of [r]. *)
Definition name_to_end (r : string) : option string :=
  if negb (str_empty r) && str_forall not_slash r then Some (lazy_name r)
  else None.

(** [s.match(/[/:]([^/]+?)(\.git)?$/)]: the first group of the leftmost
    match. *)
Fixpoint remote_match (s : string) : option string :=
  match s with
  | EmptyString => None
  | String c r =>
      if Ascii.eqb c "/" || Ascii.eqb c ":" then
        match name_to_end r with
        | Some name => Some name
        | None => remote_match r
        end
      else remote_match r
  end.

(** [getProjectNameFromGit], on what [git config --get remote.origin.url]
    prints; [None] when the command fails. *)
Definition getProjectNameFromGit (git_output : option string) : Returned :=
  match git_output with
  | Some out =>
      let remoteUrl := trim out in
      match remote_match remoteUrl with
      | Some name => Str name
      | None => Undefined
      end
  | None => Null
  end.

End CurrentProject.

(* ================================================================= *)
(** ** init_project.cjs: initProject *)

Module InitProject.
Import WeekInfo LogWork.

Record IssueTracker := {
  tracker_type : string;
  baseUrl : option string;
  projectPrefix : option string;
}.

Record Repository := {
  mainBranch : string;
  featureBranchRule : string;
}.

Record Config := {
  name : string;
  issueTracker : option IssueTracker;
  repository : Repository;
}.

(** The options of [initProject]; [None] is a property that is not
    there. *)
Record InitOptions := {
  opt_issueTrackerType : option string;
  opt_issueTrackerUrl : option string;
  opt_issueTrackerPrefix : option string;
  opt_issueTracker : option IssueTracker;
  opt_mainBranch : option string;
  opt_featureBranchRule : option string;
}.

Record Created := {
  projectPath : string;
  tasksPath : string;
  configPath : string;
  config : Config;
}.

(** The outcome: the paths and the configuration, or the error
    [Project "<name>" already exists at <path>]. *)
Inductive Outcome :=
| Done (r : Created)
| AlreadyExists (message : string).

(** [a || b] on strings that may be missing. *)
Definition or_else (a : option string) (b : string) : string :=
  if truthy a then default "" a else b.

(** [if (v) obj.key = v] *)
Definition if_truthy (v : option string) : option string :=
  if truthy v then v else None.

Definition build_config (projectName : string) (options : InitOptions) : Config :=
  {| name := projectName;
     issueTracker :=
       if truthy (opt_issueTrackerType options) then
         Some {| tracker_type := default "" (opt_issueTrackerType options);
                 baseUrl := if_truthy (opt_issueTrackerUrl options);
                 projectPrefix := if_truthy (opt_issueTrackerPrefix options) |}
       else opt_issueTracker options;
     repository :=
       {| mainBranch := or_else (opt_mainBranch options) "main";
          featureBranchRule :=
            or_else (opt_featureBranchRule options) "feat/{filename}" |} |}.

Section WithHost.
(** [getWorklogsPath()], and [JSON.stringify(config, null, 2)]. *)
Variable worklogsRoot : string.
Variable JSON_stringify : Config -> string.

Definition project_path (projectName : string) : string :=
  path_join worklogsRoot projectName.
Definition tasks_path (projectName : string) : string :=
  path_join (project_path projectName) "tasks".
Definition config_path (projectName : string) : string :=
  path_join (project_path projectName) "project.json".

Definition already_exists (projectName : string) : string :=
  "Project " +:+ String (ascii_of_nat 34) projectName
  +:+ String (ascii_of_nat 34) " already exists at "
  +:+ project_path projectName.

Definition initProject (projectName : string) (options : InitOptions)
    : IO Outcome :=
  let projectPath := project_path projectName in
  let tasksPath := tasks_path projectName in
  let configPath := config_path projectName in
  configExists ← existsSync configPath;
  if configExists : bool then mret (AlreadyExists (already_exists projectName))
  else
    _ ← mkdirSync (path_join tasksPath "new");
    _ ← mkdirSync (path_join tasksPath "working");
    _ ← mkdirSync (path_join tasksPath "archived");
    let logsPath := path_join worklogsRoot "logs" in
    logsExist ← existsSync logsPath;
    _ ← (if logsExist : bool then mret tt else mkdirSync logsPath);
    let config := build_config projectName options in
    _ ← writeFileSync configPath (JSON_stringify config +:+ String LF "");
    mret (Done {| projectPath := projectPath; tasksPath := tasksPath;
                  configPath := configPath; config := config |}).

End WithHost.
End InitProject.

(* ================================================================= *)
(** ** find_task.cjs *)

Module FindTask.
Import TaskInput Filename LogWork.

(** The file system as [findTaskFiles] reads it: whether a path is
    there, the names in a directory ([None] when [readdirSync] throws) and
    the text of a file ([None] when [readFileSync] throws). *)
Record FS := {
  fs_exists : string -> bool;
  fs_readdir : string -> option (list string);
  fs_read : string -> option string;
}.

(** [s.includes(pat)] *)
Fixpoint str_includes (pat s : string) : bool :=
  is_some (strip_prefix pat s)
  || match s with
     | EmptyString => false
     | String _ r => str_includes pat r
     end.

(** [s.endsWith(suffix)] *)
Fixpoint endsWith (suffix s : string) : bool :=
  String.eqb s suffix
  || match s with
     | EmptyString => false
     | String _ r => endsWith suffix r
     end.

(** What stands before the first [pat] in [s]. *)
Fixpoint before_first (pat s : string) : option string :=
  match strip_prefix pat s with
  | Some _ => Some EmptyString
  | None =>
      match s with
      | EmptyString => None
      | String c r => option_map (String c) (before_first pat r)
      end
  end.

(** [content.match(/^---\n([\s\S]*?)\n---/)]: the group, which ends
    before the first line that starts with three dashes. *)
Definition frontmatter (content : string) : option string :=
  r ← strip_prefix ("---" +:+ String LF "") content;
  before_first (String LF "---") r.

Fixpoint last_dot (s : string) : option ascii :=
  match s with
  | EmptyString => None
  | String c r =>
      match last_dot r with
      | Some d => Some d
      | None => if is_dot c then Some c else None
      end
  end.

(** [\s*(.+)] at the start of [r].  [\s*] takes the whole run of white
    space when something follows it, and the group is what follows, up to
    the end of its line.  When nothing follows, [\s*] gives characters
    back until it has given back one that is no line terminator: that one
    is the group. *)
Definition value_here (r : string) : option string :=
  let (ws, rest) := span is_space r in
  if negb (str_empty rest) then Some (fst (span is_dot rest))
  else option_map (fun c => String c EmptyString) (last_dot ws).

(** [s.match(/key\s*(.+)/)]: the group of the leftmost match. *)
Fixpoint field_match (key s : string) : option string :=
  match (r ← strip_prefix key s; value_here r) with
  | Some v => Some v
  | None =>
      match s with
      | EmptyString => None
      | String _ r => field_match key r
      end
  end.

Inductive MatchType := ByFilename | ByTrackingId | BySummary.

(** An element of [results]; [detail] is the [trackingId] or the
    [summary] property. *)
Record Found := {
  found_path : string;
  found_status : string;
  found_filename : string;
  matchType : MatchType;
  detail : option string;
}.

Section WithFS.
Variable fs : FS.

(** One turn of the loop over the files: the result to push, if any. *)
Definition check_file (statusPath status normalizedSearch file : string)
    : option Found :=
  if negb (endsWith ".md" file) then None
  else
    let filePath := path_join statusPath file in
    let fileName := replace_first ".md" "" file in
    if str_includes normalizedSearch (toLowerCase fileName) then
      Some {| found_path := filePath; found_status := status;
              found_filename := fileName; matchType := ByFilename;
              detail := None |}
    else
      content ← fs_read fs filePath;
      fm ← frontmatter content;
      let trackingIdMatch := field_match "tracking_id:" fm in
      let summaryMatch := field_match "summary:" fm in
      match trackingIdMatch with
      | Some v =>
          if str_includes normalizedSearch (toLowerCase v) then
            Some {| found_path := filePath; found_status := status;
                    found_filename := fileName; matchType := ByTrackingId;
                    detail := Some (trim v) |}
          else
            match summaryMatch with
            | Some v' =>
                if str_includes normalizedSearch (toLowerCase v') then
                  Some {| found_path := filePath; found_status := status;
                          found_filename := fileName; matchType := BySummary;
                          detail := Some (trim v') |}
                else None
            | None => None
            end
      | None =>
          match summaryMatch with
          | Some v' =>
              if str_includes normalizedSearch (toLowerCase v') then
                Some {| found_path := filePath; found_status := status;
                        found_filename := fileName; matchType := BySummary;
                        detail := Some (trim v') |}
              else None
          | None => None
          end
      end.

(** One turn of the loop over the statuses: the results to push. *)
Definition check_status (tasksPath normalizedSearch status : string)
    : Result (list Found) :=
  let statusPath := path_join tasksPath status in
  if negb (fs_exists fs statusPath) then Ok []
  else
    match fs_readdir fs statusPath with
    | None => Throw IOFailure
    | Some files =>
        Ok (omap (check_file statusPath status normalizedSearch) files)
    end.

Definition statuses : list string := ["new"; "working"; "archived"].

Fixpoint check_statuses (tasksPath normalizedSearch : string)
    (sts : list string) : Result (list Found) :=
  match sts with
  | [] => Ok []
  | status :: rest =>
      found ← check_status tasksPath normalizedSearch status;
      more ← check_statuses tasksPath normalizedSearch rest;
      Ok (found ++ more)
  end.

Definition findTaskFiles (tasksPath searchTerm : string) : Result (list Found) :=
  if negb (fs_exists fs tasksPath) then Ok []
  else check_statuses tasksPath (trim (toLowerCase searchTerm)) statuses.

End WithFS.
End FindTask.

(* ================================================================= *)
(** ** Definitions used in the statements *)

Module Spec.
Import JSDate WeekInfo Worklog LogWork.

(** A host on UTC whose engine accepts no date format but [YYYY-MM-DD],
    whose clock reads 2026-01-28T00:00:00Z, and where prettier leaves the
    text as it is. *)
Definition utc_host : Host :=
  {| LocalTZA := 0; now := 1769558400000; other_parse := fun _ => None;
     worklogsPath := "/worklogs"; prettier := Some |}.

(** The same, eight hours east of UTC, at three in the morning of
    2026-01-28, local time. *)
Definition east_host : Host :=
  {| LocalTZA := 8 * 3600000; now := 1769558400000 - 5 * 3600000;
     other_parse := fun _ => None;
     worklogsPath := "/worklogs"; prettier := Some |}.

Definition empty_world : World := {| files := ∅; dirs := ∅; trace := [] |}.

(** The first week with number [n], the first of its days with date [dh],
    the first of its tasks with id [id]: the objects [logWork] finds. *)
Definition find_week (n : Z) (sections : list TopSection) : option Week :=
  match List.find (has_number n) sections with
  | Some (WeekSection w) => Some w
  | _ => None
  end.

Definition find_day (n : Z) (dh : string) (sections : list TopSection) : option Day :=
  w ← find_week n sections; List.find (has_date dh) (days w).

Definition find_task (n : Z) (dh id : string) (sections : list TopSection)
    : option Task :=
  d ← find_day n dh sections; List.find (has_id id) (tasks d).

(** The required fields of [logWork] are present. *)
Definition fields_present (o : Options) : Prop :=
  truthy (opt_trackingId o) = true /\ truthy (opt_summary o) = true
  /\ opt_workItems o <> [].

Definition bad_date_options : Options :=
  {| opt_date := Some "next tuesday"; opt_trackingId := Some "PROJ-123";
     opt_summary := Some "Dashboard Automations";
     opt_workItems := ["Implemented selector"] |}.

Definition empty_date_options : Options :=
  {| opt_date := Some ""; opt_trackingId := Some "PROJ-123";
     opt_summary := Some "Dashboard Automations";
     opt_workItems := ["Implemented selector"] |}.


(** A month file with a title and one week, read up to the week's lines. *)
Definition lines_in_week : list string :=
  ["# 2026/01 Contribution log"; ""; "## Week 5"; ""; "This week:"].

Definition state_in_week : PState :=
  {| sections := [HeaderBlock ["# 2026/01 Contribution log"; ""]];
     currentWeek := Some {| week_header := "## Week 5"; weekNumber := 5;
                            week_content := []; days := [] |};
     currentDay := None; currentTask := None;
     buffer := [""; "This week:"] |}.


(** The title the specification words: month name and year. *)
Definition title_in_words (info : Info) : string :=
  "# " +:+ monthHeader info +:+ " Contribution log".

(** The title [logWork] writes: year, slash, two-digit month. *)
Definition numeric_title (year month0 : Z) : string :=
  "# " +:+ dec year +:+ "/" +:+ padStart0 2 (dec (month0 + 1))
  +:+ " Contribution log".

Definition month_file (h : Host) (year month0 : Z) : string :=
  path_join (path_join (worklogsPath h) "logs")
    ((dec year +:+ "-" +:+ padStart0 2 (dec (month0 + 1))) +:+ ".md").

Definition example_options : Options :=
  {| opt_date := Some "2026-01-28"; opt_trackingId := Some "PROJ-123";
     opt_summary := Some "Dashboard Automations";
     opt_workItems := ["Implemented selector"] |}.


(** [render(parse(text))]. *)
Definition render_parse (text : string) : Result string :=
  sections ← parseWorklog text; Ok (render sections).

(** The lines of a text with an empty line put before every week header,
    every day header, and every task line that comes in a day. *)
Fixpoint spaced (inDay : bool) (lines : list string) : list string :=
  match lines with
  | [] => []
  | l :: r =>
      if week_header_re l then "" :: l :: spaced false r
      else if day_header_re l then "" :: l :: spaced true r
      else if inDay && task_line_re l then "" :: l :: spaced true r
      else l :: spaced inDay r
  end.

(** What is open when a line is read. *)
Inductive Phase := NoWeek | InWeek | InDay | InTask.

Definition in_day (ph : Phase) : bool :=
  match ph with InDay | InTask => true | _ => false end.

(** The texts of which the parser keeps every line: a day header comes
    under a week header, a task line in a day has a summary after its
    colon, no week header follows a day header and no day header follows
    a task line (days under the last week only, tasks under the last day
    only). *)
Fixpoint kept (ph : Phase) (lines : list string) : bool :=
  match lines with
  | [] => true
  | l :: r =>
      if week_header_re l then
        match ph with NoWeek | InWeek => kept InWeek r | _ => false end
      else if day_header_re l then
        match ph with InWeek | InDay => kept InDay r | _ => false end
      else if in_day ph && task_line_re l then
        is_some (task_groups_re l) && kept InTask r
      else kept ph r
  end.

Definition LFs : string := String LF "".

(** The file of the specification's first scenario, as prettier leaves
    it. *)
Definition sample_text : string :=
  "# 2026/01 Contribution log" +:+ LFs +:+ LFs
  +:+ "## Week 5" +:+ LFs +:+ LFs
  +:+ "Last week:" +:+ LFs +:+ LFs
  +:+ "This week:" +:+ LFs +:+ LFs
  +:+ "### 2026/01/28" +:+ LFs +:+ LFs
  +:+ "- PROJ-123: Dashboard Automations" +:+ LFs
  +:+ "  - Implemented selector" +:+ LFs.

(** Two days with one task each. *)
Definition two_days_text : string :=
  "## Week 5" +:+ LFs
  +:+ "### 2026/01/28" +:+ LFs
  +:+ "- PROJ-123: Dashboard Automations" +:+ LFs
  +:+ "  - Implemented selector" +:+ LFs
  +:+ "### 2026/01/27" +:+ LFs
  +:+ "- PROJ-124: Air Quality Sensor" +:+ LFs
  +:+ "  - Fixed device state handling".


Definition opt_lines {A} (f : A -> list string) (o : option A) : list string :=
  match o with Some a => f a | None => [] end.

(** The lines the parser's state stands for: what would be rendered if
    the input ended here. *)
Definition pending (st : PState) : list string :=
  render_lines (sections st)
  ++ opt_lines render_week (currentWeek st)
  ++ opt_lines render_day (currentDay st)
  ++ opt_lines render_task (currentTask st)
  ++ buffer st.

Definition in_phase (ph : Phase) (st : PState) : Prop :=
  match ph with
  | NoWeek =>
      currentWeek st = None /\ currentDay st = None /\ currentTask st = None
      /\ forallb is_header (sections st) = true
  | InWeek =>
      exists w, currentWeek st = Some w /\ days w = []
                /\ currentDay st = None /\ currentTask st = None
  | InDay =>
      exists w d, currentWeek st = Some w /\ currentDay st = Some d
                  /\ tasks d = [] /\ currentTask st = None
  | InTask =>
      exists w d t, currentWeek st = Some w /\ currentDay st = Some d
                    /\ currentTask st = Some t
  end.

Definition next_phase (ph : Phase) (l : string) : Phase :=
  if week_header_re l then InWeek
  else if day_header_re l then InDay
  else if in_day ph && task_line_re l then InTask
  else ph.


(** The time value of a day's date, as [compareDates] reads it. *)
Definition day_time (h : Host) (d : Day) : option Z :=
  Date_parse h (slashes_to_dashes (date d)).

Definition day_key (h : Host) (d : Day) : Z := default 0 (day_time h d).

(** Largest first. *)
Definition descending_Z (l : list Z) : Prop := Sorted (fun a b => b <= a) l.

(** The sections a parse can give: header blocks, then weeks. *)
Definition headers_first (secs : list TopSection) : Prop :=
  exists hs ws, secs = map HeaderBlock hs ++ map WeekSection ws.

Definition compareWeeks (a b : Week) : option Z :=
  Some (Worklog.weekNumber b - Worklog.weekNumber a).

(** The options of an entry three weeks before the sample's. *)
Definition earlier_week_options : Options :=
  {| opt_date := Some "2026-01-07"; opt_trackingId := Some "PROJ-124";
     opt_summary := Some "Air Quality Sensor";
     opt_workItems := ["Fixed device state handling"] |}.


(** The ISO-8601 week number of a day number, in the words of the
    specification: weeks start on Monday, a week belongs to the year its
    Thursday lies in, and week 1 is the week of the year's first
    Thursday. *)
Definition weekday_of_day (day : Z) : Z := (day + 4) mod 7.   (* 0 is Sunday *)

Definition week_monday (day : Z) : Z := day - (weekday_of_day day + 6) mod 7.

Definition week_thursday (day : Z) : Z := week_monday day + 3.

Definition first_thursday (y : Z) : Z :=
  let jan1 := DayFromYear y in jan1 + (4 - weekday_of_day jan1) mod 7.

Definition iso_week (day : Z) : Z :=
  let th := week_thursday day in
  (th - first_thursday (YearFromDay th)) / 7 + 1.

(** The week's range in the words of the specification: from the local
    date back to its Monday, Sunday counting as day 7, and six days on
    from there; both as [YYYY-MM-DD]. *)
Definition day_string (day : Z) : string := toISOString_10 (day * msPerDay).

Definition week_range_in_words (h : Host) (t : Z) : WeekRange :=
  let day := JSDate.Day (LocalTime h t) in
  let dayNum := if weekday_of_day day =? 0 then 7 else weekday_of_day day in
  let monday := day - (dayNum - 1) in
  {| range_start := day_string monday; range_end := day_string (monday + 6) |}.

(** 0050-01-02T00:00:00Z, a Sunday. *)
Definition jan_2_of_year_50 : Z := -60589209600000.


(** *** Reading a rendered document again *)

Definition not_LF (c : ascii) : bool := negb (Ascii.eqb c LF).
Definition no_LF (l : string) : Prop := str_forall not_LF l = true.

(** A line that is no header, and a line that is no task line either. *)
Definition plain0 (l : string) : Prop :=
  week_header_re l = false /\ day_header_re l = false /\ no_LF l.
Definition plain2 (l : string) : Prop := plain0 l /\ task_line_re l = false.

(** Tasks, days and weeks as the parser makes them. *)
Definition good_task (t : Task) : Prop :=
  task_groups_re (task_line t) = Some (trackingId t, summary t)
  /\ Forall plain2 (task_content t).

Definition good_day (d : Day) : Prop :=
  day_header_re (day_header d) = true
  /\ no_LF (day_header d)
  /\ date d = replace_first "### " "" (day_header d)
  /\ Forall plain2 (day_content d)
  /\ Forall good_task (tasks d).

Definition good_week (w : Week) : Prop :=
  week_header_re (week_header w) = true
  /\ no_LF (week_header w)
  /\ Worklog.weekNumber w = digits_val 0 (first_digits (week_header w))
  /\ Forall plain0 (week_content w)
  /\ Forall good_day (days w).

Definition good_sections (secs : list TopSection) : Prop :=
  exists hs ws,
    secs = map HeaderBlock hs ++ map WeekSection ws
    /\ Forall (Forall plain0) hs /\ Forall good_week ws.

(** What the parser makes of a rendered task, day and week: one empty
    line more at the end of every content, and nothing of the last task of
    a day that another day follows, nor of the last day of a week that
    another week follows. *)
Definition blank_task (t : Task) : Task := add_task_content t [""].

Definition reread_day (last : bool) (d : Day) : Day :=
  {| day_header := day_header d; date := date d;
     day_content := day_content d ++ [""];
     tasks := map blank_task (if last then tasks d else removelast (tasks d)) |}.

Fixpoint reread_days (last_week : bool) (ds : list Day) : list Day :=
  match ds with
  | [] => []
  | d :: r =>
      match r with
      | [] => if last_week then [reread_day true d] else []
      | _ :: _ => reread_day false d :: reread_days last_week r
      end
  end.

Definition reread_week (last : bool) (w : Week) : Week :=
  {| week_header := week_header w; weekNumber := Worklog.weekNumber w;
     week_content := week_content w ++ [""];
     days := reread_days last (days w) |}.

Fixpoint reread_weeks (ws : list Week) : list Week :=
  match ws with
  | [] => []
  | w :: r =>
      match r with
      | [] => [reread_week true w]
      | _ :: _ => reread_week false w :: reread_weeks r
      end
  end.

Definition reread (hs : list (list string)) (ws : list Week) : list TopSection :=
  HeaderBlock (concat hs ++ [""]) :: map WeekSection (reread_weeks ws).

(** The states of the parser between two blocks. *)
Definition at_week (secs : list TopSection) (w : Week) (b : list string) : PState :=
  {| sections := secs; currentWeek := Some w; currentDay := None;
     currentTask := None; buffer := b |}.
Definition at_day (secs : list TopSection) (w : Week) (d : Day)
    (b : list string) : PState :=
  {| sections := secs; currentWeek := Some w; currentDay := Some d;
     currentTask := None; buffer := b |}.
Definition at_task (secs : list TopSection) (w : Week) (d : Day) (t : Task)
    (b : list string) : PState :=
  {| sections := secs; currentWeek := Some w; currentDay := Some d;
     currentTask := Some t; buffer := b |}.

Definition clear_task (t : Task) : Task :=
  {| trackingId := trackingId t; summary := summary t; task_content := [] |}.
Definition clear_day (d : Day) : Day :=
  {| day_header := day_header d; date := date d; day_content := [];
     tasks := [] |}.
Definition clear_week (w : Week) : Week :=
  {| week_header := week_header w; weekNumber := Worklog.weekNumber w;
     week_content := []; days := [] |}.

(** The number of lines of [c] equal to [line]. *)
Definition count_line (c : list string) (line : string) : nat :=
  count_occ string_dec c line.


Definition at_start (secs : list TopSection) (b : list string) : PState :=
  {| sections := secs; currentWeek := None; currentDay := None;
     currentTask := None; buffer := b |}.

(** The state after the block of a day has been read, and after the
    block of a week. *)
Definition day_end (secs : list TopSection) (w : Week) (d : Day) : PState :=
  match tasks d with
  | [] => at_day secs w (clear_day d) (day_content d)
  | t0 :: _ =>
      at_task secs w (reread_day false d)
        (clear_task (List.last (tasks d) t0))
        (task_content (List.last (tasks d) t0))
  end.

Definition week_end (secs : list TopSection) (w : Week) : PState :=
  match days w with
  | [] => at_week secs (clear_week w) (week_content w)
  | d0 :: _ =>
      day_end secs
        {| week_header := week_header w; weekNumber := Worklog.weekNumber w;
           week_content := week_content w ++ [""];
           days := map (reread_day false) (removelast (days w)) |}
        (List.last (days w) d0)
  end.


Definition push_tasks (d : Day) (ts : list Task) : Day :=
  {| day_header := day_header d; date := date d;
     day_content := day_content d; tasks := tasks d ++ ts |}.

Definition push_days (w : Week) (ds : list Day) : Week :=
  {| week_header := week_header w; weekNumber := Worklog.weekNumber w;
     week_content := week_content w; days := days w ++ ds |}.


(** The states of the parser on lines without line feeds. *)
Definition good_state (st : PState) : Prop :=
  (exists hs ws,
     sections st = map HeaderBlock hs ++ map WeekSection ws
     /\ Forall (Forall plain0) hs /\ Forall good_week ws
     /\ (currentWeek st = None -> ws = []))
  /\ (forall w, currentWeek st = Some w -> good_week w)
  /\ (forall d, currentDay st = Some d -> good_day d)
  /\ (forall t, currentTask st = Some t -> good_task t)
  /\ (currentDay st = None -> currentTask st = None)
  /\ Forall plain0 (buffer st)
  /\ (is_some (currentDay st) = true -> Forall plain2 (buffer st)).


(** An entry whose week header, day header and task line the parser
    reads back as such, and whose work items are single lines. *)
Definition good_entry (info : Info) (dh id text : string)
    (items : list string) : Prop :=
  week_header_re ("## " +:+ weekHeader info) = true
  /\ no_LF ("## " +:+ weekHeader info)
  /\ WeekInfo.weekNumber info
     = digits_val 0 (first_digits ("## " +:+ weekHeader info))
  /\ day_header_re ("### " +:+ dh) = true
  /\ no_LF dh
  /\ task_groups_re ("- " +:+ id +:+ ": " +:+ text) = Some (id, text)
  /\ Forall no_LF items.

Definition week_has_number (n : Z) (w : Week) : bool :=
  Worklog.weekNumber w =? n.

Definition with_days (f : list Day -> list Day) (w : Week) : Week :=
  {| week_header := week_header w; weekNumber := Worklog.weekNumber w;
     week_content := week_content w; days := f (days w) |}.


(** The weeks after [logWork] has merged an entry into the weeks [ws]. *)
Definition merged_weeks (h : Host) (info : Info) (dh id text : string)
    (items : list string) (ws : list Week) : list Week :=
  let n := WeekInfo.weekNumber info in
  alter_first (week_has_number n) (with_days (merge_days h dh id text items))
    (if existsb (week_has_number n) ws then ws
     else js_sort compareWeeks
            (ws ++ [{| week_header := "## " +:+ weekHeader info;
                       weekNumber := n;
                       week_content := [""; "Last week:"; ""; "This week:"; ""];
                       days := [] |}])).


(** The week information of the sample's date, and its entry. *)
Definition sample_info : Info :=
  match getWeekInfo utc_host (Some "2026-01-28") with
  | Ok info => info
  | Throw _ =>
      {| info_date := ""; year := 0; month := ""; WeekInfo.weekNumber := 0;
         weekHeader := ""; weekRange := {| range_start := ""; range_end := "" |};
         dailyHeader := ""; monthHeader := "" |}
  end.


Definition sample_sections : list TopSection :=
  match parseWorklog sample_text with Ok secs => secs | Throw _ => [] end.

(** Sorted by a key, largest first. *)
Definition descending {A} (key : A -> Z) (l : list A) : Prop :=
  Sorted (fun a b => key b <= key a) l.

Definition content_of (t : option Task) : list string :=
  match t with Some t => task_content t | None => [] end.
Definition tasks_of (d : option Day) : list Task :=
  match d with Some d => tasks d | None => [] end.
Definition days_of (w : option Week) : list Day :=
  match w with Some w => days w | None => [] end.

(** An open task lies in an open day. *)
Definition task_in_day (st : PState) : Prop :=
  currentDay st = None -> currentTask st = None.

(** The parser puts header blocks before the weeks. *)
Definition parser_shape (st : PState) : Prop :=
  exists hs ws,
    sections st = map HeaderBlock hs ++ map WeekSection ws
    /\ (currentWeek st = None -> ws = []).


(** Strings of exactly four and of exactly two digits. *)
Definition four_digits (s : string) : bool :=
  match s with
  | String a (String b (String c (String d EmptyString))) =>
      is_digit a && is_digit b && is_digit c && is_digit d
  | _ => false
  end.

Definition two_digits (s : string) : bool :=
  match s with
  | String a (String b EmptyString) => is_digit a && is_digit b
  | _ => false
  end.

(** The integers from [lo], [len] of them. *)
Definition Z_range (lo len : Z) : list Z :=
  map (fun i => lo + Z.of_nat i) (seq 0 (Z.to_nat len)).


(** *** Dates as strings *)

(** A string of four digits that reads as [v], and one of two digits. *)
Definition four_digits_of (v : Z) (s : string) : bool :=
  four_digits s && (digits_val 0 s =? v).

Definition two_digits_of (v : Z) (s : string) : bool :=
  two_digits s && (digits_val 0 s =? v).

(** The day [formatDateHeader] prints for a day number. *)
Definition date_header_of_day (day : Z) : string :=
  let t := day * msPerDay in
  dec (YearFromTime t) +:+ "/" +:+ padStart0 2 (dec (MonthFromTime t + 1))
  +:+ "/" +:+ padStart0 2 (dec (DateFromTime t)).

(** A host five hours west of UTC. *)
Definition west_host : Host :=
  {| LocalTZA := - (5 * 3600000); now := 1769558400000;
     other_parse := fun _ => None;
     worklogsPath := "/worklogs"; prettier := Some |}.


(** The Monday of the week of the local date of [t], as a day number, and
    the range of the week that starts on a day. *)
Definition local_week_monday (h : Host) (t : Z) : Z :=
  let day := JSDate.Day (LocalTime h t) in
  let dayNum := if weekday_of_day day =? 0 then 7 else weekday_of_day day in
  day - (dayNum - 1).

Definition week_range_from (monday : Z) : WeekRange :=
  {| range_start := day_string monday; range_end := day_string (monday + 6) |}.

(** The week section a week header line alone parses to. *)
Definition empty_week (info : Info) : Week :=
  {| week_header := "## " +:+ weekHeader info;
     weekNumber := WeekInfo.weekNumber info;
     week_content := []; days := [] |}.


(** *** The command line and the files *)

(** The arguments that spell out an entry. *)
Definition argv_of (d id s : string) (items : list string) : list string :=
  ["--date"; d; "--tracking-id"; id; "--summary"; s]
  ++ flat_map (fun w => ["--work"; w]) items.

(** The date string [logWork] works with, and the file of a month. *)
Definition date_string (h : Host) (o : Options) : string :=
  if truthy (opt_date o) then default "" (opt_date o)
  else toISOString_10 (now h).

Definition worklog_path (h : Host) (info : Info) : string :=
  path_join (path_join (worklogsPath h) "logs") (month info +:+ ".md").


(** A computation that leaves the file [p] as it is and makes no
    directory outside [ds]. *)
Definition keeps_file {A} (p : string) (ds : gset string) (m : IO A) : Prop :=
  forall w, files (m w).2 !! p = files w !! p /\ dirs (m w).2 ⊆ ds ∪ dirs w.

(** A computation that, when it fails with an error that satisfies
    [early], has changed no file. *)
Definition fails_clean {A} (early : Error -> bool) (m : IO A) : Prop :=
  forall w e w', m w = (Throw e, w') -> early e = true -> files w' = files w.

(** A computation that changes no file at all. *)
Definition reads_only {A} (m : IO A) : Prop :=
  forall w, files (m w).2 = files w.

(** The errors of [logWork] other than the failure of prettier. *)
Definition before_format (e : Error) : bool :=
  match e with ProcessExit => false | _ => true end.


(** *** Worklogs the parser fails on *)

(** A line that is neither a week header nor a day header, and one that
    is no week header. *)
Definition no_header (l : string) : Prop :=
  week_header_re l = false /\ day_header_re l = false.
Definition no_week_header (l : string) : Prop := week_header_re l = false.

(** No week is open, and a day is. *)
Definition day_without_week (st : PState) : Prop :=
  currentWeek st = None /\ is_some (currentDay st) = true.

(** Nothing is open. *)
Definition nothing_open (st : PState) : Prop :=
  currentWeek st = None /\ currentDay st = None /\ currentTask st = None.

(** A month file whose only line is a day header, in a world where the
    logs directory exists. *)
Definition orphan_day_world : World :=
  {| files := {[ "/worklogs/logs/2026-01.md" := "### 2026/01/27" ]};
     dirs := {[ "/worklogs/logs" ]}; trace := [] |}.


(** *** Documents before and after an update *)

(** The entry [(n, dh, id)] is the one an update is for. *)
Definition same_entry (n : Z) (dh id : string) (n' : Z) (dh' id' : string) : Prop :=
  n' = n /\ dh' = dh /\ id' = id.

(** The week, date and id of the second day of [two_days_text]. *)
Definition two_days_sections : list TopSection :=
  match parseWorklog two_days_text with Ok secs => secs | Throw _ => [] end.


(** *** Task input *)

(** A summary as [parseTaskInput] hands it on: not empty, no white space
    at its ends, no line terminator in it. *)
Definition clean_summary (s : string) : Prop :=
  str_empty s = false /\ TaskInput.trimStart s = s /\ TaskInput.trimEnd s = s
  /\ str_forall is_dot s = true.

(** A task has a tracking id or a summary that is not empty. *)
Definition task_has_text (t : TaskInput.Task) : bool :=
  is_some (TaskInput.trackingId t) || truthy (TaskInput.summary t).

(** The first character of a string satisfies [f], if there is one. *)
Definition starts_with (f : ascii -> bool) (s : string) : bool :=
  match s with EmptyString => true | String c _ => f c end.


(** *** File names *)

(** The characters of a kebab-cased name: small letters, digits, the
    underscore and the dash. *)
Definition kebab_char (c : ascii) : bool :=
  Filename.is_lower c || is_digit c || Ascii.eqb c "_" || Filename.is_dash c.

Definition not_dash (c : ascii) : bool := negb (Filename.is_dash c).

(** No two dashes in a row. *)
Fixpoint no_double_dash (s : string) : bool :=
  match s with
  | EmptyString => true
  | String c r =>
      (if Filename.is_dash c then starts_with not_dash r else true)
      && no_double_dash r
  end.

(** The last character of a string satisfies [f], if there is one. *)
Definition ends_with (f : ascii -> bool) (s : string) : bool :=
  match TaskInput.last_char s with Some c => f c | None => true end.

(** A kebab-cased name: of those characters, with single dashes between
    other characters only. *)
Definition kebab (s : string) : bool :=
  str_forall kebab_char s && no_double_dash s
  && starts_with not_dash s && ends_with not_dash s.


(** *** Projects *)

(** A path is there: a directory or a file. *)
Definition path_exists (w : World) (p : string) : bool :=
  bool_decide (p ∈ dirs w) || is_some (files w !! p).

(** No options at all. *)
Definition no_options : InitProject.InitOptions :=
  {| InitProject.opt_issueTrackerType := None;
     InitProject.opt_issueTrackerUrl := None;
     InitProject.opt_issueTrackerPrefix := None;
     InitProject.opt_issueTracker := None;
     InitProject.opt_mainBranch := None;
     InitProject.opt_featureBranchRule := None |}.


(** *** Task files *)

(** The markdown files of the directory of a status, each with the
    status and its path, in the order of the directory; none when the
    directory cannot be read. *)
Definition status_files (fs : FindTask.FS) (tasksPath status : string)
    : list (string * string) :=
  let statusPath := path_join tasksPath status in
  map (fun file => (status, path_join statusPath file))
    (List.filter (FindTask.endsWith ".md")
       (default [] (FindTask.fs_readdir fs statusPath))).

Definition task_files (fs : FindTask.FS) (tasksPath : string)
    : list (string * string) :=
  flat_map (status_files fs tasksPath) FindTask.statuses.

Definition status_and_path (r : FindTask.Found) : string * string :=
  (FindTask.found_status r, FindTask.found_path r).

(** A task directory with one file in [working]. *)
Definition one_task_fs : FindTask.FS :=
  {| FindTask.fs_exists := fun p =>
       String.eqb p "/tasks" || String.eqb p "/tasks/working";
     FindTask.fs_readdir := fun p =>
       if String.eqb p "/tasks/working"
       then Some ["PROJ-123_dashboard.md"; "notes.txt"] else None;
     FindTask.fs_read := fun _ => None |}.


(** A line that is the line of one of the work items and is not among
    the lines [old]. *)
Definition new_work_line (items old : list string) (l : string) : Prop :=
  (exists w, In w items /\ l = workLine w) /\ ~ In l old.


(** *** The header block *)

(** The lines before the first week header or day header. *)
Fixpoint before_headers (lines : list string) : list string :=
  match lines with
  | [] => []
  | l :: r =>
      if week_header_re l || day_header_re l then [] else l :: before_headers r
  end.

(** The header block of some lines: none for no lines. *)
Definition header_of (b : list string) : list TopSection :=
  match b with [] => [] | _ :: _ => [HeaderBlock b] end.

(** A week or a day is open. *)
Definition opened (st : PState) : Prop :=
  is_some (currentWeek st) || is_some (currentDay st) = true.

End Spec.

(* ================================================================= *)
(** ** Validation of the options (log_work.cjs, lines 184-194) *)

Module Validation.
Import JSDate WeekInfo Worklog LogWork Spec.

(** C5.  When the tracking id or the summary is missing or empty, or there
    is no work item, [logWork] throws the missing-fields error and the
    world is the one it started from: no file system call was made. *)
Theorem logWork_missing_fields (h : Host) (o : Options) (w : World) :
  truthy (opt_trackingId o) = false \/ truthy (opt_summary o) = false
    \/ opt_workItems o = [] ->
  logWork h o w = (Throw MissingFields, w).
Proof.
  intros H. unfold logWork.
  assert (Hc : negb (truthy (opt_trackingId o)) || negb (truthy (opt_summary o))
               || (length (opt_workItems o) =? 0)%nat = true).
  { destruct H as [H | [H | H]]; rewrite H; simpl.
    - reflexivity.
    - now rewrite orb_true_r.
    - now rewrite orb_true_r. }
  now rewrite Hc.
Qed.

Lemma logWork_missing_fields_witness :
  logWork utc_host
    {| opt_date := Some "2026-01-28"; opt_trackingId := Some "PROJ-123";
       opt_summary := Some "Dashboard Automations"; opt_workItems := [] |}
    empty_world
  = (Throw MissingFields, empty_world).
Proof.
  apply (logWork_missing_fields utc_host); right; right; reflexivity.
Defined.

Lemma fields_present_check (o : Options) :
  fields_present o ->
  negb (truthy (opt_trackingId o)) || negb (truthy (opt_summary o))
    || (length (opt_workItems o) =? 0)%nat = false.
Proof.
  intros (H1 & H2 & H3). rewrite H1, H2. simpl.
  destruct (opt_workItems o); [congruence | reflexivity].
Qed.

(** C6, as the code has it.  A date option that is a non-empty string and
    does not parse makes [logWork] throw the invalid-date error before
    any file system call: the world is unchanged. *)
Theorem logWork_invalid_date (h : Host) (o : Options) (w : World) (s : string) :
  fields_present o ->
  opt_date o = Some s -> s <> "" ->
  Date_parse h s = None ->
  logWork h o w = (Throw (InvalidDate s), w).
Proof.
  intros Hf Hd Hne Hp. unfold logWork.
  rewrite (fields_present_check o Hf), Hd.
  assert (Ht : truthy (Some s) = true) by (destruct s; [congruence | reflexivity]).
  rewrite Ht. simpl default. unfold getWeekInfo. rewrite Ht. simpl default.
  rewrite Hp. reflexivity.
Qed.

Lemma logWork_invalid_date_witness :
  logWork utc_host bad_date_options empty_world
  = (Throw (InvalidDate "next tuesday"), empty_world).
Proof.
  apply (logWork_invalid_date utc_host bad_date_options empty_world).
  - repeat split; simpl; congruence.
  - reflexivity.
  - discriminate.
  - reflexivity.
Defined.

(** The empty string does not parse as a date, and yet [logWork] does not
    fail on it: it logs under the date of the clock and writes the file of
    the clock's month. *)
Lemma logWork_empty_date_falls_back :
  Date_parse utc_host "" = None /\
  exists r w',
    logWork utc_host empty_date_options empty_world = (Ok r, w')
    /\ logged_date r = "2026-01-28"
    /\ is_some (files w' !! "/worklogs/logs/2026-01.md") = true.
Proof.
  split; [reflexivity |].
  eexists _, _. split; [vm_compute; reflexivity |].
  split; vm_compute; reflexivity.
Qed.

End Validation.

(* ================================================================= *)
(** ** Lists: [find], [alter_first] and [js_sort] *)

Module ListFacts.
Import Spec.

Section Lists.
Context {A : Type}.
Implicit Types (p : A -> bool) (f : A -> A) (l : list A).

Lemma find_existsb p l : existsb p l = is_some (List.find p l).
Proof. induction l as [| x l IH]; simpl; [easy |]. destruct (p x); easy. Qed.

Lemma find_none_existsb p l : existsb p l = false -> List.find p l = None.
Proof. rewrite find_existsb. destruct (List.find p l); easy. Qed.

Lemma find_alter_first p f l :
  (forall x, p x = true -> p (f x) = true) ->
  List.find p (alter_first p f l) = option_map f (List.find p l).
Proof.
  intros Hp. induction l as [| x l IH]; simpl; [easy |].
  destruct (p x) eqn:E; simpl.
  - now rewrite (Hp x E).
  - now rewrite E.
Qed.

Lemma find_app_new p l x :
  existsb p l = false -> p x = true -> List.find p (l ++ [x]) = Some x.
Proof.
  intros Hl Hx. induction l as [| y l IH]; simpl in *.
  - now rewrite Hx.
  - apply orb_false_elim in Hl as [Hy Hl]. rewrite Hy. auto.
Qed.

Lemma find_unique p l x :
  In x l -> p x = true ->
  (forall y, In y l -> p y = true -> y = x) ->
  List.find p l = Some x.
Proof.
  intros Hin Hx Hu. induction l as [| y l IH]; simpl in *; [easy |].
  destruct (p y) eqn:E.
  - f_equal. apply Hu; auto.
  - destruct Hin as [-> | Hin]; [congruence |]. apply IH; auto.
Qed.

Lemma sort_insert_perm (cmp : A -> A -> option Z) x l :
  Permutation (sort_insert cmp x l) (x :: l).
Proof.
  induction l as [| y l IH]; simpl; [easy |].
  destruct (0 <? cmp_value (cmp x y)); [| easy].
  rewrite IH. apply perm_swap.
Qed.

Lemma js_sort_perm (cmp : A -> A -> option Z) l : Permutation (js_sort cmp l) l.
Proof.
  induction l as [| x l IH]; simpl; [easy |].
  rewrite sort_insert_perm. now constructor.
Qed.

Lemma find_sort_new (cmp : A -> A -> option Z) p l x :
  existsb p l = false -> p x = true ->
  List.find p (js_sort cmp (l ++ [x])) = Some x.
Proof.
  intros Hl Hx.
  assert (Hperm := js_sort_perm cmp (l ++ [x])).
  apply find_unique; [| easy |].
  - eapply Permutation_in; [symmetry; exact Hperm |].
    apply in_or_app; right; now left.
  - intros y Hy Hpy.
    eapply Permutation_in in Hy; [| exact Hperm].
    apply in_app_or in Hy as [Hy | [<- | []]]; [| easy].
    assert (existsb p l = true) by (apply existsb_exists; eauto). congruence.
Qed.

End Lists.

(** Sorting by a key, largest first. *)
Section SortedByKey.
Context {A : Type} (key : A -> Z) (cmp : A -> A -> option Z).

Lemma sort_insert_descending x l :
  (forall y, In y l -> cmp_value (cmp x y) = key y - key x) ->
  descending key l -> descending key (sort_insert cmp x l).
Proof.
  intros Hc Hs. induction l as [| y l IH]; simpl.
  - repeat constructor.
  - rewrite (Hc y) by now left.
    destruct (0 <? key y - key x) eqn:E.
    + apply Z.ltb_lt in E.
      apply Sorted_inv in Hs as [Hs Hhd].
      specialize (IH (fun z Hz => Hc z (or_intror Hz)) Hs).
      constructor; [exact IH |].
      destruct l as [| z l]; simpl.
      * constructor. lia.
      * rewrite (Hc z) by (right; now left).
        destruct (0 <? key z - key x); constructor; [| lia].
        now apply HdRel_inv in Hhd.
    + apply Z.ltb_ge in E. constructor; [exact Hs |]. constructor. lia.
Qed.

Lemma js_sort_descending l :
  (forall x y, In x l -> In y l -> cmp_value (cmp x y) = key y - key x) ->
  descending key (js_sort cmp l).
Proof.
  induction l as [| x l IH]; intros Hc; simpl.
  - constructor.
  - apply sort_insert_descending.
    + intros y Hy. apply Hc; [now left | right].
      eapply Permutation_in; [apply js_sort_perm | exact Hy].
    + apply IH. intros a b Ha Hb. apply Hc; now right.
Qed.

End SortedByKey.

End ListFacts.

(* ================================================================= *)
(** ** What [logWork] finds or creates *)

Module MergeFacts.
Import JSDate WeekInfo Worklog LogWork Spec ListFacts.

Lemma merge_tasks_find id text items ts :
  exists t',
    List.find (has_id id) (merge_tasks id text items ts) = Some t'
    /\ trackingId t' = id /\ summary t' = text
    /\ task_content t'
       = add_work_items (content_of (List.find (has_id id) ts)) items.
Proof.
  unfold merge_tasks.
  rewrite find_alter_first by (intros x Hx; exact Hx).
  rewrite find_existsb.
  destruct (List.find (has_id id) ts) as [t |] eqn:E; simpl.
  - rewrite find_alter_first by (intros x Hx; exact Hx). rewrite E. simpl.
    eexists. split; [reflexivity |]. simpl.
    apply find_some in E as [_ E]. unfold has_id in E.
    apply String.eqb_eq in E. auto.
  - rewrite find_app_new.
    + simpl. eexists. split; [reflexivity |]. simpl. auto.
    + rewrite find_existsb, E. reflexivity.
    + unfold has_id. simpl. apply String.eqb_refl.
Qed.

Lemma merge_days_find h dh id text items ds :
  exists d',
    List.find (has_date dh) (merge_days h dh id text items ds) = Some d'
    /\ date d' = dh
    /\ tasks d'
       = merge_tasks id text items (tasks_of (List.find (has_date dh) ds)).
Proof.
  unfold merge_days.
  rewrite find_alter_first by (intros x Hx; exact Hx).
  rewrite find_existsb.
  destruct (List.find (has_date dh) ds) as [d |] eqn:E; simpl.
  - rewrite E. simpl.
    eexists. split; [reflexivity |]. simpl. split; [| reflexivity].
    apply find_some in E as [_ E]. now apply String.eqb_eq in E.
  - rewrite find_sort_new.
    + simpl. eexists. split; [reflexivity |]. simpl. auto.
    + rewrite find_existsb, E. reflexivity.
    + unfold has_date. simpl. apply String.eqb_refl.
Qed.

Lemma has_number_set_days n F s : has_number n (set_days F s) = has_number n s.
Proof. destruct s; reflexivity. Qed.

Lemma find_week_inv n secs w :
  find_week n secs = Some w ->
  List.find (has_number n) secs = Some (WeekSection w).
Proof.
  unfold find_week. destruct (List.find (has_number n) secs) as [[|]|]; congruence.
Qed.

Lemma find_week_none n secs :
  find_week n secs = None -> existsb (has_number n) secs = false.
Proof.
  unfold find_week. rewrite find_existsb.
  destruct (List.find (has_number n) secs) as [[|]|] eqn:E; try easy.
  apply find_some in E as [_ E]. discriminate.
Qed.

Lemma merge_sections_find h info dh id text items secs :
  exists w',
    find_week (WeekInfo.weekNumber info)
      (merge_sections h info dh id text items secs) = Some w'
    /\ Worklog.weekNumber w' = WeekInfo.weekNumber info
    /\ days w'
       = merge_days h dh id text items
           (days_of (find_week (WeekInfo.weekNumber info) secs)).
Proof.
  unfold merge_sections, find_week at 1.
  rewrite find_alter_first by (intros x Hx; now rewrite has_number_set_days).
  destruct (find_week (WeekInfo.weekNumber info) secs) as [w |] eqn:E.
  - apply find_week_inv in E. rewrite find_existsb, E. simpl. rewrite E. simpl.
    eexists. split; [reflexivity |]. simpl. split; [| reflexivity].
    apply find_some in E as [_ E]. simpl in E. lia.
  - apply find_week_none in E. rewrite E.
    rewrite find_sort_new; [| exact E | simpl; lia].
    simpl. eexists. split; [reflexivity |]. simpl. auto.
Qed.

(** The task [logWork] ends with: the lines of the task it found (none,
    for a new task), then the new work items. *)
Lemma merge_sections_find_task h info dh id text items secs :
  exists t',
    find_task (WeekInfo.weekNumber info) dh id
      (merge_sections h info dh id text items secs) = Some t'
    /\ trackingId t' = id /\ summary t' = text
    /\ task_content t'
       = add_work_items
           (content_of (find_task (WeekInfo.weekNumber info) dh id secs)) items.
Proof.
  destruct (merge_sections_find h info dh id text items secs) as (w' & Hw & _ & Hdays).
  destruct (merge_days_find h dh id text items
              (days_of (find_week (WeekInfo.weekNumber info) secs)))
    as (d' & Hd & _ & Htasks).
  destruct (merge_tasks_find id text items
              (tasks_of (List.find (has_date dh)
                           (days_of (find_week (WeekInfo.weekNumber info) secs)))))
    as (t' & Ht & Hid & Hsum & Hc).
  exists t'. unfold find_task, find_day. rewrite Hw. simpl.
  rewrite Hdays, Hd. simpl. rewrite Htasks, Ht.
  split; [reflexivity |]. split; [exact Hid |]. split; [exact Hsum |].
  rewrite Hc. f_equal.
  destruct (find_week (WeekInfo.weekNumber info) secs) as [w |]; simpl; [| reflexivity].
  destruct (List.find (has_date dh) (days w)); reflexivity.
Qed.

Lemma includes_In c line : includes c line = true <-> In line c.
Proof.
  unfold includes. rewrite existsb_exists. split.
  - intros (x & Hx & E). apply String.eqb_eq in E. now subst.
  - intros H. exists line. split; [exact H | apply String.eqb_refl].
Qed.

Lemma add_work_item_old c w : In (workLine w) c -> add_work_item c w = c.
Proof. intros H. unfold add_work_item. apply includes_In in H. now rewrite H. Qed.

Lemma add_work_item_new c w :
  ~ In (workLine w) c -> add_work_item c w = c ++ [workLine w].
Proof.
  intros H. unfold add_work_item.
  destruct (includes c (workLine w)) eqn:E; [| reflexivity].
  apply includes_In in E. contradiction.
Qed.

End MergeFacts.

(* ================================================================= *)
(** ** The parser's loop *)

Module ParserFacts.
Import Worklog LogWork Spec MergeFacts.

Lemma strip_prefix_Some p : forall s r,
  strip_prefix p s = Some r -> s = p +:+ r.
Proof.
  induction p as [| a p IH]; intros s r; simpl.
  - now intros [= ->].
  - destruct s as [| b s]; [discriminate |].
    destruct (Ascii.eqb a b) eqn:E; [| discriminate].
    apply Ascii.eqb_eq in E. subst b. intros H. now rewrite (IH _ _ H).
Qed.

Lemma strip_prefix_app p : forall r, strip_prefix p (p +:+ r) = Some r.
Proof.
  induction p as [| a p IH]; intros r; simpl; [reflexivity |].
  now rewrite Ascii.eqb_refl.
Qed.

(** A task line starts with a dash, a header with a hash. *)
Lemma task_line_not_header line :
  task_line_re line = true ->
  week_header_re line = false /\ day_header_re line = false.
Proof.
  unfold task_line_re, tracking_id_prefix.
  destruct (strip_prefix "- " line) as [r |] eqn:E; [| simpl; discriminate].
  apply strip_prefix_Some in E. subst line. intros _. split; reflexivity.
Qed.

Lemma week_header_not_day line :
  week_header_re line = true -> day_header_re line = false.
Proof.
  unfold week_header_re.
  destruct (strip_prefix "## Week " line) as [r |] eqn:E; [| discriminate].
  apply strip_prefix_Some in E. subst line. intros _. reflexivity.
Qed.

Lemma flushBuffer_open st :
  is_some (currentWeek (flushBuffer st)) = is_some (currentWeek st)
  /\ is_some (currentDay (flushBuffer st)) = is_some (currentDay st)
  /\ is_some (currentTask (flushBuffer st)) = is_some (currentTask st)
  /\ buffer (flushBuffer st) = [].
Proof.
  unfold flushBuffer. destruct (buffer st) eqn:B; [now rewrite B |].
  destruct (currentTask st), (currentDay st), (currentWeek st); simpl; auto.
Qed.

Lemma step_task_in_day st line st' :
  task_in_day st -> step st line = Ok st' -> task_in_day st'.
Proof.
  unfold task_in_day, step. intros Hinv.
  destruct (week_header_re line); [intros [= <-]; reflexivity |].
  destruct (day_header_re line).
  { destruct (push_into _ _ _); simpl; [intros [= <-]; discriminate | discriminate]. }
  destruct (is_some (currentDay st) && task_line_re line) eqn:C.
  - apply andb_prop in C as [C _].
    destruct (flushBuffer_open st) as (_ & Hd & _).
    rewrite <- Hd in C.
    destruct (currentDay (flushBuffer st)) as [d |]; [| discriminate].
    destruct (currentTask (flushBuffer st)); simpl;
      destruct (task_groups_re line) as [[? ?] |]; try discriminate;
      intros [= <-]; discriminate.
  - intros [= <-]. exact Hinv.
Qed.

Lemma run_task_in_day lines : forall st st',
  task_in_day st -> run st lines = Ok st' -> task_in_day st'.
Proof.
  induction lines as [| l r IH]; simpl; intros st st' Hinv H.
  - now inversion H; subst.
  - destruct (step st l) as [st1 |] eqn:E; [| discriminate].
    simpl in H. eapply IH; [| exact H]. eapply step_task_in_day; eauto.
Qed.

Lemma init_task_in_day : task_in_day init.
Proof. intros _. reflexivity. Qed.

Lemma flushBuffer_snoc_task st t b :
  currentTask st = Some t -> buffer st = b -> b <> [] ->
  currentTask (flushBuffer st) = Some (add_task_content t b).
Proof.
  intros Ht Hb Hne. unfold flushBuffer. rewrite Hb, Ht.
  destruct b; [congruence | reflexivity].
Qed.

End ParserFacts.

(* ================================================================= *)
(** ** Task lines and work items *)

Module TaskLines.
Import Worklog LogWork Spec ListFacts MergeFacts ParserFacts.

(** C9.  After any lines have been read, a line of the task pattern that
    comes while no day is open opens no task: it joins the buffer, no task
    is open afterwards, and the next flush appends the buffer to the
    content of the open week, or makes it a header block when no week is
    open. *)
Theorem task_line_outside_day (pre : list string) (st : PState) (line : string) :
  run init pre = Ok st ->
  currentDay st = None ->
  task_line_re line = true ->
  exists st',
    step st line = Ok st'
    /\ sections st' = sections st /\ currentWeek st' = currentWeek st
    /\ currentDay st' = None /\ currentTask st' = None
    /\ buffer st' = buffer st ++ [line]
    /\ match currentWeek st with
       | Some w =>
           currentWeek (flushBuffer st')
           = Some (add_week_content w (buffer st ++ [line]))
           /\ sections (flushBuffer st') = sections st
       | None =>
           sections (flushBuffer st')
           = sections st ++ [HeaderBlock (buffer st ++ [line])]
       end.
Proof.
  intros Hrun Hday Hre.
  assert (Htask : currentTask st = None).
  { apply (run_task_in_day pre init st init_task_in_day Hrun Hday). }
  destruct (task_line_not_header line Hre) as [Hw Hd].
  unfold step. rewrite Hw, Hd, Hday. simpl.
  eexists. split; [reflexivity |]. simpl.
  repeat (split; [auto |]).
  unfold flushBuffer; simpl. rewrite Htask.
  destruct (buffer st ++ [line]) eqn:B.
  { now apply app_eq_nil in B as [_ B]. }
  destruct (currentWeek st); simpl; auto.
Qed.

Lemma task_line_outside_day_witness :
  exists st',
    step state_in_week "- PROJ-123: Dashboard Automations" = Ok st'
    /\ currentTask st' = None
    /\ currentWeek (flushBuffer st')
       = Some {| week_header := "## Week 5"; weekNumber := 5;
                 week_content := [""; "This week:";
                                  "- PROJ-123: Dashboard Automations"];
                 days := [] |}.
Proof.
  destruct (task_line_outside_day lines_in_week state_in_week
              "- PROJ-123: Dashboard Automations")
    as (st' & Hs & _ & _ & _ & Ht & _ & Hw & _);
    [reflexivity | reflexivity | reflexivity |].
  exists st'. auto.
Defined.


End TaskLines.

(* ================================================================= *)
(** ** Strings: digits, lines *)

Module StringFacts.
Import Spec.

Lemma app_cons c (a b : string) : String c a +:+ b = String c (a +:+ b).
Proof. reflexivity. Qed.

Lemma app_nil (b : string) : "" +:+ b = b.
Proof. reflexivity. Qed.

Lemma append_assoc (a b c : string) : (a +:+ b) +:+ c = a +:+ (b +:+ c).
Proof.
  induction a as [| x a IH]; [reflexivity |].
  rewrite !app_cons. now f_equal.
Qed.

Lemma length_append (a b : string) :
  String.length (a +:+ b) = (String.length a + String.length b)%nat.
Proof.
  induction a as [| x a IH]; [reflexivity |].
  rewrite app_cons. simpl. now rewrite IH.
Qed.

Lemma str_forall_app f a b :
  str_forall f (a +:+ b) = str_forall f a && str_forall f b.
Proof.
  induction a as [| x a IH]; [reflexivity |].
  rewrite app_cons. simpl. now rewrite IH, andb_assoc.
Qed.

Lemma str_forall_impl (f g : ascii -> bool) s :
  (forall c, f c = true -> g c = true) ->
  str_forall f s = true -> str_forall g s = true.
Proof.
  intros Hfg. induction s as [| c s IH]; simpl; [easy |].
  intros H. apply andb_prop in H as [H1 H2]. rewrite (Hfg c H1). auto.
Qed.

Lemma is_digit_digit_char d : 0 <= d < 10 -> is_digit (digit_char d) = true.
Proof.
  intros H.
  assert (E : d = 0 \/ d = 1 \/ d = 2 \/ d = 3 \/ d = 4 \/ d = 5 \/ d = 6
              \/ d = 7 \/ d = 8 \/ d = 9) by lia.
  repeat (destruct E as [-> | E]; [reflexivity |]). now subst.
Qed.

Lemma dec_digits_digits fuel : forall n acc,
  0 <= n -> str_forall is_digit acc = true ->
  str_forall is_digit (dec_digits fuel n acc) = true.
Proof.
  induction fuel as [| k IH]; intros n acc Hn Hacc; simpl; [exact Hacc |].
  assert (Hd : str_forall is_digit (String (digit_char (n mod 10)) acc) = true).
  { cbn [str_forall]. rewrite is_digit_digit_char, Hacc; [reflexivity |].
    apply Z.mod_pos_bound; lia. }
  destruct (n <? 10); [exact Hd |].
  apply IH; [apply Z.div_pos; lia | exact Hd].
Qed.

Lemma dec_digits_of_nonneg n : 0 <= n -> str_forall is_digit (dec n) = true.
Proof.
  intros Hn. unfold dec.
  destruct (n <? 0) eqn:E; [apply Z.ltb_lt in E; lia |].
  now apply dec_digits_digits.
Qed.

Lemma zeros_digits n : str_forall is_digit (zeros n) = true.
Proof. induction n; simpl; auto. Qed.

Lemma padStart0_digits n s :
  str_forall is_digit s = true -> str_forall is_digit (padStart0 n s) = true.
Proof.
  intros H. unfold padStart0. now rewrite str_forall_app, zeros_digits, H.
Qed.

Lemma digit_not_LF c : is_digit c = true -> not_LF c = true.
Proof.
  unfold not_LF. destruct (Ascii.eqb_spec c LF) as [-> |]; [discriminate | easy].
Qed.

(** A line of [split_lines] holds no line feed, and [split_lines] undoes
    [join_lines] on such lines. *)
Lemma split_lines_app_LF a b :
  str_forall not_LF a = true ->
  split_lines (a +:+ String LF b) = a :: split_lines b.
Proof.
  induction a as [| c a IH]; intros H; [reflexivity |].
  rewrite app_cons. simpl in *.
  apply andb_prop in H as [Hc Ha]. unfold not_LF in Hc.
  destruct (Ascii.eqb c LF); [discriminate |].
  now rewrite (IH Ha).
Qed.

Lemma split_lines_one a : str_forall not_LF a = true -> split_lines a = [a].
Proof.
  induction a as [| c a IH]; simpl; intros H; [reflexivity |].
  apply andb_prop in H as [Hc Ha]. unfold not_LF in Hc.
  destruct (Ascii.eqb c LF); [discriminate |].
  now rewrite (IH Ha).
Qed.

Lemma split_join (ls : list string) :
  ls <> [] -> Forall (fun l => str_forall not_LF l = true) ls ->
  split_lines (join_lines ls) = ls.
Proof.
  induction ls as [| l r IH]; [congruence |]. intros _ H.
  apply Forall_cons_iff in H as [Hl Hr].
  destruct r as [| l' r'].
  - simpl. now apply split_lines_one.
  - change (join_lines (l :: l' :: r')) with (l +:+ String LF (join_lines (l' :: r'))).
    rewrite split_lines_app_LF by exact Hl.
    f_equal. apply IH; [congruence | exact Hr].
Qed.

Lemma split_lines_no_LF s :
  Forall (fun l => str_forall not_LF l = true) (split_lines s).
Proof.
  induction s as [| c s IH]; simpl.
  - repeat constructor.
  - destruct (Ascii.eqb c LF) eqn:E.
    + constructor; [reflexivity | exact IH].
    + destruct (split_lines s) as [| l ls].
      * constructor; [| constructor]. simpl. unfold not_LF. now rewrite E.
      * apply Forall_cons_iff in IH as [Hl Hls].
        constructor; [| exact Hls]. simpl. unfold not_LF at 1. now rewrite E.
Qed.

Lemma split_lines_nonempty s : split_lines s <> [].
Proof.
  destruct s as [| c s]; simpl; [congruence |].
  destruct (Ascii.eqb c LF); [congruence |].
  destruct (split_lines s); congruence.
Qed.

Lemma join_lines_cons_char c l ls :
  join_lines (String c l :: ls) = String c (join_lines (l :: ls)).
Proof. destruct ls; reflexivity. Qed.

Lemma join_split s : join_lines (split_lines s) = s.
Proof.
  induction s as [| c s IH]; [reflexivity |].
  cbn [split_lines].
  destruct (split_lines s) as [| l ls] eqn:E.
  { now apply split_lines_nonempty in E. }
  destruct (Ascii.eqb_spec c LF) as [-> | Hc].
  - change (join_lines ("" :: l :: ls)) with (String LF (join_lines (l :: ls))).
    now rewrite IH.
  - rewrite join_lines_cons_char. now rewrite IH.
Qed.

(** The first dash of [a-r] is the one after [a] when [a] is digits. *)
Lemma replace_first_char p rep c s :
  replace_first (String p "") rep (String c s)
  = if Ascii.eqb p c then rep +:+ s
    else String c (replace_first (String p "") rep s).
Proof. simpl. destruct (Ascii.eqb p c); reflexivity. Qed.

Lemma replace_first_dash a r :
  str_forall is_digit a = true ->
  replace_first "-" "/" (a +:+ String "-" r) = a +:+ String "/" r.
Proof.
  induction a as [| c a IH]; intros H.
  - reflexivity.
  - simpl in H. apply andb_prop in H as [Hc Ha].
    rewrite !app_cons, replace_first_char.
    destruct (Ascii.eqb_spec "-" c) as [<- |]; [discriminate |].
    now rewrite (IH Ha).
Qed.

End StringFacts.

(* ================================================================= *)
(** ** The calendar *)

Module Calendar.
Import JSDate WeekInfo Spec.

Ltac zdiv := Z.div_mod_to_equations; lia.

(** [YearFromDay d] is the year [d] lies in. *)
Lemma YearFromDay_spec d :
  DayFromYear (YearFromDay d) <= d < DayFromYear (YearFromDay d + 1).
Proof.
  unfold YearFromDay, DayFromYear.
  set (q := 400 * d / 146097).
  assert (Hq : 146097 * q <= 400 * d < 146097 * (q + 1)) by (unfold q; zdiv).
  clearbody q.
  repeat match goal with
  | |- context [?a <? ?b] => destruct (Z.ltb_spec a b)
  | |- context [?a <=? ?b] => destruct (Z.leb_spec a b)
  end; split; zdiv.
Qed.

Lemma DayFromYear_succ y : DayFromYear (y + 1) = DayFromYear y + DaysInYear y.
Proof.
  unfold DayFromYear, DaysInYear.
  repeat match goal with
  | |- context [?a =? ?b] => destruct (Z.eqb_spec a b)
  end; cbn [negb]; zdiv.
Qed.

Lemma MonthFromTime_range t : 0 <= MonthFromTime t <= 11.
Proof.
  unfold MonthFromTime.
  repeat match goal with |- context [if ?c then _ else _] => destruct c end; lia.
Qed.

(** [MakeDay] on the year and month of [t] counts from the day of [t]. *)
Lemma MakeDay_of_time t dt :
  MakeDay (YearFromTime t) (MonthFromTime t) dt = Day t - DateFromTime t + dt.
Proof.
  pose proof (MonthFromTime_range t) as Hm.
  unfold MakeDay, DateFromTime, DayWithinYear, InLeapYear.
  replace (MonthFromTime t / 12) with 0 by zdiv.
  replace (MonthFromTime t mod 12) with (MonthFromTime t) by zdiv.
  rewrite Z.add_0_r. lia.
Qed.

Lemma Day_of_days d : Day (d * msPerDay) = d.
Proof. unfold Day, msPerDay. zdiv. Qed.

Lemma TimeWithinDay_of_days d : TimeWithinDay (d * msPerDay) = 0.
Proof. unfold TimeWithinDay, msPerDay. zdiv. Qed.

Lemma Date_UTC_full_year y m d :
  ~ (0 <= y <= 99) -> Date_UTC y m d = MakeDay y m d * msPerDay.
Proof.
  intros Hy. unfold Date_UTC, MakeDate.
  destruct (Z.leb_spec 0 y), (Z.leb_spec y 99); cbn [andb]; lia.
Qed.

Lemma MakeDay_jan_1 y : MakeDay y 0 1 = DayFromYear y.
Proof.
  unfold MakeDay, month_start.
  change (0 / 12) with 0. change (0 mod 12) with 0. change (0 =? 0) with true.
  cbv iota. rewrite !Z.add_0_r. lia.
Qed.

(** The week number of [getWeekNumber] is the ISO week number of the
    local date, unless the local year or the year of the week's Thursday
    is one of the years 0 to 99, which [Date.UTC] reads as 1900 to 1999. *)
Lemma getWeekNumber_iso (h : Host) (t : Z) :
  let day := Day (LocalTime h t) in
  ~ (0 <= YearFromDay day <= 99) ->
  ~ (0 <= YearFromDay (week_thursday day) <= 99) ->
  getWeekNumber h t = iso_week day.
Proof.
  intros day Hy Hth. unfold getWeekNumber, getFullYear, getMonth, getDate.
  set (lt := LocalTime h t) in *.
  rewrite Date_UTC_full_year by exact Hy.
  rewrite MakeDay_of_time. fold day.
  replace (day - DateFromTime lt + DateFromTime lt) with day by lia.
  unfold getUTCDay, getUTCDate, getUTCFullYear, setUTCDate, WeekDay, MakeDate.
  rewrite MakeDay_of_time, TimeWithinDay_of_days, !Day_of_days.
  set (dayNum := if (day + 4) mod 7 =? 0 then 7 else (day + 4) mod 7).
  replace (day - DateFromTime (day * msPerDay)
           + (DateFromTime (day * msPerDay) + 4 - dayNum))
    with (week_thursday day).
  2:{ unfold week_thursday, week_monday, weekday_of_day, dayNum.
      destruct (Z.eqb_spec ((day + 4) mod 7) 0); zdiv. }
  rewrite Z.add_0_r.
  set (th := week_thursday day) in *.
  assert (Hth4 : (th + 4) mod 7 = 4).
  { unfold th, week_thursday, week_monday, weekday_of_day. zdiv. }
  unfold YearFromTime. rewrite Day_of_days.
  rewrite Date_UTC_full_year by exact Hth.
  rewrite MakeDay_jan_1.
  pose proof (YearFromDay_spec th) as [Hlo _].
  unfold iso_week. fold th. unfold first_thursday, weekday_of_day, ceil_div.
  set (jan1 := DayFromYear (YearFromDay th)) in *.
  replace ((th * msPerDay - jan1 * msPerDay) / 86400000) with (th - jan1)
    by (unfold msPerDay; zdiv).
  zdiv.
Qed.

Lemma getWeekNumber_iso_witness :
  getWeekNumber utc_host 1769558400000 = iso_week 20481.
Proof.
  apply (getWeekNumber_iso utc_host 1769558400000); vm_compute; intros [_ H];
    now apply H.
Defined.

(** The boundary cases: 2024-12-30 lies in week 1 of 2025, 2021-01-03 in
    week 53 of 2020. *)
Example getWeekNumber_boundaries :
  option_map (getWeekNumber utc_host) (iso_date "2024-12-30") = Some 1
  /\ option_map (getWeekNumber utc_host) (iso_date "2021-01-03") = Some 53.
Proof. split; vm_compute; reflexivity. Qed.

(** C4, on a date of the year 50.  [new Date("0050-01-02")] is a Sunday,
    the last day of week 52 of the year 49; [getWeekNumber] answers 1,
    the week of 1950-01-02, because [Date.UTC] reads the year 50 as
    1950. *)
Theorem getWeekNumber_year_50 :
  Date_parse utc_host "0050-01-02" = Some jan_2_of_year_50
  /\ getFullYear utc_host jan_2_of_year_50 = 50
  /\ getDay utc_host jan_2_of_year_50 = 0
  /\ iso_week (Day (LocalTime utc_host jan_2_of_year_50)) = 52
  /\ getWeekNumber utc_host jan_2_of_year_50 = 1
  /\ toISOString_10 (Date_UTC 50 0 2) = "1950-01-02".
Proof. repeat split; vm_compute; reflexivity. Qed.

Lemma Day_MakeDate d tw :
  0 <= tw < msPerDay -> Day (MakeDate d tw) = d.
Proof. unfold Day, MakeDate, msPerDay. intros H. zdiv. Qed.

Lemma TimeWithinDay_MakeDate d tw :
  0 <= tw < msPerDay -> TimeWithinDay (MakeDate d tw) = tw.
Proof. unfold TimeWithinDay, MakeDate, msPerDay. intros H. zdiv. Qed.

Lemma TimeWithinDay_range t : 0 <= TimeWithinDay t < msPerDay.
Proof. unfold TimeWithinDay, msPerDay. zdiv. Qed.

Lemma MakeDate_Day t : MakeDate (Day t) (TimeWithinDay t) = t.
Proof. unfold MakeDate, Day, TimeWithinDay, msPerDay. zdiv. Qed.

(** The first ten characters of [toISOString] depend on the day only. *)
Lemma toISOString_10_day t : toISOString_10 t = day_string (Day t).
Proof.
  unfold day_string, toISOString_10, DateFromTime, MonthFromTime, InLeapYear,
    DayWithinYear, YearFromTime.
  now rewrite !Day_of_days.
Qed.

(** [d.setDate(dt)] moves the local day and keeps the local time of day. *)
Lemma setDate_local h t dt :
  LocalTime h (setDate h t dt)
  = MakeDate (Day (LocalTime h t) - DateFromTime (LocalTime h t) + dt)
      (TimeWithinDay (LocalTime h t)).
Proof.
  unfold setDate, LocalTime, UTC. rewrite MakeDay_of_time. lia.
Qed.

(** The range of [getWeekRange] is the week of the local date when, at the
    time [t], the date in UTC is the local date. *)
Lemma getWeekRange_same_date (h : Host) (t : Z) :
  Day (LocalTime h t) = Day t ->
  getWeekRange h t = week_range_in_words h t.
Proof.
  intros Hsame. unfold getWeekRange, week_range_in_words.
  rewrite !toISOString_10_day. unfold getDay, getDate, WeekDay, weekday_of_day.
  pose proof (setDate_local h) as Hset.
  set (lt := LocalTime h t) in *. set (day := Day lt) in *.
  set (wd := (day + 4) mod 7).
  set (diff := DateFromTime lt - wd + (if wd =? 0 then -6 else 1)).
  set (dayNum := if wd =? 0 then 7 else wd).
  pose proof (TimeWithinDay_range lt) as Htw.
  assert (Hmon : LocalTime h (setDate h t diff)
                 = MakeDate (day - (dayNum - 1)) (TimeWithinDay lt)).
  { rewrite Hset. fold lt day. f_equal. unfold diff, dayNum.
    destruct (Z.eqb_spec wd 0); lia. }
  assert (Hshift : forall u d,
            LocalTime h u = MakeDate d (TimeWithinDay lt) -> Day u = d).
  { intros u d Hu. unfold LocalTime in *. fold lt in Htw.
    assert (E : LocalTZA h = lt - t) by (unfold lt, LocalTime; lia).
    assert (Ht : t = MakeDate (Day t) (TimeWithinDay t))
      by (symmetry; apply MakeDate_Day).
    assert (Hlt : lt = MakeDate day (TimeWithinDay lt))
      by (symmetry; apply MakeDate_Day).
    pose proof (TimeWithinDay_range t) as Htt.
    unfold MakeDate, Day, msPerDay in *. rewrite <- Hsame in Ht.
    fold lt in Hlt. zdiv. }
  f_equal.
  - f_equal. now apply Hshift.
  - f_equal. apply Hshift. rewrite Hset, Hmon.
    rewrite Day_MakeDate, TimeWithinDay_MakeDate by exact Htw. f_equal. lia.
Qed.

Lemma getWeekRange_same_date_witness :
  getWeekRange utc_host 1769558400000
  = {| range_start := "2026-01-26"; range_end := "2026-02-01" |}.
Proof.
  rewrite (getWeekRange_same_date utc_host 1769558400000); reflexivity.
Defined.

(** C8, three hours after local midnight, eight hours east of UTC.  The
    local date is Wednesday 2026-01-28, whose week runs from Monday
    2026-01-26 to Sunday 2026-02-01; [getWeekRange] moves the local date
    and prints the date in UTC, and answers Sunday 2026-01-25 to Saturday
    2026-01-31. *)
Theorem getWeekRange_east_of_utc :
  getDay east_host (now east_host) = 3
  /\ getDate east_host (now east_host) = 28
  /\ week_range_in_words east_host (now east_host)
     = {| range_start := "2026-01-26"; range_end := "2026-02-01" |}
  /\ getWeekRange east_host (now east_host)
     = {| range_start := "2026-01-25"; range_end := "2026-01-31" |}
  /\ weekday_of_day (Day (now east_host) - 2) = 0.
Proof. repeat split; vm_compute; reflexivity. Qed.

End Calendar.

(* ================================================================= *)
(** ** A month without a file *)

Module NewFile.
Import JSDate WeekInfo Worklog LogWork Spec StringFacts Calendar.

Lemma path_join_neq a b : path_join a b <> a.
Proof.
  unfold path_join. intros H.
  apply (f_equal String.length) in H.
  rewrite length_append in H. simpl in H. lia.
Qed.

Lemma numeric_title_lines year month0 :
  0 <= year -> 0 <= month0 ->
  split_lines (numeric_title year month0 +:+ String LF "")
  = [numeric_title year month0; ""].
Proof.
  intros Hy Hm. rewrite split_lines_app_LF; [reflexivity |].
  unfold numeric_title. rewrite !str_forall_app.
  rewrite (str_forall_impl is_digit not_LF (dec year) digit_not_LF)
    by now apply dec_digits_of_nonneg.
  rewrite (str_forall_impl is_digit not_LF (padStart0 2 _) digit_not_LF)
    by (apply padStart0_digits, dec_digits_of_nonneg; lia).
  reflexivity.
Qed.

Lemma parse_title_lines title :
  parse_lines ["# " +:+ title; ""] = Ok [HeaderBlock ["# " +:+ title; ""]].
Proof. reflexivity. Qed.

Lemma new_file_content_numeric h s t info :
  s <> "" -> Date_parse h s = Some t -> 0 <= getFullYear h t ->
  getWeekInfo h (Some s) = Ok info ->
  month info = dec (getFullYear h t) +:+ "-" +:+ padStart0 2 (dec (getMonth h t + 1))
  /\ new_file_content info
     = numeric_title (getFullYear h t) (getMonth h t) +:+ String LF "".
Proof.
  intros Hne Hp Hy. unfold getWeekInfo.
  assert (Ht : truthy (Some s) = true) by (destruct s; [congruence | reflexivity]).
  rewrite Ht. simpl default. rewrite Hp. intros [= <-].
  split; [reflexivity |].
  unfold new_file_content, numeric_title. simpl month.
  change (dec (getFullYear h t) +:+ "-" +:+ padStart0 2 (dec (getMonth h t + 1)))
    with (dec (getFullYear h t) +:+ String "-" (padStart0 2 (dec (getMonth h t + 1)))).
  rewrite replace_first_dash by now apply dec_digits_of_nonneg.
  rewrite !append_assoc. reflexivity.
Qed.




End NewFile.

(* ================================================================= *)
(** ** Rendering what was parsed *)

Module RoundTrip.
Import Worklog LogWork Spec StringFacts ParserFacts.

Lemma filter_week_headers secs :
  forallb is_header secs = true -> List.filter is_week secs = [].
Proof.
  induction secs as [| s secs IH]; simpl; [reflexivity |].
  intros H. apply andb_prop in H as [Hs H]. unfold is_week. rewrite Hs. simpl. auto.
Qed.

Lemma render_lines_app_week secs w :
  render_lines (secs ++ [WeekSection w]) = render_lines secs ++ render_week w.
Proof.
  unfold render_lines. rewrite !List.filter_app, !flat_map_app. simpl.
  rewrite !app_nil_r. now rewrite app_assoc.
Qed.

Lemma render_lines_app_header secs b :
  forallb is_header secs = true ->
  render_lines (secs ++ [HeaderBlock b]) = render_lines secs ++ b.
Proof.
  intros H. unfold render_lines. rewrite !List.filter_app, !flat_map_app.
  rewrite (filter_week_headers secs H). simpl. now rewrite !app_nil_r.
Qed.

Lemma render_week_push w d :
  render_week (push_day w d) = render_week w ++ render_day d.
Proof.
  unfold render_week, push_day. simpl. rewrite flat_map_app. simpl.
  rewrite app_nil_r. now rewrite app_assoc.
Qed.

Lemma render_day_push d t :
  render_day (push_task d t) = render_day d ++ render_task t.
Proof.
  unfold render_day, push_task. simpl. rewrite flat_map_app. simpl.
  rewrite app_nil_r. now rewrite app_assoc.
Qed.

Lemma render_task_add t b :
  render_task (add_task_content t b) = render_task t ++ b.
Proof. reflexivity. Qed.

Lemma render_day_add d b :
  tasks d = [] -> render_day (add_day_content d b) = render_day d ++ b.
Proof.
  intros H. unfold render_day, add_day_content. simpl. rewrite H. simpl.
  now rewrite !app_nil_r.
Qed.

Lemma render_week_add w b :
  days w = [] -> render_week (add_week_content w b) = render_week w ++ b.
Proof.
  intros H. unfold render_week, add_week_content. simpl. rewrite H. simpl.
  now rewrite !app_nil_r.
Qed.

(** Flushing the buffer changes neither the phase nor the pending lines. *)
Lemma flush_pending ph st :
  in_phase ph st ->
  in_phase ph (flushBuffer st)
  /\ pending (flushBuffer st) = pending st
  /\ buffer (flushBuffer st) = [].
Proof.
  unfold flushBuffer. destruct (buffer st) as [| b0 b] eqn:B.
  { intros H. auto. }
  destruct ph; cbn [in_phase].
  - intros (Hw & Hd & Ht & Hs). rewrite Ht, Hd, Hw.
    unfold pending. cbn [sections currentWeek currentDay currentTask buffer opt_lines].
    rewrite Hw, Hd, Ht, B. cbn [opt_lines].
    rewrite forallb_app, Hs.
    rewrite render_lines_app_header by exact Hs.
    rewrite !app_nil_r. auto.
  - intros (w & Hw & Hdays & Hd & Ht). rewrite Ht, Hd, Hw.
    unfold pending. cbn [sections currentWeek currentDay currentTask buffer opt_lines].
    rewrite Hw, Hd, Ht, B. cbn [opt_lines].
    split; [exists (add_week_content w (b0 :: b)); auto |].
    split; [| reflexivity].
    rewrite render_week_add by exact Hdays.
    rewrite !app_nil_r. reflexivity.
  - intros (w & d & Hw & Hd & Htasks & Ht). rewrite Ht, Hd.
    unfold pending. cbn [sections currentWeek currentDay currentTask buffer opt_lines].
    rewrite Hw, Hd, Ht, B. cbn [opt_lines].
    split; [exists w, (add_day_content d (b0 :: b)); auto |].
    split; [| reflexivity].
    rewrite render_day_add by exact Htasks.
    rewrite !app_nil_r. reflexivity.
  - intros (w & d & t & Hw & Hd & Ht). rewrite Ht.
    unfold pending. cbn [sections currentWeek currentDay currentTask buffer opt_lines].
    rewrite Hw, Hd, Ht, B. cbn [opt_lines].
    split; [exists w, d, (add_task_content t (b0 :: b)); auto |].
    split; [| reflexivity].
    rewrite render_task_add.
    rewrite !app_nil_r. reflexivity.
Qed.

Ltac open_pending :=
  unfold pending;
  cbn [sections currentWeek currentDay currentTask buffer opt_lines].

Lemma in_phase_day ph st :
  in_phase ph st -> is_some (currentDay st) = in_day ph.
Proof.
  destruct ph; cbn [in_phase].
  - now intros (_ & -> & _).
  - now intros (w & _ & _ & -> & _).
  - now intros (w & d & _ & -> & _).
  - now intros (w & d & t & _ & -> & _).
Qed.

Lemma step_week ph st l :
  in_phase ph st -> ph = NoWeek \/ ph = InWeek ->
  week_header_re l = true ->
  exists st', step st l = Ok st' /\ in_phase InWeek st'
              /\ pending st' = pending st ++ [""; l].
Proof.
  intros Hph Hcase Hre. unfold step. rewrite Hre.
  destruct (flush_pending ph st Hph) as (Hph1 & <- & Hb).
  set (st1 := flushBuffer st) in *. clearbody st1.
  eexists. split; [reflexivity |].
  split; [cbn; eauto 10 |].
  open_pending. rewrite Hb. unfold close_week.
  destruct Hcase as [-> | ->]; cbn [in_phase] in Hph1.
  - destruct Hph1 as (Hw & Hd & Ht & _). rewrite Hw, Hd, Ht. cbn [opt_lines].
    rewrite !app_nil_r. reflexivity.
  - destruct Hph1 as (w & Hw & _ & Hd & Ht). rewrite Hw, Hd, Ht. cbn [opt_lines].
    rewrite render_lines_app_week, !app_nil_r. reflexivity.
Qed.

Lemma step_day ph st l :
  in_phase ph st -> ph = InWeek \/ ph = InDay ->
  week_header_re l = false -> day_header_re l = true ->
  exists st', step st l = Ok st' /\ in_phase InDay st'
              /\ pending st' = pending st ++ [""; l].
Proof.
  intros Hph Hcase Hw Hre. unfold step. rewrite Hw, Hre.
  destruct (flush_pending ph st Hph) as (Hph1 & <- & Hb).
  set (st1 := flushBuffer st) in *. clearbody st1.
  destruct Hcase as [-> | ->]; cbn [in_phase] in Hph1.
  - destruct Hph1 as (w & Hcw & _ & Hd & Ht). rewrite Hcw, Hd.
    cbn [push_into mbind Result_bind].
    eexists. split; [reflexivity |]. split; [cbn; eauto 10 |].
    open_pending. rewrite Hb, Hcw, Hd, Ht. cbn [opt_lines].
    rewrite !app_nil_r, <- ?app_assoc. reflexivity.
  - destruct Hph1 as (w & d & Hcw & Hd & _ & Ht). rewrite Hcw, Hd.
    cbn [push_into mbind Result_bind].
    eexists. split; [reflexivity |]. split; [cbn; eauto 10 |].
    open_pending. rewrite Hb, Hcw, Hd, Ht. cbn [opt_lines].
    rewrite render_week_push, !app_nil_r, <- ?app_assoc. reflexivity.
Qed.

Lemma then_char_Some c s r : then_char c s = Some r -> s = String c r.
Proof.
  destruct s as [| a s]; simpl; [discriminate |].
  destruct (Ascii.eqb_spec a c) as [-> |]; [now intros [= ->] | discriminate].
Qed.

Lemma span_app f s : forall a b, span f s = (a, b) -> s = a +:+ b.
Proof.
  induction s as [| c s IH]; simpl; intros a b.
  - now intros [= <- <-].
  - destruct (f c).
    + destruct (span f s) as [a' b']. intros [= <- <-].
      rewrite app_cons. f_equal. now apply IH.
    + now intros [= <- <-].
Qed.

Lemma plus_app f s a b : plus f s = Some (a, b) -> s = a +:+ b.
Proof.
  unfold plus. destruct (span f s) as [a' b'] eqn:E.
  destruct (str_empty a'); [discriminate |]. intros [= <- <-].
  now apply span_app in E.
Qed.

Lemma tracking_id_prefix_app l id r :
  tracking_id_prefix l = Some (id, r) -> l = "- " +:+ id +:+ r.
Proof.
  unfold tracking_id_prefix.
  destruct (strip_prefix "- " l) as [r0 |] eqn:E0; [| discriminate].
  apply strip_prefix_Some in E0. subst l. cbn [mbind option_bind].
  destruct (plus is_upper r0) as [[letters r1] |] eqn:E1; [| discriminate].
  apply plus_app in E1. subst r0. cbn [mbind option_bind].
  destruct (then_char "-" r1) as [r2 |] eqn:E2; [| discriminate].
  apply then_char_Some in E2. subst r1. cbn [mbind option_bind].
  destruct (plus is_digit r2) as [[digits r3] |] eqn:E3; [| discriminate].
  apply plus_app in E3. subst r2. cbn [mbind option_bind].
  intros [= <- <-]. now rewrite !append_assoc.
Qed.

(** The two groups of the task expression make up the line again. *)
Lemma task_groups_re_line l id text :
  task_groups_re l = Some (id, text) -> l = "- " +:+ id +:+ ": " +:+ text.
Proof.
  unfold task_groups_re.
  destruct (tracking_id_prefix l) as [[id0 r] |] eqn:E; [| discriminate].
  apply tracking_id_prefix_app in E. subst l. cbn [mbind option_bind].
  destruct (then_char ":" r) as [r1 |] eqn:E1; [| discriminate].
  apply then_char_Some in E1. subst r. cbn [mbind option_bind].
  destruct (then_char " " r1) as [r2 |] eqn:E2; [| discriminate].
  apply then_char_Some in E2. subst r1. cbn [mbind option_bind].
  destruct (negb (str_empty r2) && str_forall is_dot r2); [| discriminate].
  now intros [= <- <-].
Qed.

Lemma step_task ph st l :
  in_phase ph st -> in_day ph = true ->
  week_header_re l = false -> day_header_re l = false ->
  task_line_re l = true -> is_some (task_groups_re l) = true ->
  exists st', step st l = Ok st' /\ in_phase InTask st'
              /\ pending st' = pending st ++ [""; l].
Proof.
  intros Hph Hin Hw Hd Hre Hg. unfold step.
  rewrite Hw, Hd, Hre, (in_phase_day ph st Hph), Hin. cbn [andb].
  destruct (task_groups_re l) as [[id text] |] eqn:G; [| discriminate].
  apply task_groups_re_line in G.
  destruct (flush_pending ph st Hph) as (Hph1 & <- & Hb).
  set (st1 := flushBuffer st) in *. clearbody st1.
  destruct ph; try discriminate; cbn [in_phase] in Hph1.
  - destruct Hph1 as (w & d & Hcw & Hcd & _ & Ht). rewrite Hcd, Ht.
    cbn [push_into mbind Result_bind].
    eexists. split; [reflexivity |]. split; [cbn; eauto 10 |].
    open_pending. rewrite Hb, Hcw, Hcd, Ht. cbn [opt_lines].
    rewrite !app_nil_r, <- ?app_assoc. unfold render_task, task_line.
    cbn [trackingId summary task_content]. now rewrite <- G.
  - destruct Hph1 as (w & d & t & Hcw & Hcd & Ht). rewrite Hcd, Ht.
    cbn [push_into mbind Result_bind].
    eexists. split; [reflexivity |]. split; [cbn; eauto 10 |].
    open_pending. rewrite Hb, Hcw, Hcd, Ht. cbn [opt_lines].
    rewrite render_day_push, !app_nil_r, <- ?app_assoc.
    unfold render_task at 2. unfold task_line.
    cbn [trackingId summary task_content]. now rewrite <- G.
Qed.

Lemma step_other ph st l :
  in_phase ph st ->
  week_header_re l = false -> day_header_re l = false ->
  in_day ph && task_line_re l = false ->
  exists st', step st l = Ok st' /\ in_phase ph st'
              /\ pending st' = pending st ++ [l].
Proof.
  intros Hph Hw Hd Hre. unfold step.
  rewrite Hw, Hd, (in_phase_day ph st Hph), Hre.
  eexists. split; [reflexivity |]. split.
  - destruct ph; cbn [in_phase] in *; cbn; exact Hph.
  - open_pending. now rewrite <- !app_assoc.
Qed.

Lemma run_kept lines : forall ph st,
  in_phase ph st -> kept ph lines = true ->
  exists st' ph',
    run st lines = Ok st' /\ in_phase ph' st'
    /\ pending st' = pending st ++ spaced (in_day ph) lines.
Proof.
  induction lines as [| l r IH]; intros ph st Hph Hk.
  - exists st, ph. cbn. now rewrite app_nil_r.
  - cbn [kept spaced run] in *.
    destruct (week_header_re l) eqn:Hw.
    { assert (Hcase : ph = NoWeek \/ ph = InWeek)
        by (destruct ph; auto; discriminate).
      destruct (step_week ph st l Hph Hcase Hw) as (st1 & -> & Hph1 & Hp1).
      assert (Hk1 : kept InWeek r = true) by (destruct ph; auto; discriminate).
      destruct (IH InWeek st1 Hph1 Hk1) as (st' & ph' & Hrun & Hph' & Hp').
      exists st', ph'. cbn [mbind Result_bind]. split; [exact Hrun |].
      split; [exact Hph' |]. rewrite Hp', Hp1, <- app_assoc. reflexivity. }
    destruct (day_header_re l) eqn:Hd.
    { assert (Hcase : ph = InWeek \/ ph = InDay)
        by (destruct ph; auto; discriminate).
      destruct (step_day ph st l Hph Hcase Hw Hd) as (st1 & -> & Hph1 & Hp1).
      assert (Hk1 : kept InDay r = true) by (destruct ph; auto; discriminate).
      destruct (IH InDay st1 Hph1 Hk1) as (st' & ph' & Hrun & Hph' & Hp').
      exists st', ph'. cbn [mbind Result_bind]. split; [exact Hrun |].
      split; [exact Hph' |]. rewrite Hp', Hp1, <- app_assoc. reflexivity. }
    destruct (in_day ph && task_line_re l) eqn:Ht.
    { apply andb_prop in Hk as [Hg Hk1].
      apply andb_prop in Ht as [Hin Hre].
      destruct (step_task ph st l Hph Hin Hw Hd Hre Hg) as (st1 & -> & Hph1 & Hp1).
      destruct (IH InTask st1 Hph1 Hk1) as (st' & ph' & Hrun & Hph' & Hp').
      exists st', ph'. cbn [mbind Result_bind]. split; [exact Hrun |].
      split; [exact Hph' |]. rewrite Hp', Hp1, <- app_assoc. reflexivity. }
    destruct (step_other ph st l Hph Hw Hd Ht) as (st1 & -> & Hph1 & Hp1).
    destruct (IH ph st1 Hph1 Hk) as (st' & ph' & Hrun & Hph' & Hp').
    exists st', ph'. cbn [mbind Result_bind]. split; [exact Hrun |].
    split; [exact Hph' |]. rewrite Hp', Hp1, <- app_assoc. reflexivity.
Qed.

(** What follows the loop renders to the pending lines. *)
Lemma finish_pending ph st :
  in_phase ph st ->
  exists secs, finish st = Ok secs /\ render_lines secs = pending st.
Proof.
  intros Hph. unfold finish.
  destruct (flush_pending ph st Hph) as (Hph1 & <- & Hb).
  set (st1 := flushBuffer st) in *. clearbody st1.
  unfold pending. rewrite Hb.
  destruct ph; cbn [in_phase] in Hph1.
  - destruct Hph1 as (Hw & Hd & Ht & _). rewrite Hw, Hd, Ht.
    eexists. split; [reflexivity |]. cbn [opt_lines]. now rewrite !app_nil_r.
  - destruct Hph1 as (w & Hw & _ & Hd & Ht). rewrite Hw, Hd, Ht.
    eexists. split; [reflexivity |]. cbn [opt_lines].
    now rewrite render_lines_app_week, !app_nil_r.
  - destruct Hph1 as (w & d & Hw & Hd & _ & Ht). rewrite Hw, Hd, Ht.
    eexists. split; [reflexivity |]. cbn [opt_lines].
    now rewrite render_lines_app_week, render_week_push, !app_nil_r.
  - destruct Hph1 as (w & d & t & Hw & Hd & Ht). rewrite Hw, Hd, Ht.
    eexists. split; [reflexivity |]. cbn [opt_lines].
    now rewrite render_lines_app_week, render_week_push, render_day_push,
      !app_nil_r.
Qed.

Lemma init_phase : in_phase NoWeek init.
Proof. cbn. auto. Qed.

(** C1, as the code has it.  Parsing a text of which the parser keeps
    every line and rendering the result gives the text back with an empty
    line before every week header, every day header and every task line
    of a day, and with a line feed at the end. *)
Theorem render_parse_kept (text : string) :
  kept NoWeek (split_lines text) = true ->
  render_parse text
  = Ok (join_lines (spaced false (split_lines text)) +:+ String LF "").
Proof.
  intros Hk. unfold render_parse, parseWorklog, parse_lines.
  destruct (run_kept (split_lines text) NoWeek init init_phase Hk)
    as (st & ph & -> & Hph & Hp).
  cbn [mbind Result_bind].
  destruct (finish_pending ph st Hph) as (secs & -> & Hr).
  cbn [mbind Result_bind]. unfold render. now rewrite Hr, Hp.
Qed.

Lemma render_parse_kept_witness :
  render_parse sample_text
  = Ok (join_lines (spaced false (split_lines sample_text)) +:+ String LF "").
Proof. apply (render_parse_kept sample_text). reflexivity. Defined.

(** The sample text is not what parsing and rendering it gives: every
    block gets one more empty line before it, and the text one more line
    feed at its end. *)
Lemma render_parse_sample_differs :
  kept NoWeek (split_lines sample_text) = true
  /\ render_parse sample_text <> Ok sample_text
  /\ render_parse sample_text
     = Ok ("# 2026/01 Contribution log" +:+ LFs +:+ LFs +:+ LFs
           +:+ "## Week 5" +:+ LFs +:+ LFs
           +:+ "Last week:" +:+ LFs +:+ LFs
           +:+ "This week:" +:+ LFs +:+ LFs +:+ LFs
           +:+ "### 2026/01/28" +:+ LFs +:+ LFs +:+ LFs
           +:+ "- PROJ-123: Dashboard Automations" +:+ LFs
           +:+ "  - Implemented selector" +:+ LFs +:+ LFs).
Proof.
  split; [reflexivity |]. split; [vm_compute; discriminate |].
  vm_compute. reflexivity.
Qed.

(** The task of a day that another day follows is lost by the parser. *)
Example last_task_of_earlier_day_is_lost :
  render_parse two_days_text
  = Ok (LFs +:+ "## Week 5" +:+ LFs +:+ LFs
        +:+ "### 2026/01/28" +:+ LFs +:+ LFs
        +:+ "### 2026/01/27" +:+ LFs +:+ LFs
        +:+ "- PROJ-124: Air Quality Sensor" +:+ LFs
        +:+ "  - Fixed device state handling" +:+ LFs).
Proof. vm_compute. reflexivity. Qed.

End RoundTrip.

(* ================================================================= *)
(** ** The two sort orders *)

Module SortOrders.
Import JSDate WeekInfo Worklog LogWork Spec ListFacts MergeFacts ParserFacts.

Lemma flushBuffer_shape st : parser_shape st -> parser_shape (flushBuffer st).
Proof.
  intros (hs & ws & Hs & Hw). unfold flushBuffer.
  destruct (buffer st) as [| b0 b]; [now exists hs, ws |].
  destruct (currentTask st); [now exists hs, ws |].
  destruct (currentDay st); [now exists hs, ws |].
  destruct (currentWeek st) eqn:E.
  - exists hs, ws. cbn. split; [exact Hs | discriminate].
  - exists (hs ++ [b0 :: b]), []. cbn. rewrite Hs, (Hw eq_refl), map_app.
    cbn. now rewrite !app_nil_r.
Qed.

Lemma flushBuffer_week_none st :
  currentWeek (flushBuffer st) = None -> currentWeek st = None.
Proof.
  destruct (flushBuffer_open st) as (Hw & _).
  destruct (currentWeek st), (currentWeek (flushBuffer st)); try discriminate; auto.
Qed.

Lemma step_shape st l st' :
  parser_shape st -> step st l = Ok st' -> parser_shape st'.
Proof.
  intros Hsh0. assert (Hsh := flushBuffer_shape st Hsh0).
  unfold step. set (st1 := flushBuffer st) in *. clearbody st1.
  destruct Hsh as (hs & ws & Hs & Hw).
  destruct (week_header_re l).
  { intros [= <-]. unfold close_week. destruct (currentWeek st1).
    - exists hs, (ws ++ [w]). cbn. rewrite Hs, map_app, app_assoc.
      split; [reflexivity | discriminate].
    - exists hs, ws. cbn. split; [exact Hs | discriminate]. }
  destruct (day_header_re l).
  { destruct (currentDay st1), (currentWeek st1) eqn:E;
      cbn [push_into mbind Result_bind]; try discriminate;
      intros [= <-]; exists hs, ws; cbn; split; auto; discriminate. }
  destruct (is_some (currentDay st) && task_line_re l).
  { destruct (push_into _ _ _); cbn [mbind Result_bind]; [| discriminate].
    destruct (task_groups_re l) as [[? ?] |]; [| discriminate].
    intros [= <-]. exists hs, ws. cbn. auto. }
  intros [= <-]. exact Hsh0.
Qed.

Lemma run_shape lines : forall st st',
  parser_shape st -> run st lines = Ok st' -> parser_shape st'.
Proof.
  induction lines as [| l r IH]; cbn [run]; intros st st' Hsh H.
  - now inversion H; subst.
  - destruct (step st l) as [st1 |] eqn:E; [| discriminate].
    cbn [mbind Result_bind] in H. eapply IH; [| exact H].
    eapply step_shape; eauto.
Qed.

Lemma parse_lines_headers_first lines secs :
  parse_lines lines = Ok secs -> headers_first secs.
Proof.
  unfold parse_lines.
  destruct (run init lines) as [st |] eqn:E; [| discriminate].
  cbn [mbind Result_bind].
  assert (Hsh : parser_shape init) by (exists [], []; cbn; auto).
  apply (run_shape lines init st Hsh) in E. apply flushBuffer_shape in E.
  unfold finish. set (st1 := flushBuffer st) in *. clearbody st1.
  destruct E as (hs & ws & Hs & _).
  destruct (push_into push_task _ _) as [d |]; cbn [mbind Result_bind];
    [| discriminate].
  destruct (push_into push_day _ _) as [[w |] |]; cbn [mbind Result_bind];
    [| | discriminate]; intros [= <-].
  - exists hs, (ws ++ [w]). now rewrite Hs, map_app, app_assoc.
  - now exists hs, ws.
Qed.

(** Sorting leaves the header blocks where they are and sorts the weeks. *)
Lemma sort_insert_weeks a ws :
  sort_insert compareSections (WeekSection a) (map WeekSection ws)
  = map WeekSection (sort_insert compareWeeks a ws).
Proof.
  induction ws as [| b ws IH]; cbn; [reflexivity |].
  destruct (0 <? Worklog.weekNumber b - Worklog.weekNumber a); cbn; [| reflexivity].
  now rewrite IH.
Qed.

Lemma js_sort_weeks ws :
  js_sort compareSections (map WeekSection ws)
  = map WeekSection (js_sort compareWeeks ws).
Proof.
  induction ws as [| a ws IH]; cbn; [reflexivity |].
  unfold js_sort in IH. rewrite IH. apply sort_insert_weeks.
Qed.

Lemma sort_insert_header b l :
  sort_insert compareSections (HeaderBlock b) l = HeaderBlock b :: l.
Proof. destruct l as [| [|] l]; reflexivity. Qed.

Lemma js_sort_headers hs l :
  js_sort compareSections (map HeaderBlock hs ++ l)
  = map HeaderBlock hs ++ js_sort compareSections l.
Proof.
  induction hs as [| b hs IH]; [reflexivity |].
  change (js_sort compareSections (map HeaderBlock (b :: hs) ++ l))
    with (sort_insert compareSections (HeaderBlock b)
            (js_sort compareSections (map HeaderBlock hs ++ l))).
  rewrite sort_insert_header, IH. reflexivity.
Qed.

Lemma weeks_of_app a b : weeks_of (a ++ b) = weeks_of a ++ weeks_of b.
Proof. unfold weeks_of. apply flat_map_app. Qed.

Lemma weeks_of_headers hs : weeks_of (map HeaderBlock hs) = [].
Proof. induction hs; cbn; auto. Qed.

Lemma weeks_of_weeks ws : weeks_of (map WeekSection ws) = ws.
Proof. induction ws as [| w ws IH]; cbn; [reflexivity |]. now f_equal. Qed.

Lemma descending_map {A} (key : A -> Z) l :
  descending key l -> descending_Z (map key l).
Proof.
  unfold descending, descending_Z. induction 1 as [| a l Hs IH Hhd]; cbn.
  - constructor.
  - constructor; [exact IH |]. destruct Hhd; cbn; constructor; assumption.
Qed.

Lemma alter_first_week_numbers n F secs :
  map Worklog.weekNumber (weeks_of (alter_first (has_number n) (set_days F) secs))
  = map Worklog.weekNumber (weeks_of secs).
Proof.
  induction secs as [| s secs IH]; cbn; [reflexivity |].
  destruct (has_number n s).
  - destruct s; reflexivity.
  - cbn. fold (weeks_of secs).
    fold (weeks_of (alter_first (has_number n) (set_days F) secs)).
    rewrite !map_app, IH. reflexivity.
Qed.

Lemma alter_first_day_keys h p F ds :
  map (day_key h) (alter_first p (set_tasks F) ds) = map (day_key h) ds.
Proof.
  induction ds as [| d ds IH]; cbn; [reflexivity |].
  destruct (p d); cbn; [reflexivity | now rewrite IH].
Qed.

Lemma alter_first_headers n F secs :
  List.filter is_header (alter_first (has_number n) (set_days F) secs)
  = List.filter is_header secs.
Proof.
  induction secs as [| s secs IH]; cbn; [reflexivity |].
  destruct (has_number n s) eqn:E.
  - destruct s; [discriminate | reflexivity].
  - cbn. now rewrite IH.
Qed.

Lemma sort_insert_headers_filter x l :
  List.filter is_header (sort_insert compareSections x l)
  = List.filter is_header (x :: l).
Proof.
  induction l as [| y l IH]; [reflexivity |].
  cbn [sort_insert].
  destruct (0 <? cmp_value (compareSections x y)) eqn:E; [| reflexivity].
  destruct x as [bx | wx]; [discriminate |].
  destruct y as [by_ | wy]; [discriminate |].
  cbn [List.filter is_header] in *. exact IH.
Qed.

Lemma js_sort_headers_filter l :
  List.filter is_header (js_sort compareSections l) = List.filter is_header l.
Proof.
  induction l as [| x l IH]; [reflexivity |].
  change (js_sort compareSections (x :: l))
    with (sort_insert compareSections x (js_sort compareSections l)).
  rewrite sort_insert_headers_filter. cbn. now rewrite IH.
Qed.

Lemma render_weeks_of secs :
  flat_map (fun s => match s with WeekSection w => render_week w | _ => [] end)
    (List.filter is_week secs)
  = flat_map render_week (weeks_of secs).
Proof.
  induction secs as [| [b | w] secs IH]; cbn; [reflexivity | exact IH |].
  fold (weeks_of secs). now rewrite IH.
Qed.

Lemma compareDays_key h x y :
  is_some (day_time h x) = true -> is_some (day_time h y) = true ->
  cmp_value (compareDays h x y) = day_key h y - day_key h x.
Proof.
  unfold compareDays, compareDates, day_key, day_time.
  destruct (Date_parse h (slashes_to_dashes (date x))); [| discriminate].
  destruct (Date_parse h (slashes_to_dashes (date y))); [| discriminate].
  reflexivity.
Qed.



End SortOrders.

(* ================================================================= *)
(** ** Reading a rendered document again *)

Module Reread.
Import Worklog LogWork Spec StringFacts ParserFacts RoundTrip.

Lemma run_app a : forall st b,
  run st (a ++ b) = (st' ← run st a; run st' b).
Proof.
  induction a as [| l a IH]; intros st b; cbn [run app]; [reflexivity |].
  destruct (step st l) as [st1 |]; cbn [mbind Result_bind]; [apply IH | reflexivity].
Qed.

Lemma plain2_plain0 l : plain2 l -> plain0 l.
Proof. now intros [H _]. Qed.

Lemma plain2_blank : plain2 "".
Proof. repeat split. Qed.

(** Lines that are no headers join the buffer. *)
Lemma step_plain_at_start secs b l :
  plain0 l -> step (at_start secs b) l = Ok (at_start secs (b ++ [l])).
Proof. intros (Hw & Hd & _). unfold step. now rewrite Hw, Hd. Qed.

Lemma step_plain_at_week secs w b l :
  plain0 l -> step (at_week secs w b) l = Ok (at_week secs w (b ++ [l])).
Proof. intros (Hw & Hd & _). unfold step. now rewrite Hw, Hd. Qed.

Lemma step_plain_at_day secs w d b l :
  plain2 l -> step (at_day secs w d b) l = Ok (at_day secs w d (b ++ [l])).
Proof. intros ((Hw & Hd & _) & Ht). unfold step. now rewrite Hw, Hd, Ht. Qed.

Lemma step_plain_at_task secs w d t b l :
  plain2 l -> step (at_task secs w d t b) l = Ok (at_task secs w d t (b ++ [l])).
Proof. intros ((Hw & Hd & _) & Ht). unfold step. now rewrite Hw, Hd, Ht. Qed.

Ltac run_plain_tac step_lemma IH :=
  match goal with
  | H : Forall _ (_ :: _) |- _ =>
      apply Forall_cons_iff in H as [Hl H];
      cbn [run]; rewrite step_lemma by exact Hl; cbn [mbind Result_bind];
      rewrite IH by exact H; now rewrite <- app_assoc
  end.

Lemma run_plain_at_start secs ls : forall b,
  Forall plain0 ls -> run (at_start secs b) ls = Ok (at_start secs (b ++ ls)).
Proof.
  induction ls as [| l ls IH]; intros b H.
  - cbn [run]. now rewrite app_nil_r.
  - run_plain_tac step_plain_at_start IH.
Qed.

Lemma run_plain_at_week secs w ls : forall b,
  Forall plain0 ls -> run (at_week secs w b) ls = Ok (at_week secs w (b ++ ls)).
Proof.
  induction ls as [| l ls IH]; intros b H.
  - cbn [run]. now rewrite app_nil_r.
  - run_plain_tac step_plain_at_week IH.
Qed.

Lemma run_plain_at_day secs w d ls : forall b,
  Forall plain2 ls -> run (at_day secs w d b) ls = Ok (at_day secs w d (b ++ ls)).
Proof.
  induction ls as [| l ls IH]; intros b H.
  - cbn [run]. now rewrite app_nil_r.
  - run_plain_tac step_plain_at_day IH.
Qed.

Lemma run_plain_at_task secs w d t ls : forall b,
  Forall plain2 ls ->
  run (at_task secs w d t b) ls = Ok (at_task secs w d t (b ++ ls)).
Proof.
  induction ls as [| l ls IH]; intros b H.
  - cbn [run]. now rewrite app_nil_r.
  - run_plain_tac step_plain_at_task IH.
Qed.

(** The steps at a header, by what is open. *)
Lemma step_week_at_start secs b l :
  week_header_re l = true -> b <> [] ->
  step (at_start secs b) l
  = Ok (at_week (secs ++ [HeaderBlock b])
          {| week_header := l; weekNumber := digits_val 0 (first_digits l);
             week_content := []; days := [] |} []).
Proof. intros Hw Hb. unfold step. rewrite Hw. destruct b; [easy | reflexivity]. Qed.

Lemma step_week_at_week secs w b l :
  week_header_re l = true -> b <> [] ->
  step (at_week secs w b) l
  = Ok (at_week (secs ++ [WeekSection (add_week_content w b)])
          {| week_header := l; weekNumber := digits_val 0 (first_digits l);
             week_content := []; days := [] |} []).
Proof. intros Hw Hb. unfold step. rewrite Hw. destruct b; [easy | reflexivity]. Qed.

Lemma step_week_at_day secs w d b l :
  week_header_re l = true -> b <> [] ->
  step (at_day secs w d b) l
  = Ok (at_week (secs ++ [WeekSection w])
          {| week_header := l; weekNumber := digits_val 0 (first_digits l);
             week_content := []; days := [] |} []).
Proof. intros Hw Hb. unfold step. rewrite Hw. destruct b; [easy | reflexivity]. Qed.

Lemma step_week_at_task secs w d t b l :
  week_header_re l = true -> b <> [] ->
  step (at_task secs w d t b) l
  = Ok (at_week (secs ++ [WeekSection w])
          {| week_header := l; weekNumber := digits_val 0 (first_digits l);
             week_content := []; days := [] |} []).
Proof. intros Hw Hb. unfold step. rewrite Hw. destruct b; [easy | reflexivity]. Qed.

Lemma step_day_at_week secs w b l :
  day_header_re l = true -> b <> [] ->
  step (at_week secs w b) l
  = Ok (at_day secs (add_week_content w b)
          {| day_header := l; date := replace_first "### " "" l;
             day_content := []; tasks := [] |} []).
Proof.
  intros Hd Hb. unfold step.
  destruct (week_header_re l) eqn:Hw.
  { apply week_header_not_day in Hw. congruence. }
  rewrite Hd. destruct b; [easy | reflexivity].
Qed.

Lemma step_day_at_day secs w d b l :
  day_header_re l = true -> b <> [] ->
  step (at_day secs w d b) l
  = Ok (at_day secs (push_day w (add_day_content d b))
          {| day_header := l; date := replace_first "### " "" l;
             day_content := []; tasks := [] |} []).
Proof.
  intros Hd Hb. unfold step.
  destruct (week_header_re l) eqn:Hw.
  { apply week_header_not_day in Hw. congruence. }
  rewrite Hd. destruct b; [easy | reflexivity].
Qed.

Lemma step_day_at_task secs w d t b l :
  day_header_re l = true -> b <> [] ->
  step (at_task secs w d t b) l
  = Ok (at_day secs (push_day w d)
          {| day_header := l; date := replace_first "### " "" l;
             day_content := []; tasks := [] |} []).
Proof.
  intros Hd Hb. unfold step.
  destruct (week_header_re l) eqn:Hw.
  { apply week_header_not_day in Hw. congruence. }
  rewrite Hd. destruct b; [easy | reflexivity].
Qed.

Lemma task_groups_task_line l g :
  task_groups_re l = Some g -> task_line_re l = true.
Proof.
  unfold task_groups_re, task_line_re.
  destruct (tracking_id_prefix l) as [[id r] |]; [| discriminate].
  cbn [mbind option_bind].
  destruct (then_char ":" r); [reflexivity | discriminate].
Qed.

Lemma step_task_at_day secs w d b l id text :
  task_groups_re l = Some (id, text) -> b <> [] ->
  step (at_day secs w d b) l
  = Ok (at_task secs w (add_day_content d b)
          {| trackingId := id; summary := text; task_content := [] |} []).
Proof.
  intros Hg Hb. unfold step.
  assert (Ht := task_groups_task_line l _ Hg).
  destruct (task_line_not_header l Ht) as [Hw Hd].
  rewrite Hw, Hd, Ht, Hg. destruct b; [easy | reflexivity].
Qed.

Lemma step_task_at_task secs w d t b l id text :
  task_groups_re l = Some (id, text) -> b <> [] ->
  step (at_task secs w d t b) l
  = Ok (at_task secs w (push_task d (add_task_content t b))
          {| trackingId := id; summary := text; task_content := [] |} []).
Proof.
  intros Hg Hb. unfold step.
  assert (Ht := task_groups_task_line l _ Hg).
  destruct (task_line_not_header l Ht) as [Hw Hd].
  rewrite Hw, Hd, Ht, Hg. destruct b; [easy | reflexivity].
Qed.

(** The block of a task. *)
Lemma run_task_at_day secs w d b t :
  good_task t ->
  run (at_day secs w d b) (render_task t)
  = Ok (at_task secs w (add_day_content d (b ++ [""])) (clear_task t)
          (task_content t)).
Proof.
  intros [Hg Hc]. unfold render_task. cbn [run].
  rewrite step_plain_at_day by exact plain2_blank. cbn [mbind Result_bind].
  rewrite (step_task_at_day _ _ _ _ _ _ _ Hg) by (now destruct b).
  cbn [mbind Result_bind]. now rewrite run_plain_at_task.
Qed.

Lemma run_task_at_task secs w d t0 b t :
  good_task t ->
  run (at_task secs w d t0 b) (render_task t)
  = Ok (at_task secs w (push_task d (add_task_content t0 (b ++ [""])))
          (clear_task t) (task_content t)).
Proof.
  intros [Hg Hc]. unfold render_task. cbn [run].
  rewrite step_plain_at_task by exact plain2_blank. cbn [mbind Result_bind].
  rewrite (step_task_at_task _ _ _ _ _ _ _ _ Hg) by (now destruct b).
  cbn [mbind Result_bind]. now rewrite run_plain_at_task.
Qed.

Lemma last_cons_nonempty {A} (x y : A) l d d' :
  List.last (x :: y :: l) d = List.last (y :: l) d'.
Proof.
  revert y. induction l as [| z l IH]; intros y; [reflexivity |].
  change (List.last (x :: y :: z :: l) d) with (List.last (y :: z :: l) d).
  change (List.last (y :: z :: l) d) with (List.last (z :: l) d).
  change (List.last (y :: z :: l) d') with (List.last (z :: l) d').
  destruct l; [reflexivity |]. apply (IH z).
Qed.

(** The blocks of the tasks of a day, after a first task. *)
Lemma run_tasks_at_task ts : forall secs w d t0 b t1,
  Forall good_task ts ->
  run (at_task secs w d t0 b) (flat_map render_task ts)
  = Ok (match ts with
        | [] => at_task secs w d t0 b
        | _ :: _ =>
            at_task secs w
              (push_tasks d (add_task_content t0 (b ++ [""])
                             :: map blank_task (removelast ts)))
              (clear_task (List.last ts t1))
              (task_content (List.last ts t1))
        end).
Proof.
  induction ts as [| t ts IH]; intros secs w d t0 b t1 H; [reflexivity |].
  apply Forall_cons_iff in H as [Ht H].
  cbn [flat_map]. rewrite run_app, run_task_at_task by exact Ht.
  cbn [mbind Result_bind]. rewrite (IH _ _ _ _ _ t) by exact H.
  destruct ts as [| t' ts]; [reflexivity |].
  f_equal. rewrite (last_cons_nonempty t t' ts t1 t).
  unfold push_tasks, push_task. cbn [tasks day_header date day_content].
  rewrite <- app_assoc. reflexivity.
Qed.

Lemma reread_day_not_last d :
  reread_day false d
  = {| day_header := day_header d; date := date d;
       day_content := day_content d ++ [""];
       tasks := map blank_task (removelast (tasks d)) |}.
Proof. reflexivity. Qed.

(** The lines of a day after its header. *)
Lemma run_day_body secs w d :
  good_day d ->
  run (at_day secs w (clear_day d) [])
    (day_content d ++ flat_map render_task (tasks d))
  = Ok (day_end secs w d).
Proof.
  intros (_ & _ & _ & Hc & Hts). rewrite run_app, run_plain_at_day by exact Hc.
  cbn [mbind Result_bind app]. unfold day_end.
  destruct (tasks d) as [| t ts] eqn:E; [reflexivity |].
  apply Forall_cons_iff in Hts as [Ht Hts].
  cbn [flat_map]. rewrite run_app, run_task_at_day by exact Ht.
  cbn [mbind Result_bind]. rewrite (run_tasks_at_task ts _ _ _ _ _ t) by exact Hts.
  unfold reread_day. rewrite E.
  destruct ts as [| t' ts]; [reflexivity |].
  rewrite (last_cons_nonempty t t' ts t t). reflexivity.
Qed.

Lemma good_day_new d :
  good_day d ->
  {| day_header := day_header d; date := replace_first "### " "" (day_header d);
     day_content := []; tasks := [] |} = clear_day d.
Proof. intros (_ & _ & Hdate & _). unfold clear_day. now rewrite Hdate. Qed.

(** The block of a day, after the week's lines and after another day. *)
Lemma run_day_at_week secs w b d :
  good_day d ->
  run (at_week secs w b) (render_day d)
  = Ok (day_end secs (add_week_content w (b ++ [""])) d).
Proof.
  intros Hd. assert (Hg := Hd). destruct Hg as (Hre & _).
  unfold render_day. cbn [run].
  rewrite step_plain_at_week by exact (plain2_plain0 _ plain2_blank).
  cbn [mbind Result_bind].
  rewrite step_day_at_week by (auto; now destruct b).
  cbn [mbind Result_bind]. rewrite (good_day_new d Hd).
  now apply run_day_body.
Qed.

Lemma run_day_at_day_end secs w d0 d :
  good_day d ->
  run (day_end secs w d0) (render_day d)
  = Ok (day_end secs (push_day w (reread_day false d0)) d).
Proof.
  intros Hd. assert (Hg := Hd). destruct Hg as (Hre & _).
  unfold render_day. cbn [run]. unfold day_end at 1.
  destruct (tasks d0) as [| t ts] eqn:E.
  - rewrite step_plain_at_day by exact plain2_blank. cbn [mbind Result_bind].
    rewrite step_day_at_day by (auto; now destruct (day_content d0)).
    cbn [mbind Result_bind]. rewrite (good_day_new d Hd).
    unfold reread_day. rewrite E. now apply run_day_body.
  - rewrite step_plain_at_task by exact plain2_blank. cbn [mbind Result_bind].
    rewrite step_day_at_task
      by (auto; now destruct (task_content (List.last (t :: ts) t))).
    cbn [mbind Result_bind]. rewrite (good_day_new d Hd).
    now apply run_day_body.
Qed.

(** The blocks of the days of a week, after a first day. *)
Lemma run_days_at_day_end ds : forall secs w d0 d1,
  Forall good_day ds ->
  run (day_end secs w d0) (flat_map render_day ds)
  = Ok (match ds with
        | [] => day_end secs w d0
        | _ :: _ =>
            day_end secs
              (push_days w (reread_day false d0
                            :: map (reread_day false) (removelast ds)))
              (List.last ds d1)
        end).
Proof.
  induction ds as [| d ds IH]; intros secs w d0 d1 H; [reflexivity |].
  apply Forall_cons_iff in H as [Hd H].
  cbn [flat_map]. rewrite run_app, run_day_at_day_end by exact Hd.
  cbn [mbind Result_bind]. rewrite (IH _ _ _ d) by exact H.
  destruct ds as [| d' ds]; [reflexivity |].
  f_equal. rewrite (last_cons_nonempty d d' ds d1 d).
  unfold push_days, push_day. cbn [days week_header Worklog.weekNumber week_content].
  rewrite <- app_assoc. reflexivity.
Qed.

Lemma reread_days_not_last ds :
  reread_days false ds = map (reread_day false) (removelast ds).
Proof.
  induction ds as [| d ds IH]; [reflexivity |].
  destruct ds as [| d' ds]; [reflexivity |].
  change (reread_days false (d :: d' :: ds))
    with (reread_day false d :: reread_days false (d' :: ds)).
  now rewrite IH.
Qed.

Lemma reread_days_last ds d0 :
  ds <> [] ->
  reread_days true ds
  = map (reread_day false) (removelast ds) ++ [reread_day true (List.last ds d0)].
Proof.
  induction ds as [| d ds IH]; [congruence |]. intros _.
  destruct ds as [| d' ds]; [reflexivity |].
  change (reread_days true (d :: d' :: ds))
    with (reread_day false d :: reread_days true (d' :: ds)).
  rewrite IH by congruence.
  rewrite (last_cons_nonempty d d' ds d0 d0). reflexivity.
Qed.

(** The lines of a week after its header. *)
Lemma run_week_body secs w :
  good_week w ->
  run (at_week secs (clear_week w) [])
    (week_content w ++ flat_map render_day (days w))
  = Ok (week_end secs w).
Proof.
  intros (_ & _ & _ & Hc & Hds). rewrite run_app, run_plain_at_week by exact Hc.
  cbn [mbind Result_bind app]. unfold week_end.
  destruct (days w) as [| d ds] eqn:E; [reflexivity |].
  apply Forall_cons_iff in Hds as [Hd Hds].
  cbn [flat_map]. rewrite run_app, run_day_at_week by exact Hd.
  cbn [mbind Result_bind]. rewrite (run_days_at_day_end ds _ _ _ d) by exact Hds.
  destruct ds as [| d' ds]; [reflexivity |].
  rewrite (last_cons_nonempty d d' ds d d). reflexivity.
Qed.

Lemma good_week_new w :
  good_week w ->
  {| week_header := week_header w;
     weekNumber := digits_val 0 (first_digits (week_header w));
     week_content := []; days := [] |} = clear_week w.
Proof. intros (_ & _ & Hn & _). unfold clear_week. now rewrite Hn. Qed.

(** The next week header closes the week; of its last day nothing is
    kept. *)
Lemma step_week_at_day_end secs w d l :
  week_header_re l = true ->
  run (day_end secs w d) [""; l]
  = Ok (at_week (secs ++ [WeekSection w])
          {| week_header := l; weekNumber := digits_val 0 (first_digits l);
             week_content := []; days := [] |} []).
Proof.
  intros Hl. unfold day_end. cbn [run].
  destruct (tasks d) as [| t ts].
  - rewrite step_plain_at_day by exact plain2_blank. cbn [mbind Result_bind].
    rewrite step_week_at_day by (auto; now destruct (day_content d)).
    reflexivity.
  - rewrite step_plain_at_task by exact plain2_blank. cbn [mbind Result_bind].
    rewrite step_week_at_task
      by (auto; now destruct (task_content (List.last (t :: ts) t))).
    reflexivity.
Qed.

Lemma step_week_at_week_end secs w l :
  week_header_re l = true ->
  run (week_end secs w) [""; l]
  = Ok (at_week (secs ++ [WeekSection (reread_week false w)])
          {| week_header := l; weekNumber := digits_val 0 (first_digits l);
             week_content := []; days := [] |} []).
Proof.
  intros Hl. unfold week_end, reread_week.
  destruct (days w) as [| d ds] eqn:E.
  - cbn [run]. rewrite step_plain_at_week by exact (plain2_plain0 _ plain2_blank).
    cbn [mbind Result_bind].
    rewrite step_week_at_week by (auto; now destruct (week_content w)).
    reflexivity.
  - rewrite step_week_at_day_end by exact Hl.
    now rewrite reread_days_not_last.
Qed.

(** The block of a week, after the header lines and after another week. *)
Lemma run_week_at_start b w :
  good_week w ->
  run (at_start [] b) (render_week w)
  = Ok (week_end [HeaderBlock (b ++ [""])] w).
Proof.
  intros Hw. assert (Hg := Hw). destruct Hg as (Hre & _).
  unfold render_week. cbn [run].
  rewrite step_plain_at_start by exact (plain2_plain0 _ plain2_blank).
  cbn [mbind Result_bind].
  rewrite step_week_at_start by (auto; now destruct b).
  cbn [mbind Result_bind app]. rewrite (good_week_new w Hw).
  now apply run_week_body.
Qed.

Lemma run_week_at_week_end secs w0 w :
  good_week w ->
  run (week_end secs w0) (render_week w)
  = Ok (week_end (secs ++ [WeekSection (reread_week false w0)]) w).
Proof.
  intros Hw. assert (Hg := Hw). destruct Hg as (Hre & _).
  unfold render_week.
  change ("" :: week_header w :: week_content w ++ flat_map render_day (days w))
    with ([""; week_header w] ++ week_content w ++ flat_map render_day (days w)).
  rewrite run_app, step_week_at_week_end by exact Hre.
  cbn [mbind Result_bind]. rewrite (good_week_new w Hw).
  now apply run_week_body.
Qed.

Lemma run_weeks_at_week_end ws : forall secs w0 w1,
  Forall good_week ws ->
  run (week_end secs w0) (flat_map render_week ws)
  = Ok (match ws with
        | [] => week_end secs w0
        | _ :: _ =>
            week_end
              (secs ++ WeekSection (reread_week false w0)
                       :: map WeekSection
                            (map (reread_week false) (removelast ws)))
              (List.last ws w1)
        end).
Proof.
  induction ws as [| w ws IH]; intros secs w0 w1 H; [reflexivity |].
  apply Forall_cons_iff in H as [Hw H].
  cbn [flat_map]. rewrite run_app, run_week_at_week_end by exact Hw.
  cbn [mbind Result_bind]. rewrite (IH _ _ w) by exact H.
  destruct ws as [| w' ws]; [reflexivity |].
  f_equal. rewrite (last_cons_nonempty w w' ws w1 w).
  rewrite <- app_assoc. reflexivity.
Qed.

Lemma map_removelast_last {A B} (f : A -> B) (l : list A) (d : A) :
  l <> [] -> map f (removelast l) ++ [f (List.last l d)] = map f l.
Proof.
  intros Hl. rewrite (app_removelast_last d Hl) at 3.
  now rewrite map_app.
Qed.

(** The end of the input, after the line that follows the last line
    feed. *)
Lemma finish_day_end secs w d :
  (st ← run (day_end secs w d) [""]; finish st)
  = Ok (secs ++ [WeekSection (push_day w (reread_day true d))]).
Proof.
  unfold day_end, reread_day. cbn [run].
  destruct (tasks d) as [| t ts] eqn:E.
  - rewrite step_plain_at_day by exact plain2_blank. cbn [mbind Result_bind].
    unfold finish, flushBuffer. cbn.
    destruct (day_content d ++ [""]) eqn:B; [now destruct (day_content d) |].
    reflexivity.
  - rewrite step_plain_at_task by exact plain2_blank. cbn [mbind Result_bind].
    unfold finish, flushBuffer. cbn [at_task buffer currentTask].
    destruct (task_content (List.last (t :: ts) t) ++ [""]) eqn:B;
      [now destruct (task_content (List.last (t :: ts) t)) |].
    rewrite <- B. cbn.
    change (match ts with [] => [] | _ :: _ => t :: removelast ts end)
      with (removelast (t :: ts)).
    change (match ts with [] => t | _ :: _ => List.last ts t end)
      with (List.last (t :: ts) t).
    unfold push_task. cbn [tasks day_header date day_content].
    repeat f_equal.
    change (blank_task t :: map blank_task ts) with (map blank_task (t :: ts)).
    transitivity (map blank_task (removelast (t :: ts))
                  ++ [blank_task (List.last (t :: ts) t)]); [reflexivity |].
    apply map_removelast_last. discriminate.
Qed.

Lemma finish_week_end secs w :
  (st ← run (week_end secs w) [""]; finish st)
  = Ok (secs ++ [WeekSection (reread_week true w)]).
Proof.
  unfold week_end, reread_week.
  destruct (days w) as [| d ds] eqn:E.
  - cbn [run]. rewrite step_plain_at_week by exact (plain2_plain0 _ plain2_blank).
    cbn [mbind Result_bind]. unfold finish, flushBuffer. cbn.
    destruct (week_content w ++ [""]) eqn:B; [now destruct (week_content w) |].
    reflexivity.
  - rewrite finish_day_end.
    rewrite (reread_days_last (d :: ds) d) by discriminate. reflexivity.
Qed.

Lemma reread_weeks_last ws w0 :
  ws <> [] ->
  reread_weeks ws
  = map (reread_week false) (removelast ws)
    ++ [reread_week true (List.last ws w0)].
Proof.
  induction ws as [| w ws IH]; [congruence |]. intros _.
  destruct ws as [| w' ws]; [reflexivity |].
  change (reread_weeks (w :: w' :: ws))
    with (reread_week false w :: reread_weeks (w' :: ws)).
  rewrite IH by congruence.
  rewrite (last_cons_nonempty w w' ws w0 w0). reflexivity.
Qed.

Lemma render_lines_shape hs ws :
  render_lines (map HeaderBlock hs ++ map WeekSection ws)
  = concat hs ++ flat_map render_week ws.
Proof.
  unfold render_lines. rewrite !List.filter_app, !flat_map_app. f_equal.
  - assert (H1 : List.filter is_header (map HeaderBlock hs) = map HeaderBlock hs)
      by (induction hs; cbn; congruence).
    assert (H2 : List.filter is_header (map WeekSection ws) = [])
      by (induction ws; cbn; congruence).
    rewrite H1, H2, app_nil_r. clear. induction hs; cbn; congruence.
  - assert (H1 : List.filter is_week (map HeaderBlock hs) = [])
      by (induction hs; cbn; congruence).
    assert (H2 : List.filter is_week (map WeekSection ws) = map WeekSection ws)
      by (induction ws; cbn; congruence).
    rewrite H1, H2. cbn [app flat_map]. clear. induction ws; cbn; congruence.
Qed.

(** What the parser makes of the lines of a rendered document. *)
Theorem parse_rendered hs ws :
  ws <> [] -> Forall (Forall plain0) hs -> Forall good_week ws ->
  parse_lines (render_lines (map HeaderBlock hs ++ map WeekSection ws) ++ [""])
  = Ok (reread hs ws).
Proof.
  intros Hne Hhs Hws. rewrite render_lines_shape. unfold parse_lines, reread.
  destruct ws as [| w ws]; [congruence |].
  apply Forall_cons_iff in Hws as [Hw Hws].
  change init with (at_start [] []).
  rewrite <- app_assoc, run_app, run_plain_at_start
    by (clear - Hhs; induction Hhs; cbn; [constructor | now apply Forall_app]).
  cbn [mbind Result_bind app flat_map].
  rewrite <- app_assoc, run_app, run_week_at_start by exact Hw.
  cbn [mbind Result_bind].
  rewrite run_app, (run_weeks_at_week_end ws _ _ w) by exact Hws.
  cbn [mbind Result_bind].
  destruct ws as [| w' ws].
  - rewrite finish_week_end. reflexivity.
  - rewrite finish_week_end.
    rewrite (reread_weeks_last (w :: w' :: ws) w) by congruence.
    rewrite (last_cons_nonempty w w' ws w w).
    cbn [removelast map app]. rewrite map_app. reflexivity.
Qed.

End Reread.

(* ================================================================= *)
(** ** The documents the parser makes *)

Module GoodSections.
Import Worklog LogWork Spec StringFacts ParserFacts RoundTrip Reread.

Lemma span_forall f s : forall a b, span f s = (a, b) -> str_forall f a = true.
Proof.
  induction s as [| c s IH]; cbn [span]; intros a b.
  - now intros [= <- <-].
  - destruct (f c) eqn:E.
    + destruct (span f s) as [a' b']. intros [= <- <-]. cbn [str_forall].
      rewrite E. now apply (IH a' b').
    + now intros [= <- <-].
Qed.

Lemma upper_not_LF c : is_upper c = true -> not_LF c = true.
Proof.
  unfold not_LF. destruct (Ascii.eqb_spec c LF) as [-> |]; [discriminate | easy].
Qed.

Lemma dot_not_LF c : is_dot c = true -> not_LF c = true.
Proof. unfold is_dot, not_LF. intros H. now apply andb_prop in H as [H _]. Qed.

Lemma no_LF_app a b : no_LF a -> no_LF b -> no_LF (a +:+ b).
Proof. unfold no_LF. intros Ha Hb. now rewrite str_forall_app, Ha, Hb. Qed.

Lemma no_LF_cons c s : not_LF c = true -> no_LF s -> no_LF (String c s).
Proof. unfold no_LF. intros Hc Hs. cbn [str_forall]. now rewrite Hc, Hs. Qed.

Lemma good_task_add t b :
  good_task t -> Forall plain2 b -> good_task (add_task_content t b).
Proof. intros [Hg Hc] Hb. split; [exact Hg | apply Forall_app; auto]. Qed.

Lemma good_day_add d b :
  good_day d -> Forall plain2 b -> good_day (add_day_content d b).
Proof.
  intros (H1 & H2 & H3 & H4 & H5) Hb.
  repeat split; auto. apply Forall_app; auto.
Qed.

Lemma good_week_add w b :
  good_week w -> Forall plain0 b -> good_week (add_week_content w b).
Proof.
  intros (H1 & H2 & H3 & H4 & H5) Hb.
  repeat split; auto. apply Forall_app; auto.
Qed.

Lemma good_day_push d t : good_day d -> good_task t -> good_day (push_task d t).
Proof.
  intros (H1 & H2 & H3 & H4 & H5) Ht.
  repeat split; auto. apply Forall_app. split; [exact H5 | now constructor].
Qed.

Lemma good_week_push w d : good_week w -> good_day d -> good_week (push_day w d).
Proof.
  intros (H1 & H2 & H3 & H4 & H5) Hd.
  repeat split; auto. apply Forall_app. split; [exact H5 | now constructor].
Qed.

Ltac split_state :=
  unfold good_state;
  cbn [sections currentWeek currentDay currentTask buffer is_some];
  split; [| split; [| split; [| split; [| split; [| split]]]]].

Lemma flushBuffer_good st : good_state st -> good_state (flushBuffer st).
Proof.
  intros (Hs & Hw & Hd & Ht & Hdt & Hb0 & Hb2). unfold flushBuffer.
  destruct (buffer st) as [| b0 b] eqn:B.
  { unfold good_state. rewrite B. auto 10. }
  destruct (currentTask st) as [t |] eqn:Et.
  { assert (Hday : is_some (currentDay st) = true).
    { destruct (currentDay st); [reflexivity |].
      specialize (Hdt eq_refl). congruence. }
    split_state; auto.
    - intros t' [= <-]. apply good_task_add; auto.
    - intros E. rewrite E in Hday. discriminate. }
  destruct (currentDay st) as [d |] eqn:Ed.
  { split_state; auto; try discriminate.
    intros d' [= <-]. apply good_day_add; auto. }
  destruct (currentWeek st) as [w |] eqn:Ew.
  { split_state; auto; try discriminate.
    - destruct Hs as (hs & ws & E & H1 & H2 & _).
      exists hs, ws. repeat split; auto. discriminate.
    - intros w' [= <-]. apply good_week_add; auto. }
  split_state; auto; try discriminate.
  destruct Hs as (hs & ws & E & H1 & H2 & H3).
  exists (hs ++ [b0 :: b]), []. rewrite E, (H3 eq_refl), map_app. cbn.
  rewrite !app_nil_r. repeat split; auto.
  apply Forall_app. split; [exact H1 | now constructor].
Qed.

Lemma flushBuffer_empty st : buffer (flushBuffer st) = [].
Proof. now destruct (flushBuffer_open st) as (_ & _ & _ & H). Qed.

Lemma task_groups_no_LF l g : task_groups_re l = Some g -> no_LF l.
Proof.
  unfold task_groups_re.
  destruct (tracking_id_prefix l) as [[id r] |] eqn:E; [| discriminate].
  cbn [mbind option_bind].
  destruct (then_char ":" r) as [r1 |] eqn:E1; [| discriminate].
  cbn [mbind option_bind].
  destruct (then_char " " r1) as [r2 |] eqn:E2; [| discriminate].
  cbn [mbind option_bind].
  destruct (negb (str_empty r2) && str_forall is_dot r2) eqn:C; [| discriminate].
  intros _. apply andb_prop in C as [_ Hdot].
  apply then_char_Some in E2, E1. subst r1 r.
  revert E. unfold tracking_id_prefix.
  destruct (strip_prefix "- " l) as [r0 |] eqn:E0; [| discriminate].
  apply strip_prefix_Some in E0. subst l. cbn [mbind option_bind].
  unfold plus.
  destruct (span is_upper r0) as [letters r1] eqn:S1.
  destruct (str_empty letters); [discriminate |]. cbn [mbind option_bind].
  destruct (then_char "-" r1) as [r3 |] eqn:E3; [| discriminate].
  apply then_char_Some in E3. subst r1. cbn [mbind option_bind].
  destruct (span is_digit r3) as [digits r4] eqn:S2.
  destruct (str_empty digits); [discriminate |]. cbn [mbind option_bind].
  intros [= _ Hr4]. subst r4.
  assert (Hup := span_forall _ _ _ _ S1). assert (Hdg := span_forall _ _ _ _ S2).
  apply span_app in S1, S2. subst r0 r3.
  apply (str_forall_impl _ _ _ upper_not_LF) in Hup.
  apply (str_forall_impl _ _ _ digit_not_LF) in Hdg.
  apply (str_forall_impl _ _ _ dot_not_LF) in Hdot.
  apply no_LF_app; [reflexivity |].
  apply no_LF_app; [exact Hup |].
  apply no_LF_cons; [reflexivity |].
  apply no_LF_app; [exact Hdg |].
  apply no_LF_cons; [reflexivity |].
  apply no_LF_cons; [reflexivity | exact Hdot].
Qed.

Ltac shape hs ws :=
  exists hs, ws; split; [| split; [| split]];
  [ try reflexivity; try assumption | try assumption | try assumption
  | try (intros; discriminate); try assumption ].

Lemma Forall_snoc {A} (P : A -> Prop) l x :
  Forall P l -> P x -> Forall P (l ++ [x]).
Proof. intros Hl Hx. apply Forall_app. split; [exact Hl | now constructor]. Qed.

Lemma step_good st l st' :
  good_state st -> no_LF l -> step st l = Ok st' -> good_state st'.
Proof.
  intros Hst0 Hl. assert (Hst := flushBuffer_good st Hst0).
  assert (Hbuf := flushBuffer_empty st).
  assert (Hopen := flushBuffer_open st).
  unfold step. set (st1 := flushBuffer st) in *. clearbody st1.
  destruct Hst as (Hs & Hw & Hd & Ht & Hdt & _ & _).
  destruct Hs as (hs & ws & Es & Hhs & Hws & Hnone).
  destruct (week_header_re l) eqn:Rw.
  { intros [= <-]. rewrite Hbuf. split_state; auto; try discriminate.
    - unfold close_week. destruct (currentWeek st1) as [w |] eqn:Ew.
      + shape hs (ws ++ [w]).
        * now rewrite Es, map_app, app_assoc.
        * apply Forall_snoc; auto.
      + shape hs ws.
    - intros w [= <-]. repeat split; auto. }
  destruct (day_header_re l) eqn:Rd.
  { assert (Hnew : good_day
              {| day_header := l; date := replace_first "### " "" l;
                 day_content := []; tasks := [] |})
      by (repeat split; auto).
    destruct (currentDay st1) as [d |] eqn:Ed;
      destruct (currentWeek st1) as [w |] eqn:Ew;
      cbn [push_into mbind Result_bind]; try discriminate;
      intros [= <-]; rewrite Hbuf; split_state; auto; try discriminate;
      try (intros d' [= <-]; exact Hnew).
    all: try (shape hs ws).
    intros w' [= <-]. apply good_week_push; auto. }
  destruct (is_some (currentDay st) && task_line_re l) eqn:C.
  { apply andb_prop in C as [Cd Ct].
    destruct Hopen as (_ & Hod & _). rewrite <- Hod in Cd.
    destruct (currentDay st1) as [d |] eqn:Ed; [| discriminate].
    destruct (task_groups_re l) as [[id text] |] eqn:G.
    2:{ destruct (currentTask st1); cbn [push_into mbind Result_bind];
          discriminate. }
    assert (Hnew : good_task
              {| trackingId := id; summary := text; task_content := [] |}).
    { split; [| constructor]. unfold task_line. cbn [trackingId summary].
      now rewrite <- (task_groups_re_line l id text G). }
    destruct (currentTask st1) as [t |] eqn:Et;
      cbn [push_into mbind Result_bind]; intros [= <-]; rewrite Hbuf;
      split_state; auto; try discriminate;
      try (intros t' [= <-]; exact Hnew).
    all: try (shape hs ws).
    intros d' [= <-]. apply good_day_push; auto. }
  intros [= <-].
  destruct Hst0 as (Hs0 & Hw0 & Hd0 & Ht0 & Hdt0 & Hb0 & Hb2).
  split_state; auto.
  - apply Forall_snoc; [exact Hb0 |]. repeat split; auto.
  - intros Hday. apply Forall_snoc; [auto |].
    rewrite Hday in C. cbn [andb] in C. repeat split; auto.
Qed.

Lemma run_good lines : forall st st',
  good_state st -> Forall no_LF lines -> run st lines = Ok st' -> good_state st'.
Proof.
  induction lines as [| l r IH]; cbn [run]; intros st st' Hst Hl H.
  - now inversion H; subst.
  - apply Forall_cons_iff in Hl as [Hl Hr].
    destruct (step st l) as [st1 |] eqn:E; [| discriminate].
    cbn [mbind Result_bind] in H. eapply IH; [| exact Hr | exact H].
    eapply step_good; eauto.
Qed.

Lemma init_good : good_state init.
Proof.
  split_state; try discriminate; auto.
  exists [], []. repeat split; auto.
Qed.

Lemma finish_good st secs :
  good_state st -> finish st = Ok secs -> good_sections secs.
Proof.
  intros Hst. apply flushBuffer_good in Hst.
  unfold finish. set (st1 := flushBuffer st) in *. clearbody st1.
  destruct Hst as (Hs & Hw & Hd & Ht & Hdt & _ & _).
  destruct Hs as (hs & ws & Es & Hhs & Hws & Hnone).
  unfold good_sections.
  destruct (currentTask st1) as [t |] eqn:Et;
    destruct (currentDay st1) as [d |] eqn:Ed;
    destruct (currentWeek st1) as [w |] eqn:Ew;
    cbn [push_into mbind Result_bind]; try discriminate; intros [= <-].
  - exists hs, (ws ++ [push_day w (push_task d t)]).
    rewrite Es, map_app, app_assoc. split; [reflexivity |]. split; [exact Hhs |].
    apply Forall_snoc; [exact Hws |].
    apply good_week_push; auto. apply good_day_push; auto.
  - exists hs, (ws ++ [push_day w d]).
    rewrite Es, map_app, app_assoc. split; [reflexivity |]. split; [exact Hhs |].
    apply Forall_snoc; [exact Hws |]. apply good_week_push; auto.
  - exists hs, (ws ++ [w]).
    rewrite Es, map_app, app_assoc. split; [reflexivity |]. split; [exact Hhs |].
    apply Forall_snoc; auto.
  - exists hs, ws. auto.
Qed.

Lemma no_LF_split content : Forall no_LF (split_lines content).
Proof. exact (split_lines_no_LF content). Qed.

(** The sections of a parsed file are header blocks of lines that are
    no headers, then weeks as the parser makes them. *)
Lemma parseWorklog_good content secs :
  parseWorklog content = Ok secs -> good_sections secs.
Proof.
  unfold parseWorklog, parse_lines.
  destruct (run init (split_lines content)) as [st |] eqn:E; [| discriminate].
  cbn [mbind Result_bind]. apply finish_good.
  exact (run_good _ _ _ init_good (no_LF_split content) E).
Qed.

End GoodSections.

(* ================================================================= *)
(** ** The document after an entry is merged *)

Module MergeGood.
Import JSDate WeekInfo Worklog LogWork Spec ListFacts MergeFacts StringFacts
  ParserFacts RoundTrip Reread GoodSections SortOrders.

Lemma Forall_alter_first {A} (P : A -> Prop) p f (l : list A) :
  Forall P l -> (forall x, P x -> p x = true -> P (f x)) ->
  Forall P (alter_first p f l).
Proof.
  intros Hl Hf. induction Hl as [| x l Hx Hl IH]; cbn [alter_first].
  - constructor.
  - destruct (p x) eqn:E; constructor; auto.
Qed.

Lemma Forall_js_sort {A} (P : A -> Prop) cmp (l : list A) :
  Forall P l -> Forall P (js_sort cmp l).
Proof.
  intros H. rewrite List.Forall_forall in *. intros x Hx. apply H.
  eapply Permutation_in; [apply js_sort_perm | exact Hx].
Qed.

Lemma replace_first_prefix p rep r : replace_first p rep (p +:+ r) = rep +:+ r.
Proof.
  assert (H : forall s, replace_first p rep s
                        = match strip_prefix p s with
                          | Some rest => rep +:+ rest
                          | None => match s with
                                    | EmptyString => EmptyString
                                    | String c s' =>
                                        String c (replace_first p rep s')
                                    end
                          end)
    by (intros [| c s]; reflexivity).
  now rewrite H, strip_prefix_app.
Qed.

Lemma workLine_plain2 w : no_LF w -> plain2 (workLine w).
Proof.
  intros Hw. unfold workLine. repeat split.
  apply no_LF_app; [reflexivity | exact Hw].
Qed.

Lemma add_work_items_plain2 items : forall c,
  Forall no_LF items -> Forall plain2 c ->
  Forall plain2 (add_work_items c items).
Proof.
  induction items as [| w items IH]; intros c Hi Hc; [exact Hc |].
  apply Forall_cons_iff in Hi as [Hw Hi].
  cbn [add_work_items fold_left]. apply IH; [exact Hi |].
  unfold add_work_item. destruct (includes c (workLine w)); [exact Hc |].
  apply Forall_snoc; [exact Hc | now apply workLine_plain2].
Qed.

Lemma merge_tasks_good id text items ts :
  task_groups_re ("- " +:+ id +:+ ": " +:+ text) = Some (id, text) ->
  Forall no_LF items ->
  Forall good_task ts -> Forall good_task (merge_tasks id text items ts).
Proof.
  intros Hg Hi Hts. unfold merge_tasks.
  apply Forall_alter_first.
  - destruct (existsb (has_id id) ts).
    + apply Forall_alter_first; [exact Hts |].
      intros t [_ Hc] Hid. apply String.eqb_eq in Hid.
      split; [| exact Hc]. unfold task_line, set_summary.
      cbn [trackingId summary]. now rewrite Hid.
    + apply Forall_snoc; [exact Hts |]. split; [exact Hg | constructor].
  - intros t [Ht Hc] _. split; [exact Ht |].
    now apply add_work_items_plain2.
Qed.

Lemma merge_days_good h dh id text items ds :
  day_header_re ("### " +:+ dh) = true -> no_LF dh ->
  task_groups_re ("- " +:+ id +:+ ": " +:+ text) = Some (id, text) ->
  Forall no_LF items ->
  Forall good_day ds -> Forall good_day (merge_days h dh id text items ds).
Proof.
  intros Hd Hlf Hg Hi Hds. unfold merge_days.
  apply Forall_alter_first.
  - destruct (existsb (has_date dh) ds); [exact Hds |].
    apply Forall_js_sort, Forall_snoc; [exact Hds |].
    split; [exact Hd |]. split; [apply no_LF_app; [reflexivity | exact Hlf] |].
    split; [| split; constructor].
    cbn [date day_header]. now rewrite replace_first_prefix.
  - intros d (H1 & H2 & H3 & H4 & H5) _. repeat split; auto.
    now apply merge_tasks_good.
Qed.

Lemma alter_first_sections n F hs ws :
  alter_first (has_number n) (set_days F)
    (map HeaderBlock hs ++ map WeekSection ws)
  = map HeaderBlock hs
    ++ map WeekSection (alter_first (week_has_number n) (with_days F) ws).
Proof.
  induction hs as [| b hs IH]; cbn [map app alter_first has_number].
  - induction ws as [| w ws IH]; cbn [map alter_first has_number]; [reflexivity |].
    unfold week_has_number at 1.
    destruct (Worklog.weekNumber w =? n); cbn [map]; [reflexivity |].
    now rewrite IH.
  - now rewrite IH.
Qed.

Lemma existsb_sections n hs ws :
  existsb (has_number n) (map HeaderBlock hs ++ map WeekSection ws)
  = existsb (week_has_number n) ws.
Proof.
  rewrite existsb_app.
  assert (H1 : existsb (has_number n) (map HeaderBlock hs) = false)
    by (induction hs; cbn; auto).
  rewrite H1. cbn [orb]. induction ws as [| w ws IH]; cbn; [reflexivity |].
  now rewrite IH.
Qed.

(** [merge_sections] leaves the header blocks and merges into the weeks. *)
Lemma merge_sections_shape h info dh id text items hs ws :
  merge_sections h info dh id text items
    (map HeaderBlock hs ++ map WeekSection ws)
  = map HeaderBlock hs
    ++ map WeekSection (merged_weeks h info dh id text items ws).
Proof.
  unfold merge_sections, merged_weeks. rewrite existsb_sections.
  destruct (existsb (week_has_number (WeekInfo.weekNumber info)) ws).
  - apply alter_first_sections.
  - rewrite <- app_assoc.
    change (map WeekSection ws ++ [WeekSection ?w])
      with (map WeekSection ws ++ map WeekSection [w]).
    rewrite <- map_app, js_sort_headers, js_sort_weeks.
    apply alter_first_sections.
Qed.

Lemma alter_first_length {A} p f (l : list A) :
  length (alter_first p f l) = length l.
Proof.
  induction l as [| x l IH]; cbn [alter_first]; [reflexivity |].
  destruct (p x); cbn; congruence.
Qed.

Lemma merged_weeks_nonempty h info dh id text items ws :
  merged_weeks h info dh id text items ws <> [].
Proof.
  intros E. apply (f_equal (@length Week)) in E. revert E.
  unfold merged_weeks. rewrite alter_first_length.
  destruct (existsb _ ws) eqn:Ex.
  - destruct ws; [discriminate | cbn; lia].
  - rewrite (Permutation_length (js_sort_perm _ _)), length_app. cbn. lia.
Qed.

Lemma merged_weeks_good h info dh id text items ws :
  good_entry info dh id text items ->
  Forall good_week ws ->
  Forall good_week (merged_weeks h info dh id text items ws).
Proof.
  intros (E1 & E2 & E3 & E4 & E5 & E6 & E7) Hws. unfold merged_weeks.
  apply Forall_alter_first.
  - destruct (existsb _ ws); [exact Hws |].
    apply Forall_js_sort, Forall_snoc; [exact Hws |].
    split; [exact E1 |]. split; [exact E2 |]. split; [exact E3 |].
    split; [| constructor].
    repeat (constructor; [repeat split |]). constructor.
  - intros w (H1 & H2 & H3 & H4 & H5) _.
    split; [exact H1 |]. split; [exact H2 |]. split; [exact H3 |].
    split; [exact H4 |]. cbn [days with_days].
    now apply merge_days_good.
Qed.

Lemma render_task_no_LF t : good_task t -> Forall no_LF (render_task t).
Proof.
  intros [Hg Hc]. unfold render_task.
  constructor; [reflexivity |]. constructor.
  - exact (task_groups_no_LF _ _ Hg).
  - eapply Forall_impl; [exact Hc |]. now intros l ((_ & _ & H) & _).
Qed.

Lemma flat_map_Forall {A B} (P : B -> Prop) (f : A -> list B) (l : list A) :
  (forall x, In x l -> Forall P (f x)) -> Forall P (flat_map f l).
Proof.
  induction l as [| x l IH]; intros H; cbn [flat_map]; [constructor |].
  apply Forall_app. split; [apply H; now left |].
  apply IH. intros y Hy. apply H. now right.
Qed.

Lemma render_day_no_LF d : good_day d -> Forall no_LF (render_day d).
Proof.
  intros (_ & H2 & _ & H4 & H5). unfold render_day.
  constructor; [reflexivity |]. constructor; [exact H2 |].
  apply Forall_app. split.
  - eapply Forall_impl; [exact H4 |]. now intros l ((_ & _ & H) & _).
  - apply flat_map_Forall. intros t Ht. apply render_task_no_LF.
    rewrite List.Forall_forall in H5. now apply H5.
Qed.

Lemma render_week_no_LF w : good_week w -> Forall no_LF (render_week w).
Proof.
  intros (_ & H2 & _ & H4 & H5). unfold render_week.
  constructor; [reflexivity |]. constructor; [exact H2 |].
  apply Forall_app. split.
  - eapply Forall_impl; [exact H4 |]. now intros l (_ & _ & H).
  - apply flat_map_Forall. intros d Hd. apply render_day_no_LF.
    rewrite List.Forall_forall in H5. now apply H5.
Qed.

Lemma join_lines_snoc ls l :
  ls <> [] -> join_lines (ls ++ [l]) = join_lines ls +:+ String LF l.
Proof.
  induction ls as [| a ls IH]; [congruence |]. intros _.
  destruct ls as [| b ls]; [reflexivity |].
  change (join_lines ((a :: b :: ls) ++ [l]))
    with (a +:+ String LF (join_lines ((b :: ls) ++ [l]))).
  rewrite IH by congruence.
  change (join_lines (a :: b :: ls)) with (a +:+ String LF (join_lines (b :: ls))).
  rewrite append_assoc. reflexivity.
Qed.

(** Parsing the rendering of a merged document. *)
Theorem parse_render hs ws :
  ws <> [] -> Forall (Forall plain0) hs -> Forall good_week ws ->
  parseWorklog (render (map HeaderBlock hs ++ map WeekSection ws))
  = Ok (reread hs ws).
Proof.
  intros Hne Hhs Hws. unfold parseWorklog, render.
  set (ls := render_lines (map HeaderBlock hs ++ map WeekSection ws)).
  assert (Hls : ls <> []).
  { unfold ls. rewrite render_lines_shape. destruct ws as [| w ws]; [congruence |].
    cbn [flat_map]. unfold render_week. now destruct (concat hs). }
  assert (Hlf : Forall no_LF ls).
  { unfold ls. rewrite render_lines_shape. apply Forall_app. split.
    - clear - Hhs. induction Hhs as [| b hs Hb _ IH]; cbn [concat]; [constructor |].
      apply Forall_app. split; [| exact IH].
      eapply Forall_impl; [exact Hb |]. now intros l (_ & _ & H).
    - apply flat_map_Forall. intros w Hw. apply render_week_no_LF.
      rewrite List.Forall_forall in Hws. now apply Hws. }
  rewrite <- join_lines_snoc by exact Hls.
  rewrite split_join.
  - now apply parse_rendered.
  - now destruct ls.
  - apply Forall_snoc; [exact Hlf | reflexivity].
Qed.

End MergeGood.

(* ================================================================= *)
(** ** The same entry twice *)

Module Idempotence.
Import JSDate WeekInfo Worklog LogWork Spec ListFacts MergeFacts StringFacts
  ParserFacts RoundTrip Reread GoodSections SortOrders MergeGood.

Lemma find_map_blank id ts :
  List.find (has_id id) (map blank_task ts)
  = option_map blank_task (List.find (has_id id) ts).
Proof.
  induction ts as [| t ts IH]; cbn [map List.find]; [reflexivity |].
  change (has_id id (blank_task t)) with (has_id id t).
  destruct (has_id id t); [reflexivity | exact IH].
Qed.

Lemma find_removelast {A} (p : A -> bool) (l : list A) x :
  List.find p (removelast l) = Some x -> List.find p l = Some x.
Proof.
  induction l as [| a l IH]; [discriminate |].
  destruct l as [| b l]; [discriminate |].
  change (removelast (a :: b :: l)) with (a :: removelast (b :: l)).
  cbn [List.find]. destruct (p a); [easy | exact IH].
Qed.

Lemma find_reread_days dh b ds d' :
  List.find (has_date dh) (reread_days b ds) = Some d' ->
  exists d bl, List.find (has_date dh) ds = Some d /\ d' = reread_day bl d.
Proof.
  induction ds as [| d ds IH]; [discriminate |].
  destruct ds as [| e ds].
  - cbn [reread_days]. destruct b; [| discriminate].
    cbn [List.find]. change (has_date dh (reread_day true d)) with (has_date dh d).
    destruct (has_date dh d); [| discriminate].
    intros [= <-]. eauto.
  - change (reread_days b (d :: e :: ds))
      with (reread_day false d :: reread_days b (e :: ds)).
    cbn [List.find]. change (has_date dh (reread_day false d)) with (has_date dh d).
    destruct (has_date dh d); [intros [= <-]; eauto | exact IH].
Qed.

Lemma find_reread_weeks n ws w' :
  List.find (week_has_number n) (reread_weeks ws) = Some w' ->
  exists w b, List.find (week_has_number n) ws = Some w /\ w' = reread_week b w.
Proof.
  induction ws as [| w ws IH]; [discriminate |].
  destruct ws as [| e ws].
  - cbn [reread_weeks List.find].
    change (week_has_number n (reread_week true w)) with (week_has_number n w).
    destruct (week_has_number n w); [| discriminate].
    intros [= <-]. eauto.
  - change (reread_weeks (w :: e :: ws))
      with (reread_week false w :: reread_weeks (e :: ws)).
    cbn [List.find].
    change (week_has_number n (reread_week false w)) with (week_has_number n w).
    destruct (week_has_number n w); [intros [= <-]; eauto | exact IH].
Qed.

Lemma find_week_sections n hs ws :
  find_week n (map HeaderBlock hs ++ map WeekSection ws)
  = List.find (week_has_number n) ws.
Proof.
  unfold find_week. induction hs as [| b hs IH]; cbn [map app List.find has_number].
  - induction ws as [| w ws IH]; cbn [map List.find has_number]; [reflexivity |].
    unfold week_has_number at 1.
    destruct (Worklog.weekNumber w =? n); [reflexivity | exact IH].
  - exact IH.
Qed.

(** A task found in the document read again is a task found in the
    document that was rendered, with one empty line more. *)
Lemma find_task_reread n dh id hs ws t' :
  find_task n dh id (reread hs ws) = Some t' ->
  exists t,
    find_task n dh id (map HeaderBlock hs ++ map WeekSection ws) = Some t
    /\ t' = blank_task t.
Proof.
  unfold find_task, find_day.
  change (find_week n (reread hs ws))
    with (find_week n (map HeaderBlock [concat hs ++ [""]]
                       ++ map WeekSection (reread_weeks ws))).
  rewrite !find_week_sections.
  destruct (List.find (week_has_number n) (reread_weeks ws)) as [w' |] eqn:Ew;
    [| discriminate].
  apply find_reread_weeks in Ew as (w & b & -> & ->).
  cbn [mbind option_bind reread_week days].
  destruct (List.find (has_date dh) (reread_days b (days w))) as [d' |] eqn:Ed;
    [| discriminate].
  apply find_reread_days in Ed as (d & bl & -> & ->).
  cbn [mbind option_bind reread_day tasks].
  rewrite find_map_blank.
  destruct (List.find (has_id id) (if bl then tasks d else removelast (tasks d)))
    as [t |] eqn:Et; [| discriminate].
  intros [= <-]. exists t. split; [| reflexivity].
  destruct bl; [exact Et | now apply find_removelast].
Qed.

Lemma workLine_inj w w' : workLine w = workLine w' -> w = w'.
Proof.
  unfold workLine. intros H. apply (f_equal (strip_prefix "  - ")) in H.
  rewrite !strip_prefix_app in H. now injection H.
Qed.

Lemma count_line_app c c' line :
  count_line (c ++ c') line = (count_line c line + count_line c' line)%nat.
Proof. apply count_occ_app. Qed.

Lemma count_line_In c line : In line c <-> (0 < count_line c line)%nat.
Proof. apply count_occ_In. Qed.

Lemma count_add_other c w w' :
  w' <> w ->
  count_line (add_work_item c w') (workLine w) = count_line c (workLine w).
Proof.
  intros Hne. unfold add_work_item.
  destruct (includes c (workLine w')); [reflexivity |].
  rewrite count_line_app. unfold count_line at 2. cbn [count_occ].
  destruct (string_dec (workLine w') (workLine w)) as [E |]; [| lia].
  apply workLine_inj in E. contradiction.
Qed.

Lemma count_add_same c w :
  (count_line c (workLine w) <= 1)%nat ->
  count_line (add_work_item c w) (workLine w) = 1%nat.
Proof.
  intros Hle. unfold add_work_item.
  destruct (includes c (workLine w)) eqn:E.
  - apply includes_In, count_line_In in E. lia.
  - assert (Hnot : ~ In (workLine w) c).
    { intros Hin. apply includes_In in Hin. congruence. }
    rewrite count_line_In in Hnot. rewrite count_line_app.
    unfold count_line at 2. cbn [count_occ].
    destruct (string_dec (workLine w) (workLine w)); [lia | contradiction].
Qed.

Lemma count_add_items_kept items : forall c w,
  count_line c (workLine w) = 1%nat ->
  count_line (add_work_items c items) (workLine w) = 1%nat.
Proof.
  induction items as [| w' items IH]; intros c w H; [exact H |].
  cbn [add_work_items fold_left]. apply IH.
  destruct (string_dec w' w) as [-> | Hne].
  - apply count_add_same. lia.
  - now rewrite count_add_other.
Qed.

(** After the work items are added, the line of each of them is there
    once, when it was there at most once before. *)
Lemma count_add_items items : forall c w,
  In w items ->
  (count_line c (workLine w) <= 1)%nat ->
  count_line (add_work_items c items) (workLine w) = 1%nat.
Proof.
  induction items as [| w' items IH]; intros c w Hin Hle; [destruct Hin |].
  cbn [add_work_items fold_left].
  destruct (string_dec w' w) as [-> | Hne].
  - apply count_add_items_kept. now apply count_add_same.
  - destruct Hin as [-> | Hin]; [contradiction |].
    apply IH; [exact Hin |]. now rewrite count_add_other.
Qed.

Lemma count_blank_task t w :
  count_line (task_content (blank_task t)) (workLine w)
  = count_line (task_content t) (workLine w).
Proof.
  unfold blank_task, add_task_content. cbn [task_content].
  rewrite count_line_app. unfold count_line at 2. cbn [count_occ].
  destruct (string_dec "" (workLine w)); [discriminate | lia].
Qed.



(** The first scenario of the specification, twice: both runs of
    [logWork] succeed, and the file holds the work item's line once. *)
Example logWork_twice :
  exists r1 w1 r2 w2 text,
    logWork utc_host example_options empty_world = (Ok r1, w1)
    /\ logWork utc_host example_options w1 = (Ok r2, w2)
    /\ files w2 !! worklogFile r2 = Some text
    /\ count_line (split_lines text) "  - Implemented selector" = 1%nat
    /\ count_line (split_lines text) "- PROJ-123: Dashboard Automations" = 1%nat.
Proof.
  eexists _, _, _, _, _.
  split; [vm_compute; reflexivity |].
  split; [vm_compute; reflexivity |].
  split; [vm_compute; reflexivity |].
  split; vm_compute; reflexivity.
Qed.

End Idempotence.

(* ================================================================= *)
(** ** Decimal numerals *)

Module Digits.
Import JSDate Spec ParserFacts StringFacts Calendar.

Lemma Z_range_check (f : Z -> bool) lo len :
  forallb f (Z_range lo len) = true ->
  forall y, lo <= y < lo + len -> f y = true.
Proof.
  intros H y Hy. rewrite forallb_forall in H. apply H.
  unfold Z_range. apply in_map_iff. exists (Z.to_nat (y - lo)).
  split; [lia |]. apply in_seq. lia.
Qed.

Lemma dec_four_digits y : 1000 <= y <= 9999 -> four_digits_of y (dec y) = true.
Proof.
  intros Hy. apply (Z_range_check (fun y => four_digits_of y (dec y)) 1000 9000);
    [vm_compute; reflexivity | lia].
Qed.

Lemma pad_four_digits y :
  0 <= y <= 9999 -> four_digits_of y (padStart0 4 (dec y)) = true.
Proof.
  intros Hy.
  apply (Z_range_check (fun y => four_digits_of y (padStart0 4 (dec y))) 0 10000);
    [vm_compute; reflexivity | lia].
Qed.

Lemma pad_two_digits n :
  0 <= n <= 99 -> two_digits_of n (padStart0 2 (dec n)) = true.
Proof.
  intros Hn.
  apply (Z_range_check (fun n => two_digits_of n (padStart0 2 (dec n))) 0 100);
    [vm_compute; reflexivity | lia].
Qed.

Lemma digit_val_digit_char d : 0 <= d < 10 -> digit_val (digit_char d) = d.
Proof.
  intros H.
  assert (E : d = 0 \/ d = 1 \/ d = 2 \/ d = 3 \/ d = 4 \/ d = 5 \/ d = 6
              \/ d = 7 \/ d = 8 \/ d = 9) by lia.
  repeat (destruct E as [-> | E]; [reflexivity |]). now subst.
Qed.

(** [parseInt] reads back what [String] prints. *)
Lemma digits_val_dec_digits fuel : forall n acc,
  0 <= n < 2 ^ Z.of_nat fuel ->
  digits_val 0 (dec_digits fuel n acc) = digits_val n acc.
Proof.
  induction fuel as [| k IH]; intros n acc Hn.
  - cbn in Hn. assert (n = 0) by lia. now subst.
  - cbn [dec_digits].
    assert (Hd : digits_val 0 (String (digit_char (n mod 10)) acc)
                 = digits_val (n mod 10) acc).
    { cbn [digits_val]. rewrite digit_val_digit_char by (apply Z.mod_pos_bound; lia).
      reflexivity. }
    destruct (Z.ltb_spec n 10) as [Hlt | Hge].
    + rewrite Hd. f_equal. apply Z.mod_small. lia.
    + rewrite IH.
      * cbn [digits_val]. rewrite digit_val_digit_char by (apply Z.mod_pos_bound; lia).
        f_equal. zdiv.
      * rewrite Nat2Z.inj_succ, Z.pow_succ_r in Hn by lia.
        set (p := 2 ^ Z.of_nat k) in *. zdiv.
Qed.

Lemma digits_val_dec n : 0 <= n -> digits_val 0 (dec n) = n.
Proof.
  intros Hn. unfold dec. destruct (Z.ltb_spec n 0); [lia |].
  rewrite digits_val_dec_digits; [reflexivity |].
  split; [exact Hn |].
  destruct (Z.eq_dec n 0) as [-> | Hne]; [reflexivity |].
  rewrite Nat2Z.inj_succ, Z2Nat.id by apply Z.log2_nonneg.
  apply Z.log2_spec. lia.
Qed.

Lemma dec_digits_nonempty fuel : forall n acc,
  str_empty acc = false -> str_empty (dec_digits fuel n acc) = false.
Proof.
  induction fuel as [| k IH]; intros n acc Hacc; cbn [dec_digits]; [exact Hacc |].
  destruct (n <? 10); [reflexivity | now apply IH].
Qed.

Lemma dec_nonempty n : str_empty (dec n) = false.
Proof.
  unfold dec. destruct (n <? 0); [reflexivity |].
  cbn [dec_digits]. destruct (n <? 10); [reflexivity |].
  now apply dec_digits_nonempty.
Qed.

Lemma span_all f s : str_forall f s = true -> span f s = (s, "").
Proof.
  induction s as [| c s IH]; [reflexivity |]. cbn [str_forall span].
  intros H. apply andb_prop in H as [Hc Hs]. now rewrite Hc, IH.
Qed.

Lemma first_digits_all s :
  str_forall is_digit s = true -> first_digits s = s.
Proof.
  destruct s as [| c s]; [reflexivity |]. intros H.
  pose proof (span_all _ _ H) as Hspan.
  cbn [str_forall] in H. apply andb_prop in H as [Hc _].
  cbn [first_digits]. now rewrite Hc, Hspan.
Qed.

Lemma digit_not_slash c : is_digit c = true -> Ascii.eqb c "/" = false.
Proof.
  destruct (Ascii.eqb_spec c "/") as [-> |]; [discriminate | reflexivity].
Qed.

Lemma slashes_to_dashes_app a b :
  slashes_to_dashes (a +:+ b) = slashes_to_dashes a +:+ slashes_to_dashes b.
Proof.
  induction a as [| c a IH]; [reflexivity |].
  rewrite app_cons. cbn [slashes_to_dashes]. now rewrite IH.
Qed.

Lemma slashes_to_dashes_digits s :
  str_forall is_digit s = true -> slashes_to_dashes s = s.
Proof.
  induction s as [| c s IH]; [reflexivity |]. cbn [str_forall slashes_to_dashes].
  intros H. apply andb_prop in H as [Hc Hs].
  now rewrite (digit_not_slash c Hc), IH.
Qed.

Lemma four_digits_forall s : four_digits s = true -> str_forall is_digit s = true.
Proof.
  destruct s as [| a [| b [| c [| d [| ? ?]]]]]; try discriminate.
  cbn [four_digits str_forall]. now rewrite andb_true_r, !andb_assoc.
Qed.

Lemma two_digits_forall s : two_digits s = true -> str_forall is_digit s = true.
Proof.
  destruct s as [| a [| b [| ? ?]]]; try discriminate.
  cbn [two_digits str_forall]. now rewrite andb_true_r.
Qed.

(** The day header expression on a year, a month and a day. *)
Lemma day_header_re_parts Y M D :
  four_digits Y = true -> two_digits M = true -> two_digits D = true ->
  day_header_re ("### " +:+ Y +:+ "/" +:+ M +:+ "/" +:+ D) = true.
Proof.
  destruct Y as [| a [| b [| c [| d [| ? ?]]]]]; try discriminate.
  destruct M as [| e [| f [| ? ?]]]; try discriminate.
  destruct D as [| g [| i [| ? ?]]]; try discriminate.
  cbn [four_digits two_digits]. intros HY HM HD.
  repeat match goal with
  | H : _ && _ = true |- _ => apply andb_prop in H as [? ?]
  end.
  unfold day_header_re.
  rewrite strip_prefix_app. rewrite !app_cons, !app_nil.
  repeat first
    [ match goal with H : is_digit _ = true |- _ => rewrite H; clear H end
    | progress cbn -[is_digit] ].
  reflexivity.
Qed.

(** [new Date(s)] on a year, a month and a day. *)
Lemma iso_date_parts Y M D :
  four_digits Y = true -> two_digits M = true -> two_digits D = true ->
  1 <= digits_val 0 M <= 12 ->
  1 <= digits_val 0 D <= DaysInMonth (digits_val 0 Y) (digits_val 0 M - 1) ->
  iso_date (Y +:+ "-" +:+ M +:+ "-" +:+ D)
  = Some (MakeDay (digits_val 0 Y) (digits_val 0 M - 1) (digits_val 0 D)
          * msPerDay).
Proof.
  intros HY HM HD.
  set (yv := digits_val 0 Y). set (mv := digits_val 0 M).
  set (dv := digits_val 0 D). intros Hm Hd.
  destruct Y as [| a [| b [| c [| d [| ? ?]]]]]; try discriminate.
  destruct M as [| e [| f [| ? ?]]]; try discriminate.
  destruct D as [| g [| i [| ? ?]]]; try discriminate.
  cbn [four_digits two_digits] in HY, HM, HD.
  repeat match goal with
  | H : _ && _ = true |- _ => apply andb_prop in H as [? ?]
  end.
  unfold iso_date, first_chars. rewrite !app_cons, !app_nil.
  cbn [String.length substring str_forall Nat.eqb].
  repeat match goal with H : is_digit _ = true |- _ => rewrite H; clear H end.
  cbn [andb String.eqb]. change (Ascii.eqb "-" "-") with true. cbn [andb].
  fold yv mv dv. clearbody yv mv dv.
  destruct (Z.leb_spec 1 mv), (Z.leb_spec mv 12), (Z.leb_spec 1 dv),
    (Z.leb_spec dv (DaysInMonth yv (mv - 1))); try lia.
  cbn [andb]. unfold MakeDate. f_equal. lia.
Qed.

End Digits.

(* ================================================================= *)
(** ** Days, months and weeks of a year *)

Module CalendarRanges.
Import JSDate WeekInfo Spec Calendar.

Lemma DayFromYear_mono a b : a <= b -> DayFromYear a <= DayFromYear b.
Proof. intros H. unfold DayFromYear. zdiv. Qed.

Lemma YearFromDay_lower y d : DayFromYear y <= d -> y <= YearFromDay d.
Proof.
  intros H. pose proof (YearFromDay_spec d) as [_ Hhi].
  destruct (Z_le_gt_dec y (YearFromDay d)) as [| Hgt]; [assumption |].
  pose proof (DayFromYear_mono (YearFromDay d + 1) y). lia.
Qed.

Lemma DayWithinYear_range t :
  0 <= DayWithinYear t < DaysInYear (YearFromTime t).
Proof.
  unfold DayWithinYear, YearFromTime.
  pose proof (YearFromDay_spec (Day t)) as [Hlo Hhi].
  rewrite DayFromYear_succ in Hhi. lia.
Qed.

Lemma DaysInYear_cases y : DaysInYear y = 365 \/ DaysInYear y = 366.
Proof.
  unfold DaysInYear.
  repeat match goal with |- context [if ?c then _ else _] => destruct c end; auto.
Qed.

Ltac eval_month_start :=
  repeat match goal with
  | |- context [month_start ?l ?m] =>
      let v := eval vm_compute in (month_start l m) in
      change (month_start l m) with v
  end.

Lemma DaysInYear_leap y :
  DaysInYear y = 365 + (if DaysInYear y =? 366 then 1 else 0).
Proof. destruct (DaysInYear_cases y) as [E | E]; rewrite E; reflexivity. Qed.

Lemma DaysInMonth_month_start y m :
  0 <= m <= 11 ->
  let leap := if DaysInYear y =? 366 then 1 else 0 in
  DaysInMonth y m = month_start leap (m + 1) - month_start leap m.
Proof.
  intros Hm. cbv zeta. pose proof (DaysInYear_leap y) as Hy.
  unfold DaysInMonth, MakeDay.
  replace (m / 12) with 0 by zdiv. replace (m mod 12) with m by zdiv.
  rewrite Z.add_0_r.
  destruct (Z.eq_dec m 11) as [-> | Hne].
  - change ((11 + 1) / 12) with 1. change ((11 + 1) mod 12) with 0.
    rewrite DayFromYear_succ.
    set (leap := if DaysInYear y =? 366 then 1 else 0) in *. clearbody leap.
    change (month_start ?x 0) with 0.
    change (month_start leap (11 + 1)) with (365 + leap).
    lia.
  - replace ((m + 1) / 12) with 0 by zdiv.
    replace ((m + 1) mod 12) with (m + 1) by zdiv.
    rewrite Z.add_0_r. lia.
Qed.

(** The day of the month is a day of that month. *)
Lemma DateFromTime_range t :
  1 <= DateFromTime t <= DaysInMonth (YearFromTime t) (MonthFromTime t).
Proof.
  pose proof (DayWithinYear_range t) as Hd.
  rewrite (DaysInYear_leap (YearFromTime t)) in Hd.
  rewrite DaysInMonth_month_start by apply MonthFromTime_range.
  unfold DateFromTime, MonthFromTime, InLeapYear in *.
  set (leap := if DaysInYear (YearFromTime t) =? 366 then 1 else 0) in *.
  assert (Hl : 0 <= leap <= 1) by (unfold leap; destruct (_ =? _); lia).
  clearbody leap. set (d := DayWithinYear t) in *. clearbody d.
  assert (E : leap = 0 \/ leap = 1) by lia.
  destruct E as [-> | ->];
    repeat match goal with
    | |- context [?a <? ?b] => destruct (Z.ltb_spec a b)
    end; eval_month_start; lia.
Qed.

Lemma DaysInMonth_le_31 y m : 0 <= m <= 11 -> DaysInMonth y m <= 31.
Proof.
  intros Hm. rewrite DaysInMonth_month_start by exact Hm.
  set (leap := if DaysInYear y =? 366 then 1 else 0).
  assert (Hl : 0 <= leap <= 1) by (unfold leap; destruct (_ =? _); lia).
  clearbody leap.
  assert (E : m = 0 \/ m = 1 \/ m = 2 \/ m = 3 \/ m = 4 \/ m = 5 \/ m = 6
              \/ m = 7 \/ m = 8 \/ m = 9 \/ m = 10 \/ m = 11) by lia.
  assert (El : leap = 0 \/ leap = 1) by lia.
  destruct El as [-> | ->];
    repeat (destruct E as [-> | E]; [eval_month_start; lia |]); subst;
    eval_month_start; lia.
Qed.

Lemma YearFromDay_upper y d : d < DayFromYear (y + 1) -> YearFromDay d <= y.
Proof.
  intros H. pose proof (YearFromDay_spec d) as [Hlo _].
  destruct (Z_le_gt_dec (YearFromDay d) y) as [| Hgt]; [assumption |].
  pose proof (DayFromYear_mono (y + 1) (YearFromDay d)). lia.
Qed.

(** The year of a day at most three days away is the same year, the one
    before or the one after. *)
Lemma YearFromDay_near d d' :
  d - 3 <= d' <= d + 3 -> YearFromDay d - 1 <= YearFromDay d' <= YearFromDay d + 1.
Proof.
  intros Hd. pose proof (YearFromDay_spec d) as [Hlo Hhi].
  set (y := YearFromDay d) in *. split.
  - apply YearFromDay_lower.
    pose proof (DayFromYear_succ (y - 1)) as Hs.
    replace (y - 1 + 1) with y in Hs by lia.
    pose proof (DaysInYear_cases (y - 1)). lia.
  - apply YearFromDay_upper.
    pose proof (DayFromYear_succ (y + 1)) as Hs.
    pose proof (DaysInYear_cases (y + 1)). lia.
Qed.

Lemma week_thursday_near day : day - 3 <= week_thursday day <= day + 3.
Proof. unfold week_thursday, week_monday, weekday_of_day. zdiv. Qed.

(** An ISO week number lies between 1 and 53. *)
Lemma iso_week_range day : 1 <= iso_week day <= 53.
Proof.
  unfold iso_week. set (th := week_thursday day).
  assert (Hth : (th + 4) mod 7 = 4).
  { unfold th, week_thursday, week_monday, weekday_of_day. zdiv. }
  pose proof (YearFromDay_spec th) as [Hlo Hhi].
  rewrite DayFromYear_succ in Hhi.
  pose proof (DaysInYear_cases (YearFromDay th)) as Hy.
  unfold first_thursday, weekday_of_day.
  set (jan1 := DayFromYear (YearFromDay th)) in *. clearbody jan1 th.
  zdiv.
Qed.

End CalendarRanges.

(* ================================================================= *)
(** ** Dates written and read back *)

Module DateStrings.
Import JSDate WeekInfo Worklog LogWork Spec ParserFacts StringFacts Calendar
  Digits CalendarRanges GoodSections.

Lemma getFullYear_day h t : getFullYear h t = YearFromDay (JSDate.Day (LocalTime h t)).
Proof. reflexivity. Qed.

Lemma getWeekNumber_local_iso h t :
  ~ (-1 <= getFullYear h t <= 100) ->
  getWeekNumber h t = iso_week (JSDate.Day (LocalTime h t)).
Proof.
  intros Hy. rewrite getFullYear_day in Hy.
  set (day := JSDate.Day (LocalTime h t)) in *.
  pose proof (YearFromDay_near day (week_thursday day) (week_thursday_near day)).
  apply getWeekNumber_iso; fold day; lia.
Qed.

(** X1.  For a date whose local year is not one of -1 to 100,
    [getWeekNumber] is the ISO-8601 week number of the local date, and it
    lies between 1 and 53. *)
Theorem getWeekNumber_range (h : Host) (t : Z) :
  ~ (-1 <= getFullYear h t <= 100) ->
  getWeekNumber h t = iso_week (JSDate.Day (LocalTime h t))
  /\ 1 <= getWeekNumber h t <= 53.
Proof.
  intros Hy. pose proof (getWeekNumber_local_iso h t Hy) as E.
  split; [exact E |]. rewrite E. apply iso_week_range.
Qed.

Lemma getWeekNumber_range_witness :
  getWeekNumber utc_host 1769558400000 = iso_week 20481
  /\ 1 <= getWeekNumber utc_host 1769558400000 <= 53.
Proof.
  apply (getWeekNumber_range utc_host 1769558400000).
  vm_compute. intros [_ H]. now apply H.
Defined.

Lemma week_header_digits n :
  0 <= n ->
  week_header_re ("## Week " +:+ dec n) = true
  /\ no_LF ("## Week " +:+ dec n)
  /\ digits_val 0 (first_digits ("## Week " +:+ dec n)) = n.
Proof.
  intros Hn. pose proof (dec_digits_of_nonneg n Hn) as Hd.
  pose proof (dec_nonempty n) as Hne. split; [| split].
  - unfold week_header_re. rewrite strip_prefix_app. unfold plus.
    rewrite (span_all _ _ Hd). now rewrite Hne.
  - apply no_LF_app; [reflexivity |]. unfold no_LF.
    eapply str_forall_impl; [apply digit_not_LF | exact Hd].
  - replace (first_digits ("## Week " +:+ dec n)) with (first_digits (dec n))
      by reflexivity.
    rewrite first_digits_all by exact Hd. now apply digits_val_dec.
Qed.

Lemma parse_week_header n :
  0 <= n ->
  parseWorklog ("## Week " +:+ dec n)
  = Ok [WeekSection {| week_header := "## Week " +:+ dec n; weekNumber := n;
                       week_content := []; days := [] |}].
Proof.
  intros Hn. destruct (week_header_digits n Hn) as (Hre & Hlf & Hval).
  unfold parseWorklog. rewrite split_lines_one by exact Hlf.
  generalize dependent ("## Week " +:+ dec n). intros l Hre Hlf Hval.
  unfold parse_lines. cbn [run mbind Result_bind]. unfold step.
  rewrite Hre, Hval. reflexivity.
Qed.

Lemma week_header_text info :
  "## " +:+ weekHeader info = "## Week " +:+ dec (WeekInfo.weekNumber info)
  -> empty_week info
     = {| week_header := "## Week " +:+ dec (WeekInfo.weekNumber info);
          weekNumber := WeekInfo.weekNumber info;
          week_content := []; days := [] |}.
Proof. unfold empty_week. now intros ->. Qed.

(** X2.  The week header that [logWork] writes for a date whose local
    year is not one of -1 to 100 is read by [parseWorklog] as a week
    header, with the week number of the date. *)
Theorem week_header_reads_back (h : Host) (s : option string) (info : Info) :
  getWeekInfo h s = Ok info ->
  ~ (-1 <= year info <= 100) ->
  parseWorklog ("## " +:+ weekHeader info) = Ok [WeekSection (empty_week info)].
Proof.
  unfold getWeekInfo. intros Hinfo Hy.
  destruct (if truthy s then Date_parse h (default "" s) else Some (now h))
    as [t |]; [| discriminate].
  assert (Hyear : year info = getFullYear h t) by now inversion Hinfo.
  assert (Hnum : WeekInfo.weekNumber info = getWeekNumber h t)
    by now inversion Hinfo.
  assert (Hhead : weekHeader info = "Week " +:+ dec (WeekInfo.weekNumber info)).
  { rewrite Hnum. now inversion Hinfo. }
  clear Hinfo. rewrite Hyear in Hy.
  pose proof (iso_week_range (JSDate.Day (LocalTime h t))) as [Hlo _].
  rewrite <- (getWeekNumber_local_iso h t Hy), <- Hnum in Hlo.
  assert (E : "## " +:+ weekHeader info
              = "## Week " +:+ dec (WeekInfo.weekNumber info)).
  { rewrite Hhead. generalize (dec (WeekInfo.weekNumber info)). reflexivity. }
  rewrite (week_header_text info E), E. apply parse_week_header. lia.
Qed.

Lemma week_header_reads_back_witness :
  parseWorklog ("## " +:+ weekHeader sample_info)
  = Ok [WeekSection (empty_week sample_info)].
Proof.
  apply (week_header_reads_back utc_host (Some "2026-01-28") sample_info).
  - vm_compute. reflexivity.
  - vm_compute. intros [_ H]. now apply H.
Defined.

Lemma four_digits_of_inv v s :
  four_digits_of v s = true -> four_digits s = true /\ digits_val 0 s = v.
Proof.
  unfold four_digits_of. intros H. apply andb_prop in H as [H1 H2].
  split; [exact H1 | now apply Z.eqb_eq].
Qed.

Lemma two_digits_of_inv v s :
  two_digits_of v s = true -> two_digits s = true /\ digits_val 0 s = v.
Proof.
  unfold two_digits_of. intros H. apply andb_prop in H as [H1 H2].
  split; [exact H1 | now apply Z.eqb_eq].
Qed.

(** The month and the day of the month, as two digits each. *)
Lemma month_and_date_digits t :
  (two_digits (padStart0 2 (dec (MonthFromTime t + 1))) = true
   /\ digits_val 0 (padStart0 2 (dec (MonthFromTime t + 1))) = MonthFromTime t + 1)
  /\ (two_digits (padStart0 2 (dec (DateFromTime t))) = true
      /\ digits_val 0 (padStart0 2 (dec (DateFromTime t))) = DateFromTime t).
Proof.
  pose proof (MonthFromTime_range t) as Hm.
  pose proof (DateFromTime_range t) as Hd.
  pose proof (DaysInMonth_le_31 (YearFromTime t) (MonthFromTime t) Hm).
  split; apply two_digits_of_inv, pad_two_digits; lia.
Qed.

(** A date of year, month and day of the month reads back as the day. *)
Lemma iso_date_of_time Y t :
  four_digits Y = true -> digits_val 0 Y = YearFromTime t ->
  iso_date (Y +:+ "-" +:+ padStart0 2 (dec (MonthFromTime t + 1))
              +:+ "-" +:+ padStart0 2 (dec (DateFromTime t)))
  = Some (JSDate.Day t * msPerDay).
Proof.
  intros HY HYv.
  destruct (month_and_date_digits t) as [[HM HMv] [HD HDv]].
  pose proof (MonthFromTime_range t) as Hm.
  pose proof (DateFromTime_range t) as Hd.
  rewrite iso_date_parts; try assumption; rewrite ?HYv, ?HMv, ?HDv;
    replace (MonthFromTime t + 1 - 1) with (MonthFromTime t) by lia;
    try lia.
  rewrite MakeDay_of_time. do 2 f_equal. lia.
Qed.

(** X3.  For a date whose local year has four digits, the day header
    that [formatDateHeader] makes is matched by the day header expression
    of [parseWorklog], and [compareDates] reads its date as midnight UTC
    of the local day. *)
Theorem day_header_reads_back (h : Host) (s : string) (t : Z) :
  Date_parse h s = Some t ->
  1000 <= getFullYear h t <= 9999 ->
  day_header_re ("### " +:+ formatDateHeader h s) = true
  /\ Date_parse h (slashes_to_dashes (formatDateHeader h s))
     = Some (JSDate.Day (LocalTime h t) * msPerDay).
Proof.
  intros Hparse Hy. unfold formatDateHeader. rewrite Hparse.
  unfold getMonth, getDate. unfold getFullYear in *.
  set (lt := LocalTime h t) in *.
  destruct (four_digits_of_inv _ _ (dec_four_digits _ Hy)) as [HY HYv].
  destruct (month_and_date_digits lt) as [[HM HMv] [HD HDv]].
  split.
  - now apply day_header_re_parts.
  - rewrite !slashes_to_dashes_app.
    rewrite (slashes_to_dashes_digits _ (four_digits_forall _ HY)),
      (slashes_to_dashes_digits _ (two_digits_forall _ HM)),
      (slashes_to_dashes_digits _ (two_digits_forall _ HD)).
    change (slashes_to_dashes "/") with "-".
    unfold Date_parse. now rewrite iso_date_of_time.
Qed.

Lemma day_header_reads_back_witness :
  day_header_re ("### " +:+ formatDateHeader utc_host "2026-01-28") = true
  /\ Date_parse utc_host (slashes_to_dashes (formatDateHeader utc_host "2026-01-28"))
     = Some (JSDate.Day (LocalTime utc_host 1769558400000) * msPerDay).
Proof.
  apply (day_header_reads_back utc_host "2026-01-28" 1769558400000).
  - vm_compute. reflexivity.
  - vm_compute. split; discriminate.
Defined.

(** X4.  While the year in UTC is one of 0 to 9999, the first ten
    characters of [toISOString] are a date that [new Date] reads back as
    midnight UTC of the same day: the date [logWork] takes when none is
    given is never an invalid date. *)
Theorem default_date_is_valid (h : Host) (t : Z) :
  0 <= YearFromTime t <= 9999 ->
  Date_parse h (toISOString_10 t) = Some (JSDate.Day t * msPerDay)
  /\ exists info,
       getWeekInfo h (Some (toISOString_10 t)) = Ok info
       /\ info_date info = toISOString_10 t.
Proof.
  intros Hy.
  assert (Hs : toISOString_10 t
               = padStart0 4 (dec (YearFromTime t)) +:+ "-"
                 +:+ padStart0 2 (dec (MonthFromTime t + 1))
                 +:+ "-" +:+ padStart0 2 (dec (DateFromTime t))).
  { unfold toISOString_10.
    destruct (Z.leb_spec 0 (YearFromTime t)), (Z.leb_spec (YearFromTime t) 9999);
      try lia. reflexivity. }
  destruct (four_digits_of_inv _ _ (pad_four_digits _ Hy)) as [HY HYv].
  assert (Hparse : Date_parse h (toISOString_10 t) = Some (JSDate.Day t * msPerDay)).
  { unfold Date_parse. rewrite Hs. now rewrite iso_date_of_time. }
  split; [exact Hparse |].
  assert (Hne : str_empty (toISOString_10 t) = false).
  { rewrite Hs. destruct (padStart0 4 (dec (YearFromTime t))); [discriminate |].
    reflexivity. }
  unfold getWeekInfo, truthy. rewrite Hne. cbn [negb].
  change (default "" (Some (toISOString_10 t))) with (toISOString_10 t).
  rewrite Hparse.
  eexists. split; [reflexivity |]. cbn [info_date].
  rewrite (toISOString_10_day t), (toISOString_10_day (JSDate.Day t * msPerDay)).
  now rewrite Day_of_days.
Qed.

Lemma default_date_is_valid_witness :
  Date_parse utc_host (toISOString_10 (now utc_host))
  = Some (JSDate.Day (now utc_host) * msPerDay)
  /\ exists info,
       getWeekInfo utc_host (Some (toISOString_10 (now utc_host))) = Ok info
       /\ info_date info = toISOString_10 (now utc_host).
Proof.
  apply (default_date_is_valid utc_host (now utc_host)).
  vm_compute. split; discriminate.
Defined.

Lemma iso_date_midnight s t : iso_date s = Some t -> t = JSDate.Day t * msPerDay.
Proof.
  unfold iso_date.
  repeat match goal with
  | |- context [if ?c then _ else _] => destruct c; try discriminate
  end.
  intros [= <-]. unfold MakeDate. rewrite Z.add_0_r. now rewrite Day_of_days.
Qed.

Lemma formatDateHeader_day h s t :
  Date_parse h s = Some t ->
  formatDateHeader h s = date_header_of_day (JSDate.Day (LocalTime h t)).
Proof.
  intros Hparse. unfold formatDateHeader, date_header_of_day. rewrite Hparse.
  unfold getFullYear, getMonth, getDate, DateFromTime, MonthFromTime,
    InLeapYear, DayWithinYear, YearFromTime.
  now rewrite !Day_of_days.
Qed.

(** X5.  For a date given as [YYYY-MM-DD], which [new Date] reads as
    midnight UTC, [formatDateHeader] prints that day on a host on or east
    of UTC, and the day before it on a host west of UTC. *)
Theorem day_header_by_offset (h : Host) (s : string) (t : Z) :
  iso_date s = Some t ->
  (0 <= LocalTZA h < msPerDay ->
   formatDateHeader h s = date_header_of_day (JSDate.Day t))
  /\ (- msPerDay <= LocalTZA h < 0 ->
      formatDateHeader h s = date_header_of_day (JSDate.Day t - 1)).
Proof.
  intros Hiso. pose proof (iso_date_midnight s t Hiso) as Ht.
  assert (Hparse : Date_parse h s = Some t) by (unfold Date_parse; now rewrite Hiso).
  rewrite (formatDateHeader_day h s t Hparse). unfold LocalTime.
  split; intros Hz; f_equal; unfold JSDate.Day, msPerDay in *; zdiv.
Qed.

Lemma day_header_by_offset_witness :
  formatDateHeader west_host "2026-02-02" = "2026/02/01".
Proof.
  destruct (day_header_by_offset west_host "2026-02-02" 1769990400000)
    as [_ Hwest]; [vm_compute; reflexivity |].
  rewrite Hwest; [vm_compute; reflexivity |].
  unfold west_host, msPerDay. cbn [LocalTZA]. lia.
Defined.


End DateStrings.

(* ================================================================= *)
(** ** The command line of log_work.cjs *)

Module CommandLine.
Import JSDate WeekInfo Worklog LogWork Cli Spec.

Lemma parseArgs_work_items items : forall a,
  parseArgs_from a (flat_map (fun w => ["--work"; w]) items)
  = {| opt_date := opt_date a; opt_trackingId := opt_trackingId a;
       opt_summary := opt_summary a;
       opt_workItems := opt_workItems a ++ items |}.
Proof.
  induction items as [| w items IH]; intros a.
  - cbn. rewrite app_nil_r. now destruct a.
  - cbn [flat_map app]. change (parseArgs_from a ("--work" :: w :: ?r))
      with (parseArgs_from (push_workItem w a) r).
    rewrite IH. cbn. now rewrite <- app_assoc.
Qed.

(** X7.  [parseArgs] reads the date, the tracking id, the summary and
    the work items, in their order, back from the arguments that spell
    them out, whatever the values are. *)
Theorem parseArgs_round_trip (d id s : string) (items : list string) :
  parseArgs (argv_of d id s items)
  = {| opt_date := Some d; opt_trackingId := Some id; opt_summary := Some s;
       opt_workItems := items |}.
Proof.
  unfold parseArgs, argv_of.
  change (parseArgs_from no_args (["--date"; d; "--tracking-id"; id; "--summary"; s] ++ ?r))
    with (parseArgs_from (with_summary s (with_trackingId id (with_date d no_args))) r).
  now rewrite parseArgs_work_items.
Qed.

Lemma list_ind2 {A} (P : list A -> Prop) :
  P [] -> (forall x, P [x]) ->
  (forall x y l, P l -> P (y :: l) -> P (x :: y :: l)) ->
  forall l, P l.
Proof.
  intros H0 H1 H2.
  assert (H : forall l, P l /\ forall x, P (x :: l)).
  { induction l as [| y l [IH1 IH2]]; [split; auto |].
    split; [apply IH2 |]. intros x. apply H2; auto. }
  intros l. apply H.
Qed.

Lemma parseArgs_from_cons a x y l :
  parseArgs_from a (x :: y :: l)
  = if String.eqb x "--date" then parseArgs_from (with_date y a) l
    else if String.eqb x "--tracking-id"
    then parseArgs_from (with_trackingId y a) l
    else if String.eqb x "--summary" then parseArgs_from (with_summary y a) l
    else if String.eqb x "--work" then parseArgs_from (push_workItem y a) l
    else parseArgs_from a (y :: l).
Proof. reflexivity. Qed.

Lemma parseArgs_no_flag argv : forall a,
  (~ In "--tracking-id" argv ->
   opt_trackingId (parseArgs_from a argv) = opt_trackingId a)
  /\ (~ In "--summary" argv ->
      opt_summary (parseArgs_from a argv) = opt_summary a)
  /\ (~ In "--work" argv ->
      opt_workItems (parseArgs_from a argv) = opt_workItems a).
Proof.
  induction argv as [| x | x y l IH1 IH2] using list_ind2; intros a;
    [now cbn | now cbn |].
  rewrite parseArgs_from_cons.
  repeat match goal with
  | |- context [String.eqb ?u ?v] => destruct (String.eqb_spec u v)
  end; subst.
  - destruct (IH1 (with_date y a)) as (H1 & H2 & H3).
    repeat split; intros Hn; [rewrite H1 | rewrite H2 | rewrite H3];
      try reflexivity; intros Hin; apply Hn; right; now right.
  - destruct (IH1 (with_trackingId y a)) as (H1 & H2 & H3).
    repeat split; intros Hn; [| rewrite H2 | rewrite H3];
      try reflexivity; try (intros Hin; apply Hn; right; now right).
    exfalso. apply Hn. now left.
  - destruct (IH1 (with_summary y a)) as (H1 & H2 & H3).
    repeat split; intros Hn; [rewrite H1 | | rewrite H3];
      try reflexivity; try (intros Hin; apply Hn; right; now right).
    exfalso. apply Hn. now left.
  - destruct (IH1 (push_workItem y a)) as (H1 & H2 & H3).
    repeat split; intros Hn; [rewrite H1 | rewrite H2 |];
      try reflexivity; try (intros Hin; apply Hn; right; now right).
    exfalso. apply Hn. now left.
  - destruct (IH2 a) as (H1 & H2 & H3).
    repeat split; intros Hn; [rewrite H1 | rewrite H2 | rewrite H3];
      try reflexivity; intros Hin; apply Hn; now right.
Qed.

(** X8.  When the arguments hold no [--tracking-id], no [--summary] or
    no [--work], [logWork] on what [parseArgs] makes of them fails with
    the missing-fields error and leaves the files alone. *)
Theorem missing_option_is_missing_field (h : Host) (argv : list string) (w : World) :
  ~ In "--tracking-id" argv \/ ~ In "--summary" argv \/ ~ In "--work" argv ->
  logWork h (parseArgs argv) w = (Throw MissingFields, w).
Proof.
  intros Hno. unfold parseArgs.
  destruct (parseArgs_no_flag argv no_args) as (H1 & H2 & H3).
  unfold logWork.
  destruct Hno as [Hn | [Hn | Hn]].
  - rewrite (H1 Hn). reflexivity.
  - rewrite (H2 Hn). cbn. now rewrite orb_true_r.
  - rewrite (H3 Hn). cbn. now rewrite orb_true_r.
Qed.

Lemma missing_option_is_missing_field_witness :
  logWork utc_host
    (parseArgs ["--tracking-id"; "PROJ-123"; "--work"; "Fixed the tests"])
    empty_world
  = (Throw MissingFields, empty_world).
Proof.
  apply (missing_option_is_missing_field utc_host
           ["--tracking-id"; "PROJ-123"; "--work"; "Fixed the tests"]).
  right; left. cbn. intros H.
  repeat (destruct H as [H | H]; [discriminate |]). exact H.
Defined.

End CommandLine.

(* ================================================================= *)
(** ** The files [logWork] touches *)

Module Files.
Import JSDate WeekInfo Worklog LogWork Cli Spec.

Section KeepsFile.
Context (p : string) (ds : gset string).

Lemma keeps_bind {A B} (m : IO A) (f : A -> IO B) :
  keeps_file p ds m -> (forall a, keeps_file p ds (f a)) ->
  keeps_file p ds (m ≫= f).
Proof.
  intros Hm Hf w. unfold mbind, IO_bind. specialize (Hm w).
  destruct (m w) as [[a | e] w1]; cbn [snd] in *.
  - specialize (Hf a w1). destruct Hm as [Hm1 Hm2], Hf as [Hf1 Hf2].
    split; [congruence | set_solver].
  - exact Hm.
Qed.

Lemma keeps_ret {A} (a : A) : keeps_file p ds (mret a).
Proof. intros w. cbn. split; [reflexivity | set_solver]. Qed.

Lemma keeps_lift {A} (r : Result A) : keeps_file p ds (lift r).
Proof. intros w. cbn. split; [reflexivity | set_solver]. Qed.

Lemma keeps_bind_lift {A B} (r : Result A) (f : A -> IO B) :
  (forall a, r = Ok a -> keeps_file p ds (f a)) ->
  keeps_file p ds (lift r ≫= f).
Proof.
  intros Hf w. unfold mbind, IO_bind, lift.
  destruct r as [a | e]; [now apply Hf |].
  cbn. split; [reflexivity | set_solver].
Qed.

Lemma keeps_throw {A} e : keeps_file p ds (throw e : IO A).
Proof. intros w. cbn. split; [reflexivity | set_solver]. Qed.

Lemma keeps_existsSync q : keeps_file p ds (existsSync q).
Proof. intros w. cbn. split; [reflexivity | set_solver]. Qed.

Lemma keeps_readFileSync q : keeps_file p ds (readFileSync q).
Proof. intros w. cbn. split; [reflexivity | set_solver]. Qed.

Lemma keeps_mkdirSync q : q ∈ ds -> keeps_file p ds (mkdirSync q).
Proof. intros Hq w. cbn. split; [reflexivity | set_solver]. Qed.

Lemma keeps_writeFileSync q c : p <> q -> keeps_file p ds (writeFileSync q c).
Proof.
  intros Hq w. cbn. split; [| set_solver].
  now rewrite lookup_insert_ne.
Qed.

Lemma keeps_formatWorklog h q : p <> q -> keeps_file p ds (formatWorklog h q).
Proof.
  intros Hq w. unfold formatWorklog. cbn.
  destruct (files w !! q) as [c |]; cbn; [| split; [reflexivity | set_solver]].
  destruct (prettier h c); cbn; split; try reflexivity; try set_solver.
  now rewrite lookup_insert_ne.
Qed.

End KeepsFile.



Section FailsClean.
Context (early : Error -> bool).

Lemma clean_bind {A B} (m : IO A) (f : A -> IO B) :
  reads_only m -> (forall a, fails_clean early (f a)) ->
  fails_clean early (m ≫= f).
Proof.
  intros Hm Hf w e w' Hrun He. unfold mbind, IO_bind in Hrun.
  specialize (Hm w). destruct (m w) as [[a | e1] w1]; cbn [snd] in *.
  - rewrite <- Hm. now apply (Hf a w1 e w').
  - injection Hrun as -> ->. exact Hm.
Qed.

Lemma clean_bind_lift {A B} (r : Result A) (f : A -> IO B) :
  (forall a, fails_clean early (f a)) -> fails_clean early (lift r ≫= f).
Proof. intros Hf. apply clean_bind; [| exact Hf]. now intros w. Qed.

End FailsClean.

Lemma write_and_format_fail h q c {A} (r : A) w e w' :
  (writeFileSync q c ≫= λ _, formatWorklog h q ≫= λ _, mret r) w = (Throw e, w') ->
  e = ProcessExit.
Proof.
  unfold mbind, IO_bind, writeFileSync, formatWorklog, mret, IO_ret. cbn.
  rewrite lookup_insert. destruct (decide (q = q)); [| congruence].
  destruct (prettier h c); cbn; congruence.
Qed.



End Files.

(* ================================================================= *)
(** ** Worklogs that make [parseWorklog] throw *)

Module ParserErrors.
Import JSDate WeekInfo Worklog LogWork Spec ParserFacts.

Lemma flushBuffer_nothing_open st :
  nothing_open st -> nothing_open (flushBuffer st).
Proof.
  intros (Hw & Hd & Ht). unfold flushBuffer, nothing_open.
  destruct (buffer st); [auto |]. rewrite Ht, Hd, Hw. cbn. auto.
Qed.

Lemma flushBuffer_day_without_week st :
  day_without_week st -> day_without_week (flushBuffer st).
Proof.
  intros [Hw Hd]. unfold flushBuffer, day_without_week.
  destruct (buffer st); [auto |].
  destruct (currentTask st); [cbn; auto |].
  destruct (currentDay st); [cbn; auto | discriminate].
Qed.

Lemma run_nothing_open pre : forall st,
  nothing_open st -> Forall no_header pre ->
  exists st', run st pre = Ok st' /\ nothing_open st'.
Proof.
  induction pre as [| l pre IH]; intros st Hst Hpre; [now exists st |].
  apply Forall_cons_iff in Hpre as [[Hlw Hld] Hpre].
  destruct Hst as (Hw & Hd & Ht).
  cbn [run]. unfold step at 1. rewrite Hlw, Hld, Hd. cbn [is_some andb].
  cbn [mbind Result_bind]. apply IH; [| exact Hpre].
  unfold nothing_open. cbn. auto.
Qed.

(** With a day open and no week, every way on ends in a [TypeError]. *)
Lemma run_day_without_week post : forall st,
  day_without_week st -> Forall no_week_header post ->
  (st' ← run st post; finish st') = Throw TypeError.
Proof.
  induction post as [| l post IH]; intros st Hst Hpost.
  - cbn [run mbind Result_bind]. unfold finish.
    destruct (flushBuffer_day_without_week st Hst) as [Hw Hd].
    rewrite Hw. destruct (currentDay (flushBuffer st)); [| discriminate].
    destruct (currentTask (flushBuffer st)); reflexivity.
  - apply Forall_cons_iff in Hpost as [Hl Hpost]. red in Hl.
    destruct (flushBuffer_day_without_week st Hst) as [Hw Hd].
    cbn [run]. unfold step at 1. rewrite Hl.
    destruct (day_header_re l).
    { rewrite Hw. destruct (currentDay (flushBuffer st)); [| discriminate].
      reflexivity. }
    destruct (is_some (currentDay st) && task_line_re l).
    + destruct (currentDay (flushBuffer st)) as [d |]; [| discriminate].
      assert (Hpush : exists d', push_into push_task (Some d)
                                   (currentTask (flushBuffer st)) = Ok (Some d')).
      { destruct (currentTask (flushBuffer st)); cbn; eauto. }
      destruct Hpush as [d' ->]. cbn [mbind Result_bind].
      destruct (task_groups_re l) as [[id text] |]; [| reflexivity].
      cbn [mbind Result_bind]. apply IH; [| exact Hpost].
      split; [exact Hw | reflexivity].
    + cbn [mbind Result_bind]. apply IH; [| exact Hpost].
      destruct Hst as [Hw0 Hd0]. split; assumption.
Qed.

(** X11.  A text whose first header is a day header, with no week header
    anywhere after it, makes [parseWorklog] throw a [TypeError]: the day
    has no week to go into. *)
Theorem day_before_week_throws (content : string) (pre : list string)
    (l : string) (post : list string) :
  split_lines content = pre ++ l :: post ->
  Forall no_header pre ->
  day_header_re l = true ->
  Forall no_week_header post ->
  parseWorklog content = Throw TypeError.
Proof.
  intros Hsplit Hpre Hl Hpost. unfold parseWorklog, parse_lines. rewrite Hsplit.
  assert (Hlw : week_header_re l = false).
  { destruct (week_header_re l) eqn:E; [| reflexivity].
    apply week_header_not_day in E. congruence. }
  assert (Hrun : forall a b st, run st (a ++ b) = (st' ← run st a; run st' b)).
  { induction a as [| x a IHa]; intros b st; [reflexivity |].
    cbn [app run]. destruct (step st x); cbn [mbind Result_bind]; auto. }
  rewrite Hrun.
  destruct (run_nothing_open pre init) as (st & -> & Hst); [now cbv | exact Hpre |].
  cbn [mbind Result_bind run]. unfold step at 1. rewrite Hlw, Hl.
  destruct (flushBuffer_nothing_open st Hst) as (Hw & Hd & Ht).
  rewrite Hw, Hd. cbn [push_into mbind Result_bind].
  apply run_day_without_week; [| exact Hpost].
  split; [reflexivity | reflexivity].
Qed.

Lemma day_before_week_throws_witness :
  parseWorklog ("# Notes" +:+ LFs +:+ "### 2026/01/27" +:+ LFs
                +:+ "- PROJ-123: Dashboard") = Throw TypeError.
Proof.
  apply (day_before_week_throws _ ["# Notes"] "### 2026/01/27"
           ["- PROJ-123: Dashboard"]).
  - reflexivity.
  - repeat constructor.
  - reflexivity.
  - repeat constructor.
Defined.

(** X12.  In an open day, a line that starts like a task line but has
    no summary after the colon and a space, or has a carriage return in
    it, makes [parseWorklog] throw a [TypeError]. *)
Theorem task_line_without_summary_throws (pre : list string) (st : PState)
    (l : string) (post : list string) :
  run init pre = Ok st ->
  is_some (currentDay st) = true ->
  task_line_re l = true ->
  task_groups_re l = None ->
  parse_lines (pre ++ l :: post) = Throw TypeError.
Proof.
  intros Hpre Hday Hre Hgroups. unfold parse_lines.
  assert (Hrun : forall a b st, run st (a ++ b) = (st' ← run st a; run st' b)).
  { induction a as [| x a IHa]; intros b st0; [reflexivity |].
    cbn [app run]. destruct (step st0 x); cbn [mbind Result_bind]; auto. }
  rewrite Hrun, Hpre. cbn [mbind Result_bind run].
  destruct (task_line_not_header l Hre) as [Hlw Hld].
  unfold step at 1. rewrite Hlw, Hld, Hday, Hre. cbn [andb].
  destruct (flushBuffer_open st) as (_ & Hd & _). rewrite <- Hd in Hday.
  destruct (currentDay (flushBuffer st)) as [d |]; [| discriminate].
  destruct (currentTask (flushBuffer st)); cbn [push_into mbind Result_bind];
    rewrite Hgroups; reflexivity.
Qed.

Lemma task_line_without_summary_throws_witness :
  parse_lines (["## Week 5"; "### 2026/01/27"]
               ++ ("- PROJ-123: Dashboard" +:+ String CR "") :: [])
  = Throw TypeError.
Proof.
  eapply (task_line_without_summary_throws ["## Week 5"; "### 2026/01/27"]).
  - vm_compute. reflexivity.
  - reflexivity.
  - vm_compute. reflexivity.
  - vm_compute. reflexivity.
Defined.

End ParserErrors.

(* ================================================================= *)
(** ** The document before and after an update *)

Module Documents.
Import JSDate WeekInfo Worklog LogWork Spec ListFacts MergeFacts GoodSections
  MergeGood.

Section Finds.
Context {A : Type}.
Implicit Types (p q : A -> bool) (f : A -> A) (l : list A).

Lemma find_alter_first_other p q f l :
  (forall x, p x = true -> q x = false /\ q (f x) = false) ->
  List.find q (alter_first p f l) = List.find q l.
Proof.
  intros Hpq. induction l as [| x l IH]; [reflexivity |]. cbn [alter_first].
  destruct (p x) eqn:Ep; cbn [List.find].
  - destruct (Hpq x Ep) as [-> ->]. reflexivity.
  - now rewrite IH.
Qed.

Lemma find_app_not q l x :
  q x = false -> List.find q (l ++ [x]) = List.find q l.
Proof.
  intros Hx. induction l as [| y l IH]; cbn; [now rewrite Hx |].
  destruct (q y); [reflexivity | exact IH].
Qed.

Lemma find_sort_insert (cmp : A -> A -> option Z) q x l :
  (forall y, In y l -> q x = true -> q y = true -> cmp_value (cmp x y) <= 0) ->
  List.find q (sort_insert cmp x l) = if q x then Some x else List.find q l.
Proof.
  induction l as [| y l IH]; intros Hc; [reflexivity |]. cbn [sort_insert].
  destruct (Z.ltb_spec 0 (cmp_value (cmp x y))) as [Hlt | Hge].
  - cbn [List.find]. destruct (q y) eqn:Ey.
    + destruct (q x) eqn:Ex; [| reflexivity].
      specialize (Hc y (or_introl eq_refl) eq_refl Ey). lia.
    + apply IH. intros z Hz. apply Hc. now right.
  - reflexivity.
Qed.

(** Sorting keeps the first element of a kind first among its kind,
    when the comparator puts no element of the kind behind another. *)
Lemma find_js_sort (cmp : A -> A -> option Z) q l :
  (forall x y, q x = true -> q y = true -> cmp_value (cmp x y) <= 0) ->
  List.find q (js_sort cmp l) = List.find q l.
Proof.
  intros Hc. induction l as [| x l IH]; [reflexivity |].
  cbn [js_sort fold_right]. fold (js_sort cmp l).
  rewrite find_sort_insert by (intros y _; apply Hc).
  cbn [List.find]. now rewrite IH.
Qed.

End Finds.

Lemma compareSections_same n' a b :
  has_number n' a = true -> has_number n' b = true ->
  cmp_value (compareSections a b) <= 0.
Proof.
  destruct a as [| a], b as [| b]; cbn; try discriminate. lia.
Qed.

Lemma compareDays_same h dh' a b :
  has_date dh' a = true -> has_date dh' b = true ->
  cmp_value (compareDays h a b) <= 0.
Proof.
  unfold has_date, compareDays, compareDates.
  intros Ha Hb. apply String.eqb_eq in Ha, Hb. rewrite Ha, Hb.
  destruct (Date_parse h (slashes_to_dashes dh')); cbn; lia.
Qed.

(** The weeks with another number, the days of another date and the
    tasks with another id are found as before. *)
Lemma find_other_week h info dh id text items secs n' :
  n' <> WeekInfo.weekNumber info ->
  find_week n' (merge_sections h info dh id text items secs) = find_week n' secs.
Proof.
  intros Hn. unfold find_week, merge_sections.
  rewrite find_alter_first_other by (intros [| w]; cbn; [discriminate | lia]).
  destruct (existsb _ secs); [reflexivity |].
  rewrite find_js_sort by apply compareSections_same.
  rewrite find_app_not by (cbn; lia). reflexivity.
Qed.

Lemma find_other_day h dh id text items ds dh' :
  dh' <> dh ->
  List.find (has_date dh') (merge_days h dh id text items ds)
  = List.find (has_date dh') ds.
Proof.
  intros Hd. unfold merge_days.
  assert (Hne : forall d, has_date dh d = true -> has_date dh' d = false).
  { unfold has_date. intros d E. apply String.eqb_eq in E.
    apply String.eqb_neq. congruence. }
  rewrite find_alter_first_other.
  - destruct (existsb _ ds); [reflexivity |].
    rewrite find_js_sort by apply compareDays_same.
    apply find_app_not. apply Hne. apply String.eqb_refl.
  - intros d E. split; [now apply Hne | now apply (Hne (set_tasks _ d))].
Qed.

Lemma find_other_task id text items ts id' :
  id' <> id ->
  List.find (has_id id') (merge_tasks id text items ts)
  = List.find (has_id id') ts.
Proof.
  intros Hi. unfold merge_tasks.
  assert (Hne : forall t, has_id id t = true -> has_id id' t = false).
  { unfold has_id. intros t E. apply String.eqb_eq in E.
    apply String.eqb_neq. congruence. }
  rewrite find_alter_first_other
    by (intros t E; split; [now apply Hne | now apply (Hne (set_task_content _ t))]).
  destruct (existsb _ ts).
  - apply find_alter_first_other.
    intros t E. split; [now apply Hne | now apply (Hne (set_summary _ t))].
  - apply find_app_not. apply Hne. apply String.eqb_refl.
Qed.



Lemma add_work_items_app items : forall c,
  exists added, add_work_items c items = c ++ added
                /\ forall w, In w items -> In (workLine w) (c ++ added).
Proof.
  induction items as [| x items IH]; intros c.
  - exists []. split; [now rewrite app_nil_r | intros w []].
  - change (add_work_items c (x :: items))
      with (add_work_items (add_work_item c x) items).
    unfold add_work_item.
    destruct (includes c (workLine x)) eqn:E.
    + destruct (IH c) as (added & Hc & Hin). exists added. split; [exact Hc |].
      intros w [<- | Hw]; [| now apply Hin].
      apply in_or_app. left. now apply includes_In.
    + destruct (IH (c ++ [workLine x])) as (added & Hc & Hin).
      exists (workLine x :: added). rewrite Hc, <- app_assoc. split; [reflexivity |].
      intros w [<- | Hw].
      * apply in_or_app. right. now left.
      * specialize (Hin w Hw). now rewrite <- app_assoc in Hin.
Qed.

Lemma flat_map_In_split {A B} (f : A -> list B) (l : list A) (x : A) :
  In x l -> exists pre post, flat_map f l = pre ++ f x ++ post.
Proof.
  intros Hin. apply in_split in Hin as (l1 & l2 & ->).
  rewrite flat_map_app. cbn [flat_map]. eauto.
Qed.

Lemma find_week_In n secs w :
  find_week n secs = Some w -> In (WeekSection w) (List.filter is_week secs).
Proof.
  intros H. apply find_week_inv in H. apply find_some in H as [H _].
  apply filter_In. split; [exact H | reflexivity].
Qed.




End Documents.

(* ================================================================= *)
(** ** Week numbers from week to week *)

Module Weeks.
Import JSDate WeekInfo Spec Calendar CalendarRanges DateStrings.

Lemma week_thursday_next day : week_thursday (day + 7) = week_thursday day + 7.
Proof. unfold week_thursday, week_monday, weekday_of_day. zdiv. Qed.

Lemma week_thursday_is_thursday day : (week_thursday day + 4) mod 7 = 4.
Proof. unfold week_thursday, week_monday, weekday_of_day. zdiv. Qed.

Lemma week_thursday_same day day' :
  week_monday day = week_monday day' -> iso_week day = iso_week day'.
Proof. unfold iso_week, week_thursday. now intros ->. Qed.

(** From one week to the next, the ISO week number goes up by one or
    starts again at 1. *)
Lemma iso_week_next day :
  iso_week (day + 7) = iso_week day + 1 \/ iso_week (day + 7) = 1.
Proof.
  unfold iso_week. rewrite week_thursday_next.
  pose proof (week_thursday_is_thursday day) as Hth.
  set (th := week_thursday day) in *. clearbody th.
  pose proof (YearFromDay_spec th) as [Hlo Hhi].
  set (y := YearFromDay th) in *.
  pose proof (DayFromYear_succ y) as Hy. pose proof (DaysInYear_cases y) as Hdy.
  pose proof (DayFromYear_succ (y + 1)) as Hy1.
  pose proof (DaysInYear_cases (y + 1)) as Hdy1.
  destruct (Z_lt_ge_dec (th + 7) (DayFromYear (y + 1))) as [Hsame | Hnext].
  - left. assert (E : YearFromDay (th + 7) = y).
    { apply Z.le_antisymm; [apply YearFromDay_upper; lia |].
      apply YearFromDay_lower. lia. }
    rewrite E. unfold first_thursday, weekday_of_day.
    set (jan1 := DayFromYear y) in *. clearbody jan1. zdiv.
  - right. assert (E : YearFromDay (th + 7) = y + 1).
    { apply Z.le_antisymm; [apply YearFromDay_upper; lia |].
      apply YearFromDay_lower. lia. }
    rewrite E. unfold first_thursday, weekday_of_day.
    set (jan1 := DayFromYear (y + 1)) in *. clearbody jan1. zdiv.
Qed.

(** X16.  For dates whose local years are not one of -1 to 100: two
    dates of the same Monday-to-Sunday week have the same week number, and
    the date seven days later has the next week number or week number 1. *)
Theorem week_numbers_follow_weeks (h : Host) (t t' : Z) :
  ~ (-1 <= getFullYear h t <= 100) ->
  ~ (-1 <= getFullYear h t' <= 100) ->
  (week_monday (Day (LocalTime h t)) = week_monday (Day (LocalTime h t')) ->
   getWeekNumber h t' = getWeekNumber h t)
  /\ (t' = t + 7 * msPerDay ->
      getWeekNumber h t' = getWeekNumber h t + 1 \/ getWeekNumber h t' = 1).
Proof.
  intros Hy Hy'.
  rewrite (getWeekNumber_local_iso h t Hy), (getWeekNumber_local_iso h t' Hy').
  split.
  - intros Hweek. symmetry. now apply week_thursday_same.
  - intros ->.
    replace (Day (LocalTime h (t + 7 * msPerDay))) with (Day (LocalTime h t) + 7)
      by (unfold LocalTime, Day, msPerDay; zdiv).
    apply iso_week_next.
Qed.

Lemma week_numbers_follow_weeks_witness :
  getWeekNumber utc_host (1769558400000 + 7 * msPerDay)
  = getWeekNumber utc_host 1769558400000 + 1
  \/ getWeekNumber utc_host (1769558400000 + 7 * msPerDay) = 1.
Proof.
  destruct (week_numbers_follow_weeks utc_host 1769558400000
              (1769558400000 + 7 * msPerDay)) as [_ Hnext].
  - vm_compute. intros [_ H]. now apply H.
  - vm_compute. intros [_ H]. now apply H.
  - now apply Hnext.
Defined.

End Weeks.

(* ================================================================= *)
(** ** parse_task_input.cjs *)

Module TaskInputFacts.
Import WeekInfo TaskInput Spec StringFacts RoundTrip GoodSections.

Lemma span_append f a b :
  str_forall f a = true -> starts_with (fun c => negb (f c)) b = true ->
  span f (a +:+ b) = (a, b).
Proof.
  intros Ha Hb. induction a as [| c a IH].
  - rewrite app_nil. destruct b as [| c b]; [reflexivity |].
    cbn [starts_with] in Hb. cbn [span]. now destruct (f c).
  - cbn [str_forall] in Ha. apply andb_prop in Ha as [Hc Ha].
    rewrite app_cons. cbn [span]. now rewrite Hc, (IH Ha).
Qed.

Lemma plus_inv f s a b :
  plus f s = Some (a, b) ->
  s = a +:+ b /\ str_empty a = false /\ str_forall f a = true.
Proof.
  intros H. pose proof (plus_app f s a b H) as Happ. unfold plus in H.
  destruct (span f s) as [a' b'] eqn:E. destruct (str_empty a') eqn:Ea; [discriminate |].
  injection H as <- <-. pose proof (span_forall f s a' b' E). auto.
Qed.

(** A line that is an id is letters, a dash and digits. *)
Lemma jiraIdMatch_inv line id :
  jiraIdMatch line = Some id ->
  exists letters digits,
    line = letters +:+ "-" +:+ digits /\ id = line
    /\ str_empty letters = false /\ str_forall is_upper letters = true
    /\ str_empty digits = false /\ str_forall is_digit digits = true.
Proof.
  unfold jiraIdMatch, jira_id_prefix.
  destruct (plus is_upper line) as [[letters r1] |] eqn:E1; [| discriminate].
  cbn [mbind option_bind].
  destruct (then_char "-" r1) as [r2 |] eqn:E2; [| discriminate].
  cbn [mbind option_bind].
  destruct (plus is_digit r2) as [[digits r3] |] eqn:E3; [| discriminate].
  cbn [mbind option_bind]. destruct r3; [| discriminate]. cbn [str_empty].
  intros [= <-].
  apply plus_inv in E1 as (-> & Hl1 & Hl2). apply then_char_Some in E2 as ->.
  apply plus_inv in E3 as (-> & Hd1 & Hd2).
  exists letters, digits.
  assert (E : digits +:+ "" = digits).
  { clear. induction digits as [| c d IH]; [reflexivity |].
    rewrite app_cons. now rewrite IH. }
  rewrite E. auto 10.
Qed.

Lemma jira_id_prefix_app id r :
  jiraIdMatch id = Some id ->
  starts_with (fun c => negb (is_digit c)) r = true ->
  jira_id_prefix (id +:+ r) = Some (id, r).
Proof.
  intros Hid Hr. apply jiraIdMatch_inv in Hid
    as (letters & digits & E & _ & Hl1 & Hl2 & Hd1 & Hd2).
  rewrite E. unfold jira_id_prefix, plus.
  rewrite !append_assoc.
  rewrite (span_append is_upper letters) by (try assumption; reflexivity).
  rewrite Hl1. cbn [mbind option_bind]. rewrite app_cons, app_nil.
  cbn [then_char]. change (Ascii.eqb "-" "-") with true.
  cbn [mbind option_bind].
  rewrite (span_append is_digit digits r) by assumption.
  rewrite Hd1. reflexivity.
Qed.

Lemma trimEnd_app a b :
  str_empty (trimEnd b) = false -> trimEnd (a +:+ b) = a +:+ trimEnd b.
Proof.
  intros Hb. induction a as [| c a IH]; [reflexivity |].
  rewrite !app_cons. cbn [trimEnd]. rewrite IH.
  destruct (a +:+ trimEnd b) eqn:E; [| reflexivity].
  destruct a; [| discriminate]. rewrite app_nil in E. now rewrite E in Hb.
Qed.

Lemma trimStart_start s :
  starts_with (fun c => negb (is_space c)) s = true -> trimStart s = s.
Proof.
  destruct s as [| c s]; [reflexivity |]. cbn [starts_with]. unfold trimStart.
  cbn [span]. now destruct (is_space c).
Qed.

Lemma upper_not_space c : is_upper c = true -> is_space c = false.
Proof.
  unfold is_upper, is_space. intros H. apply andb_prop in H as [H1 H2].
  apply Nat.leb_le in H1, H2.
  destruct (Nat.leb_spec 9 (nat_of_ascii c)), (Nat.leb_spec (nat_of_ascii c) 13),
    (Nat.eqb_spec (nat_of_ascii c) 32), (Nat.eqb_spec (nat_of_ascii c) 160);
    cbn; try reflexivity; lia.
Qed.

Lemma digit_not_space c : is_digit c = true -> is_space c = false.
Proof.
  unfold is_digit, is_space. intros H. apply andb_prop in H as [H1 H2].
  apply Nat.leb_le in H1, H2.
  destruct (Nat.leb_spec 9 (nat_of_ascii c)), (Nat.leb_spec (nat_of_ascii c) 13),
    (Nat.eqb_spec (nat_of_ascii c) 32), (Nat.eqb_spec (nat_of_ascii c) 160);
    cbn; try reflexivity; lia.
Qed.

Lemma trimEnd_digits d :
  str_forall is_digit d = true -> trimEnd d = d.
Proof.
  induction d as [| c d IH]; [reflexivity |]. cbn [str_forall trimEnd].
  intros H. apply andb_prop in H as [Hc Hd]. rewrite (IH Hd).
  now rewrite (digit_not_space c Hc), andb_false_r.
Qed.

(** An id has no white space at its ends and no line feed in it. *)
Lemma jira_id_trim id :
  jiraIdMatch id = Some id ->
  trimStart id = id /\ trimEnd id = id /\ str_empty id = false
  /\ str_forall not_LF id = true.
Proof.
  intros Hid. apply jiraIdMatch_inv in Hid
    as (letters & digits & E & _ & Hl1 & Hl2 & Hd1 & Hd2).
  rewrite E. repeat split.
  - apply trimStart_start. destruct letters as [| c l]; [discriminate |].
    rewrite app_cons. cbn [starts_with str_forall] in *.
    apply andb_prop in Hl2 as [Hc _]. now rewrite (upper_not_space c Hc).
  - pose proof (trimEnd_digits digits Hd2) as Hd.
    assert (H2 : trimEnd ("-" +:+ digits) = "-" +:+ digits).
    { rewrite trimEnd_app; rewrite Hd; [reflexivity | exact Hd1]. }
    rewrite trimEnd_app; rewrite H2; reflexivity.
  - now destruct letters.
  - rewrite !str_forall_app.
    rewrite (str_forall_impl is_upper not_LF letters upper_not_LF Hl2).
    rewrite (str_forall_impl is_digit not_LF digits digit_not_LF Hd2).
    reflexivity.
Qed.

Lemma span_snd_length f s : (String.length (snd (span f s)) <= String.length s)%nat.
Proof.
  induction s as [| c s IH]; [reflexivity |]. cbn [span].
  destruct (f c); [| reflexivity].
  destruct (span f s) as [a b]. cbn [snd String.length] in *. lia.
Qed.

Lemma trimStart_fixed s :
  trimStart s = s -> starts_with (fun c => negb (is_space c)) s = true.
Proof.
  destruct s as [| c s]; [reflexivity |]. unfold trimStart. cbn [span starts_with].
  destruct (is_space c); [| reflexivity].
  pose proof (span_snd_length is_space s) as Hlen.
  destruct (span is_space s) as [a b]. cbn [snd] in *.
  intros E. rewrite E in Hlen. cbn [String.length] in Hlen. lia.
Qed.

Lemma trim_fixed s : trimStart s = s -> trimEnd s = s -> trim s = s.
Proof. unfold trim. now intros -> ->. Qed.

Lemma trim_empty : trim "" = "".
Proof. reflexivity. Qed.

Lemma clean_summary_not_LF s : clean_summary s -> str_forall not_LF s = true.
Proof.
  intros (_ & _ & _ & H). eapply str_forall_impl; [exact dot_not_LF | exact H].
Qed.

(** The lines of an id and a summary on one line, and on two. *)
Lemma input_lines_one id s :
  jiraIdMatch id = Some id -> clean_summary s ->
  input_lines (id +:+ " " +:+ s) = [id +:+ " " +:+ s].
Proof.
  intros Hid Hs. destruct (jira_id_trim id Hid) as (Hi1 & Hi2 & Hi3 & Hi4).
  pose proof (clean_summary_not_LF s Hs) as Hlf.
  destruct Hs as (Hs1 & Hs2 & Hs3 & Hs4).
  assert (Htrim : trim (id +:+ " " +:+ s) = id +:+ " " +:+ s).
  { apply trim_fixed.
    - apply trimStart_start. apply trimStart_fixed in Hi1.
      destruct id; [discriminate | exact Hi1].
    - rewrite <- append_assoc, trimEnd_app; rewrite Hs3; [reflexivity | exact Hs1]. }
  unfold input_lines. rewrite Htrim, split_lines_one.
  - cbn [map List.filter]. rewrite Htrim. now destruct id.
  - rewrite !str_forall_app, Hi4, Hlf. reflexivity.
Qed.

Lemma input_lines_two a b :
  str_empty a = false -> trimStart a = a -> trimEnd a = a ->
  str_forall not_LF a = true ->
  str_empty b = false -> trimStart b = b -> trimEnd b = b ->
  str_forall not_LF b = true ->
  input_lines (a +:+ String LF b) = [a; b].
Proof.
  intros Ha1 Ha2 Ha3 Ha4 Hb1 Hb2 Hb3 Hb4.
  assert (Htrim : trim (a +:+ String LF b) = a +:+ String LF b).
  { apply trim_fixed.
    - apply trimStart_start. apply trimStart_fixed in Ha2.
      destruct a; [discriminate | exact Ha2].
    - rewrite trimEnd_app; cbn [trimEnd]; rewrite Hb3, Hb1; reflexivity. }
  unfold input_lines. rewrite Htrim, split_lines_app_LF by exact Ha4.
  rewrite split_lines_one by exact Hb4. cbn [map List.filter].
  rewrite !trim_fixed by assumption. now rewrite Ha1, Hb1.
Qed.

(** X17.  A task given as [ID summary] on one line is read as one task
    with that id and summary; given as the id on one line and the summary
    on the next, it is read as the same task, when the summary does not
    itself look like an id or like an id with a summary. *)
Theorem one_line_and_two_lines (id s : string) :
  jiraIdMatch id = Some id -> clean_summary s ->
  parseTaskInput (id +:+ " " +:+ s)
  = ([{| trackingId := Some id; summary := Some s |}], [])
  /\ (jiraIdMatch s = None -> oneLineMatch s = None ->
      parseTaskInput (id +:+ String LF s)
      = ([{| trackingId := Some id; summary := Some s |}], [])).
Proof.
  intros Hid Hs. destruct (jira_id_trim id Hid) as (Hi1 & Hi2 & Hi3 & Hi4).
  pose proof (clean_summary_not_LF s Hs) as Hlf. split.
  - unfold parseTaskInput. rewrite (input_lines_one id s Hid Hs).
    destruct Hs as (Hs1 & Hs2 & Hs3 & Hs4).
    assert (Hpre : jira_id_prefix (id +:+ " " +:+ s) = Some (id, " " +:+ s))
      by now apply jira_id_prefix_app.
    cbn [fold_left]. unfold step, jiraIdMatch, oneLineMatch. rewrite Hpre.
    cbn [mbind option_bind]. rewrite app_cons, app_nil. cbn [str_empty].
    change (String " " s) with (" " +:+ s).
    rewrite (span_append is_space " " s) by (try reflexivity; now apply trimStart_fixed).
    cbn [str_empty]. rewrite Hs1, Hs4. reflexivity.
  - intros Hno1 Hno2. destruct Hs as (Hs1 & Hs2 & Hs3 & Hs4).
    unfold parseTaskInput. rewrite input_lines_two by assumption.
    cbn [fold_left]. unfold step at 2. rewrite Hid.
    unfold step. rewrite Hno1, Hno2. reflexivity.
Qed.

Lemma one_line_and_two_lines_witness :
  parseTaskInput "PROJ-123 [FE] Dashboard: Automations"
  = ([{| trackingId := Some "PROJ-123";
         summary := Some "[FE] Dashboard: Automations" |}], [])
  /\ parseTaskInput ("PROJ-123" +:+ String LF "[FE] Dashboard: Automations")
     = ([{| trackingId := Some "PROJ-123";
            summary := Some "[FE] Dashboard: Automations" |}], []).
Proof.
  destruct (one_line_and_two_lines "PROJ-123" "[FE] Dashboard: Automations")
    as [H1 H2]; [reflexivity | repeat split |].
  split; [exact H1 | apply H2; reflexivity].
Defined.

(** X18.  An id on a line of its own that is followed by another such
    line is returned as a task without a summary, while an id on the last
    line is not returned: a warning is written for it. *)
Theorem id_after_id (a b : string) :
  jiraIdMatch a = Some a -> jiraIdMatch b = Some b ->
  parseTaskInput (a +:+ String LF b)
  = ([{| trackingId := Some a; summary := None |}],
     ["Warning: JIRA ID " +:+ b +:+ " has no summary"]).
Proof.
  intros Ha Hb.
  destruct (jira_id_trim a Ha) as (Ha1 & Ha2 & Ha3 & Ha4).
  destruct (jira_id_trim b Hb) as (Hb1 & Hb2 & Hb3 & Hb4).
  unfold parseTaskInput. rewrite input_lines_two by assumption.
  cbn [fold_left]. unfold step at 2. rewrite Ha. unfold step. rewrite Hb.
  reflexivity.
Qed.

Lemma id_after_id_witness :
  parseTaskInput ("PROJ-123" +:+ String LF "PROJ-124")
  = ([{| trackingId := Some "PROJ-123"; summary := None |}],
     ["Warning: JIRA ID PROJ-124 has no summary"]).
Proof. apply (id_after_id "PROJ-123" "PROJ-124"); reflexivity. Defined.

Lemma input_lines_nonempty input :
  Forall (fun l => str_empty l = false) (input_lines input).
Proof.
  unfold input_lines. apply List.Forall_forall. intros l Hl.
  apply filter_In in Hl as [_ Hl]. now apply negb_true_iff in Hl.
Qed.

Lemma step_has_text st line :
  str_empty line = false ->
  Forall (fun t => task_has_text t = true) (tasks st) ->
  (forall t, currentTask st = Some t -> is_some (trackingId t) = true) ->
  Forall (fun t => task_has_text t = true) (tasks (step st line))
  /\ (forall t, currentTask (step st line) = Some t ->
               is_some (trackingId t) = true).
Proof.
  intros Hline Htasks Hcur.
  assert (Hpush : Forall (fun t => task_has_text t = true) (push_current st)).
  { unfold push_current. destruct (currentTask st) as [t |] eqn:E; [| exact Htasks].
    apply Forall_snoc; [exact Htasks |]. unfold task_has_text.
    now rewrite (Hcur t eq_refl). }
  assert (Hnew : forall o, task_has_text {| trackingId := o; summary := Some line |}
                           = true).
  { intros o. unfold task_has_text. cbn. rewrite Hline. apply orb_true_r. }
  unfold step. destruct (jiraIdMatch line) as [id |].
  { cbn. split; [exact Hpush |]. now intros t [= <-]. }
  destruct (oneLineMatch line) as [[id text] |].
  { cbn. split; [| discriminate]. apply Forall_snoc; [exact Hpush | reflexivity]. }
  destruct (currentTask st) as [t |] eqn:E.
  - destruct (negb (truthy (summary t))); cbn.
    + split; [| discriminate]. apply Forall_snoc; [exact Htasks | apply Hnew].
    + split; [apply Forall_snoc; [exact Htasks | apply Hnew] |].
      intros t' [= <-]. now apply Hcur.
  - cbn. split; [| discriminate]. apply Forall_snoc; [exact Htasks | apply Hnew].
Qed.

(** X19.  Whatever the input is, every task that [parseTaskInput]
    returns has a tracking id or a summary that is not empty; for an
    input of white space only it returns no task and writes no warning. *)
Theorem tasks_have_text (input : string) :
  Forall (fun t => task_has_text t = true) (parseTaskInput input).1
  /\ (str_forall is_space input = true -> parseTaskInput input = ([], [])).
Proof.
  split.
  - unfold parseTaskInput.
    pose proof (input_lines_nonempty input) as Hlines.
    set (st0 := {| tasks := []; currentTask := None |}).
    assert (H0 : Forall (fun t => task_has_text t = true) (tasks st0)
                 /\ (forall t, currentTask st0 = Some t ->
                               is_some (trackingId t) = true))
      by (split; [constructor | discriminate]).
    revert H0. generalize st0.
    induction Hlines as [| l ls Hl _ IH]; intros st [H1 H2]; cbn [fold_left].
    + unfold finish. destruct (currentTask st) as [t |] eqn:E; [| exact H1].
      destruct (truthy (summary t)); cbn [fst]; [| exact H1].
      apply Forall_snoc; [exact H1 |]. unfold task_has_text.
      now rewrite (H2 t eq_refl).
    + apply IH. now apply step_has_text.
  - intros Hblank. unfold parseTaskInput, input_lines.
    assert (E : trim input = "").
    { unfold trim, trimStart. clear - Hblank.
      induction input as [| c s IH]; [reflexivity |].
      cbn [str_forall] in Hblank. apply andb_prop in Hblank as [Hc Hs].
      cbn [span]. rewrite Hc. specialize (IH Hs).
      destruct (span is_space s) as [a b]. exact IH. }
    rewrite E. reflexivity.
Qed.

Lemma tasks_have_text_witness :
  parseTaskInput (String " " (String LF "")) = ([], []).
Proof.
  apply (proj2 (tasks_have_text (String " " (String LF "")))). reflexivity.
Defined.

End TaskInputFacts.

(* ================================================================= *)
(** ** generate_filename.cjs *)

Module FilenameFacts.
Import JSDate WeekInfo TaskInput Filename Spec StringFacts TaskInputFacts
  Calendar.

Ltac every_char c := destruct c as [[] [] [] [] [] [] [] []]; try reflexivity.

Lemma to_lower_not_upper c : is_upper (to_lower c) = false.
Proof. every_char c. Qed.

Lemma kebab_char_lower c : kebab_char c = true -> to_lower c = c.
Proof. every_char c; discriminate. Qed.

Lemma kebab_char_not_space c : kebab_char c = true -> is_space c = false.
Proof. every_char c; discriminate. Qed.

Lemma kebab_char_kept c :
  kebab_char c = true -> is_word c || is_space c || is_dash c = true.
Proof. every_char c; discriminate. Qed.

Lemma kept_not_upper c :
  is_word c || is_space c || is_dash c = true -> is_upper c = false ->
  is_space c = false -> kebab_char c = true.
Proof. every_char c; discriminate. Qed.

Lemma is_dash_eq c : is_dash c = true -> c = "-"%char.
Proof. unfold is_dash. apply Ascii.eqb_eq. Qed.

Lemma dash_kebab_char : kebab_char "-" = true.
Proof. reflexivity. Qed.

Lemma toLowerCase_not_upper s :
  str_forall (fun c => negb (is_upper c)) (toLowerCase s) = true.
Proof.
  induction s as [| c s IH]; [reflexivity |]. cbn [toLowerCase str_forall].
  now rewrite to_lower_not_upper, IH.
Qed.

Lemma filter_kept keep g s :
  str_forall g s = true ->
  str_forall (fun c => keep c && g c) (str_filter keep s) = true.
Proof.
  induction s as [| c s IH]; [reflexivity |]. cbn [str_forall str_filter].
  intros H. apply andb_prop in H as [Hc Hs].
  destruct (keep c) eqn:E; [| now apply IH].
  cbn [str_forall]. now rewrite E, Hc, IH.
Qed.

Lemma squeeze_space_chars s : forall b,
  str_forall (fun c => (is_word c || is_space c || is_dash c)
                       && negb (is_upper c)) s = true ->
  str_forall kebab_char (squeeze is_space b s) = true.
Proof.
  induction s as [| c s IH]; intros b; [reflexivity |].
  cbn [str_forall squeeze]. intros H. apply andb_prop in H as [Hc Hs].
  apply andb_prop in Hc as [Hk Hu]. apply negb_true_iff in Hu.
  pose proof (kept_not_upper c Hk Hu) as Hkeb.
  destruct (is_space c).
  - destruct b; [now apply IH |]. cbn [str_forall]. now rewrite IH.
  - cbn [str_forall]. now rewrite (Hkeb eq_refl), IH.
Qed.

Lemma squeeze_dash_chars s : forall b,
  str_forall kebab_char s = true ->
  str_forall kebab_char (squeeze is_dash b s) = true.
Proof.
  induction s as [| c s IH]; intros b; [reflexivity |].
  cbn [str_forall squeeze]. intros H. apply andb_prop in H as [Hc Hs].
  destruct (is_dash c).
  - destruct b; [now apply IH |]. cbn [str_forall]. now rewrite IH.
  - cbn [str_forall]. now rewrite Hc, IH.
Qed.

(** Squeezing the dashes leaves no two in a row; behind a dash the
    result does not start with one. *)
Lemma squeeze_dash_shape s : forall b,
  no_double_dash (squeeze is_dash b s) = true
  /\ (b = true -> starts_with not_dash (squeeze is_dash b s) = true).
Proof.
  induction s as [| c s IH]; intros b; [now split |]. cbn [squeeze].
  destruct (is_dash c) eqn:E.
  - destruct b.
    + apply IH.
    + destruct (IH true) as [H1 H2]. split; [| discriminate].
      cbn [no_double_dash]. change (is_dash "-") with true. cbv iota.
      now rewrite H1, H2.
  - destruct (IH false) as [H1 _]. split.
    + cbn [no_double_dash]. now rewrite E, H1.
    + intros _. cbn [starts_with]. unfold not_dash. now rewrite E.
Qed.

Lemma no_double_dash_tail c s :
  no_double_dash (String c s) = true -> no_double_dash s = true.
Proof. cbn [no_double_dash]. intros H. now apply andb_prop in H as [_ H]. Qed.

Lemma drop_first_dash_shape s :
  str_forall kebab_char s = true -> no_double_dash s = true ->
  str_forall kebab_char (drop_first_dash s) = true
  /\ no_double_dash (drop_first_dash s) = true
  /\ starts_with not_dash (drop_first_dash s) = true.
Proof.
  destruct s as [| c s]; [now repeat split |]. cbn [drop_first_dash].
  intros Hc Hd. destruct (is_dash c) eqn:E.
  - cbn [str_forall no_double_dash] in *. rewrite E in Hd.
    apply andb_prop in Hc as [_ Hc]. apply andb_prop in Hd as [Hs Hd]. auto.
  - repeat split; try assumption. cbn [starts_with]. unfold not_dash. now rewrite E.
Qed.

Lemma drop_last_dash_cons c c' r :
  drop_last_dash (String c (String c' r)) = String c (drop_last_dash (String c' r)).
Proof. reflexivity. Qed.

Lemma drop_last_dash_shape s :
  str_forall kebab_char s = true -> no_double_dash s = true ->
  str_forall kebab_char (drop_last_dash s) = true
  /\ no_double_dash (drop_last_dash s) = true
  /\ (starts_with not_dash s = true ->
      starts_with not_dash (drop_last_dash s) = true)
  /\ ends_with not_dash (drop_last_dash s) = true.
Proof.
  induction s as [| c s IH]; [now repeat split |]. intros Hc Hd.
  destruct s as [| c' r].
  - cbn [drop_last_dash]. destruct (is_dash c) eqn:E; [now repeat split |].
    repeat split; try assumption; try (intros H; exact H).
    unfold ends_with, not_dash. cbn. now rewrite E.
  - rewrite drop_last_dash_cons.
    pose proof (no_double_dash_tail _ _ Hd) as Hd'.
    assert (Hc' : str_forall kebab_char (String c' r) = true).
    { cbn [str_forall] in Hc. now apply andb_prop in Hc as [_ Hc]. }
    destruct (IH Hc' Hd') as (H1 & H2 & H3 & H4).
    assert (Hkc : kebab_char c = true).
    { cbn [str_forall] in Hc. now apply andb_prop in Hc as [Hc _]. }
    assert (Hfirst : is_dash c = true -> starts_with not_dash (String c' r) = true).
    { intros E. cbn [no_double_dash] in Hd. rewrite E in Hd.
      now apply andb_prop in Hd as [Hd _]. }
    repeat split.
    + cbn [str_forall]. now rewrite Hkc, H1.
    + cbn [no_double_dash]. rewrite H2, andb_true_r.
      destruct (is_dash c) eqn:E; [| reflexivity]. apply H3. now apply Hfirst.
    + intros Hs. exact Hs.
    + unfold ends_with in *.
      destruct (drop_last_dash (String c' r)) as [| d x] eqn:Ex.
      * cbn [last_char]. unfold not_dash. destruct (is_dash c) eqn:E; [| reflexivity].
        specialize (Hfirst eq_refl). cbn [starts_with] in Hfirst.
        destruct r as [| c'' r']; [| discriminate].
        cbn [drop_last_dash] in Ex. unfold not_dash in Hfirst.
        destruct (is_dash c'); discriminate.
      * exact H4.
Qed.

Lemma toKebabCase_is_kebab (str : string) : kebab (toKebabCase str) = true.
Proof.
  unfold toKebabCase, strip_dashes.
  set (a := str_filter _ (toLowerCase (trim str))).
  assert (Ha : str_forall (fun c => (is_word c || is_space c || is_dash c)
                                    && negb (is_upper c)) a = true)
    by apply filter_kept, toLowerCase_not_upper.
  pose proof (squeeze_space_chars a false Ha) as Hb.
  set (b := squeeze is_space false a) in *.
  pose proof (squeeze_dash_chars b false Hb) as Hc.
  destruct (squeeze_dash_shape b false) as [Hd _].
  set (c := squeeze is_dash false b) in *.
  destruct (drop_first_dash_shape c Hc Hd) as (H1 & H2 & H3).
  destruct (drop_last_dash_shape _ H1 H2) as (K1 & K2 & K3 & K4).
  unfold kebab. now rewrite K1, K2, (K3 H3), K4.
Qed.

Lemma kebab_inv k :
  kebab k = true ->
  str_forall kebab_char k = true /\ no_double_dash k = true
  /\ starts_with not_dash k = true /\ ends_with not_dash k = true.
Proof.
  unfold kebab. intros H. apply andb_prop in H as [H H4].
  apply andb_prop in H as [H H3]. apply andb_prop in H as [H1 H2]. auto.
Qed.

Lemma trimEnd_no_space k :
  str_forall kebab_char k = true -> trimEnd k = k.
Proof.
  induction k as [| c k IH]; [reflexivity |]. cbn [str_forall trimEnd].
  intros H. apply andb_prop in H as [Hc Hk]. rewrite (IH Hk).
  now rewrite (kebab_char_not_space c Hc), andb_false_r.
Qed.

Lemma toLowerCase_kebab k :
  str_forall kebab_char k = true -> toLowerCase k = k.
Proof.
  induction k as [| c k IH]; [reflexivity |]. cbn [str_forall toLowerCase].
  intros H. apply andb_prop in H as [Hc Hk].
  now rewrite (kebab_char_lower c Hc), (IH Hk).
Qed.

Lemma str_filter_kebab k :
  str_forall kebab_char k = true ->
  str_filter (fun c => is_word c || is_space c || is_dash c) k = k.
Proof.
  induction k as [| c k IH]; [reflexivity |]. cbn [str_forall str_filter].
  intros H. apply andb_prop in H as [Hc Hk].
  now rewrite (kebab_char_kept c Hc), (IH Hk).
Qed.

Lemma squeeze_space_kebab k : forall b,
  str_forall kebab_char k = true -> squeeze is_space b k = k.
Proof.
  induction k as [| c k IH]; intros b; [reflexivity |]. cbn [str_forall squeeze].
  intros H. apply andb_prop in H as [Hc Hk].
  now rewrite (kebab_char_not_space c Hc), (IH false Hk).
Qed.

Lemma squeeze_dash_kebab k : forall b,
  no_double_dash k = true -> (b = true -> starts_with not_dash k = true) ->
  squeeze is_dash b k = k.
Proof.
  induction k as [| c k IH]; intros b Hd Hb; [reflexivity |].
  cbn [squeeze]. pose proof (no_double_dash_tail _ _ Hd) as Hd'.
  destruct (is_dash c) eqn:E.
  - destruct b.
    + specialize (Hb eq_refl). cbn [starts_with] in Hb. unfold not_dash in Hb.
      now rewrite E in Hb.
    + cbn [no_double_dash] in Hd. rewrite E in Hd.
      apply andb_prop in Hd as [Hs _].
      rewrite (IH true Hd' (fun _ => Hs)). now rewrite (is_dash_eq c E).
  - now rewrite (IH false Hd') by discriminate.
Qed.

Lemma drop_first_dash_kebab k :
  starts_with not_dash k = true -> drop_first_dash k = k.
Proof.
  destruct k as [| c k]; [reflexivity |]. cbn [starts_with drop_first_dash].
  unfold not_dash. now destruct (is_dash c).
Qed.

Lemma drop_last_dash_kebab k :
  ends_with not_dash k = true -> drop_last_dash k = k.
Proof.
  induction k as [| c k IH]; [reflexivity |]. destruct k as [| c' r].
  - unfold ends_with, not_dash. cbn. now destruct (is_dash c).
  - intros H. rewrite drop_last_dash_cons. f_equal. now apply IH.
Qed.

Lemma toKebabCase_kebab k : kebab k = true -> toKebabCase k = k.
Proof.
  intros H. apply kebab_inv in H as (H1 & H2 & H3 & H4).
  unfold toKebabCase, strip_dashes, trim.
  assert (Hstart : trimStart k = k).
  { apply trimStart_start. destruct k as [| c k]; [reflexivity |].
    cbn [starts_with str_forall] in *. apply andb_prop in H1 as [Hc _].
    now rewrite (kebab_char_not_space c Hc). }
  rewrite Hstart, (trimEnd_no_space k H1), (toLowerCase_kebab k H1),
    (str_filter_kebab k H1), (squeeze_space_kebab k false H1),
    (squeeze_dash_kebab k false H2) by discriminate.
  now rewrite (drop_first_dash_kebab k H3), (drop_last_dash_kebab k H4).
Qed.

(** X20.  Whatever the text is, [toKebabCase] gives a name of small
    letters, digits, underscores and dashes that neither starts nor ends
    with a dash and has no two dashes in a row; and on such a name
    [toKebabCase] changes nothing, so it is idempotent. *)
Theorem toKebabCase_shape (str : string) :
  let k := toKebabCase str in
  str_forall kebab_char k = true /\ no_double_dash k = true
  /\ starts_with not_dash k = true /\ ends_with not_dash k = true
  /\ toKebabCase k = k.
Proof.
  intros k. pose proof (toKebabCase_is_kebab str) as Hk. fold k in Hk.
  destruct (kebab_inv k Hk) as (H1 & H2 & H3 & H4).
  repeat split; try assumption. now apply toKebabCase_kebab.
Qed.

Lemma first_chars_shape n : forall s,
  str_forall kebab_char s = true -> no_double_dash s = true ->
  str_forall kebab_char (first_chars n s) = true
  /\ no_double_dash (first_chars n s) = true
  /\ (starts_with not_dash s = true -> starts_with not_dash (first_chars n s) = true)
  /\ (String.length (first_chars n s) <= n)%nat
  /\ ((String.length s <= n)%nat -> first_chars n s = s).
Proof.
  unfold first_chars.
  induction n as [| n IH]; intros s Hc Hd.
  - destruct s; cbn; repeat split; auto; try lia.
  - destruct s as [| c s]; [cbn; repeat split; auto; lia |].
    cbn [substring]. cbn [str_forall] in Hc. apply andb_prop in Hc as [Hc Hs].
    pose proof (no_double_dash_tail _ _ Hd) as Hd'.
    destruct (IH s Hs Hd') as (H1 & H2 & H3 & H4 & H5).
    repeat split.
    + cbn [str_forall]. now rewrite Hc, H1.
    + cbn [no_double_dash]. rewrite H2, andb_true_r.
      destruct (is_dash c) eqn:E; [| reflexivity]. apply H3.
      cbn [no_double_dash] in Hd. rewrite E in Hd.
      now apply andb_prop in Hd as [Hd _].
    + intros H. exact H.
    + cbn [String.length]. lia.
    + cbn [String.length]. intros H. f_equal. apply H5. lia.
Qed.

Lemma drop_last_dash_length s :
  (String.length (drop_last_dash s) <= String.length s)%nat.
Proof.
  induction s as [| c s IH]; [reflexivity |]. destruct s as [| c' r].
  - cbn. destruct (is_dash c); cbn; lia.
  - rewrite drop_last_dash_cons. cbn [String.length] in *. lia.
Qed.

Lemma str_filter_app f a b :
  str_filter f (a +:+ b) = str_filter f a +:+ str_filter f b.
Proof.
  induction a as [| c a IH]; [reflexivity |]. rewrite app_cons.
  cbn [str_filter]. destruct (f c); [rewrite app_cons |]; now rewrite IH.
Qed.

Lemma str_filter_digits s :
  str_forall is_digit s = true -> str_filter (fun c => negb (is_dash c)) s = s.
Proof.
  induction s as [| c s IH]; [reflexivity |]. cbn [str_forall str_filter].
  intros H. apply andb_prop in H as [Hc Hs].
  assert (E : is_dash c = false) by (revert Hc; every_char c; discriminate).
  now rewrite E, (IH Hs).
Qed.

(** The date id of a time whose year in UTC has four digits: eight
    digits. *)
Lemma date_id_digits now :
  0 <= YearFromTime now <= 9999 ->
  let d := str_filter (fun c => negb (is_dash c)) (toISOString_10 now) in
  String.length d = 8%nat /\ str_forall is_digit d = true.
Proof.
  intros Hy.
  assert (Hs : toISOString_10 now
               = padStart0 4 (dec (YearFromTime now)) +:+ "-"
                 +:+ padStart0 2 (dec (MonthFromTime now + 1))
                 +:+ "-" +:+ padStart0 2 (dec (DateFromTime now))).
  { unfold toISOString_10.
    destruct (Z.leb_spec 0 (YearFromTime now)),
      (Z.leb_spec (YearFromTime now) 9999); try lia. reflexivity. }
  destruct (DateStrings.four_digits_of_inv _ _ (Digits.pad_four_digits _ Hy))
    as [HY _].
  destruct (DateStrings.month_and_date_digits now) as [[HM _] [HD _]].
  cbv zeta. rewrite Hs, !str_filter_app.
  rewrite (str_filter_digits _ (Digits.four_digits_forall _ HY)),
    (str_filter_digits _ (Digits.two_digits_forall _ HM)),
    (str_filter_digits _ (Digits.two_digits_forall _ HD)).
  change (str_filter (fun c => negb (is_dash c)) "-") with "".
  rewrite !app_nil.
  destruct (padStart0 4 (dec (YearFromTime now)))
    as [| a [| b [| c [| d [| ? ?]]]]]; try discriminate.
  destruct (padStart0 2 (dec (MonthFromTime now + 1)))
    as [| e [| f [| ? ?]]]; try discriminate.
  destruct (padStart0 2 (dec (DateFromTime now)))
    as [| g [| i [| ? ?]]]; try discriminate.
  split; [reflexivity |].
  cbn [four_digits two_digits] in HY, HM, HD.
  repeat match goal with
  | H : _ && _ = true |- _ => apply andb_prop in H as [? ?]
  end.
  rewrite !app_cons, !app_nil. cbn [str_forall].
  repeat match goal with H : is_digit _ = true |- _ => rewrite H; clear H end.
  reflexivity.
Qed.


End FilenameFacts.

(* ================================================================= *)
(** ** The project name of a git remote *)

Module CurrentProjectFacts.
Import TaskInput CurrentProject Spec StringFacts TaskInputFacts.

Lemma lazy_name_git name :
  str_empty name = false -> lazy_name (name +:+ ".git") = name.
Proof.
  induction name as [| c name IH]; [discriminate |]. intros _.
  rewrite app_cons. cbn [lazy_name]. destruct name as [| c' name'].
  - reflexivity.
  - assert (E : String.eqb (String c' name' +:+ ".git") ".git" = false).
    { apply String.eqb_neq. intros E.
      apply (f_equal String.length) in E. rewrite length_append in E.
      cbn [String.length] in E. lia. }
    rewrite E, IH by reflexivity. reflexivity.
Qed.

Lemma name_to_end_slash a r : name_to_end (a +:+ String "/" r) = None.
Proof.
  unfold name_to_end. rewrite str_forall_app. cbn [str_forall].
  change (not_slash "/") with false. now rewrite !andb_false_r.
Qed.

(** The leftmost match starts at the last slash. *)
Lemma remote_match_last_slash a r :
  str_empty r = false -> str_forall not_slash r = true ->
  remote_match (a +:+ String "/" r) = Some (lazy_name r).
Proof.
  intros Hr1 Hr2. induction a as [| c a IH].
  - rewrite app_nil. cbn [remote_match]. change (Ascii.eqb "/" "/") with true.
    cbn [orb]. unfold name_to_end. now rewrite Hr1, Hr2.
  - rewrite app_cons. cbn [remote_match]. rewrite name_to_end_slash, IH.
    now destruct (Ascii.eqb c "/" || Ascii.eqb c ":").
Qed.

Lemma trimStart_app a b :
  starts_with (fun c => negb (is_space c)) b = true -> str_empty b = false ->
  trimStart (a +:+ b) = trimStart a +:+ b.
Proof.
  intros Hb Hne. unfold trimStart. induction a as [| c a IH].
  - rewrite app_nil. destruct b as [| c b]; [discriminate |].
    cbn [starts_with] in Hb. cbn [span]. now destruct (is_space c).
  - rewrite app_cons. cbn [span]. destruct (is_space c); [| reflexivity].
    destruct (span is_space (a +:+ b)) as [x y], (span is_space a) as [x' y'].
    exact IH.
Qed.

(** X22.  For what git prints for a remote whose last part is
    [/<name>.git], [getProjectNameFromGit] returns the name, whatever
    comes before the slash; when the git command fails it returns
    [null]. *)
Theorem project_name_of_remote (base name : string) :
  str_empty name = false -> str_forall not_slash name = true ->
  getProjectNameFromGit (Some (base +:+ "/" +:+ name +:+ ".git" +:+ String LF ""))
  = Str name
  /\ getProjectNameFromGit None = Null.
Proof.
  intros Hn1 Hn2. split; [| reflexivity]. unfold getProjectNameFromGit, trim.
  rewrite trimStart_app by (destruct name; reflexivity).
  set (b := trimStart base).
  assert (Hend : trimEnd (b +:+ "/" +:+ name +:+ ".git" +:+ String LF "")
                 = b +:+ "/" +:+ name +:+ ".git").
  { replace (b +:+ "/" +:+ name +:+ ".git" +:+ String LF "")
      with ((b +:+ "/" +:+ name) +:+ (".git" +:+ String LF ""))
      by (now rewrite !append_assoc).
    rewrite trimEnd_app by reflexivity.
    change (trimEnd (".git" +:+ String LF "")) with ".git".
    now rewrite !append_assoc. }
  rewrite Hend.
  change (b +:+ "/" +:+ name +:+ ".git") with (b +:+ String "/" (name +:+ ".git")).
  rewrite remote_match_last_slash.
  - now rewrite lazy_name_git.
  - now destruct name.
  - rewrite str_forall_app, Hn2. reflexivity.
Qed.

Lemma project_name_of_remote_witness :
  getProjectNameFromGit
    (Some ("git@github.com:gwokae" +:+ "/" +:+ "code-diary" +:+ ".git"
           +:+ String LF ""))
  = Str "code-diary"
  /\ getProjectNameFromGit None = Null.
Proof.
  apply (project_name_of_remote "git@github.com:gwokae" "code-diary");
    reflexivity.
Defined.

End CurrentProjectFacts.

(* ================================================================= *)
(** ** init_project.cjs *)

Module InitProjectFacts.
Import WeekInfo LogWork InitProject Spec.

Section WithHost.
Variable root : string.
Variable stringify : Config -> string.

Lemma initProject_existing name o w :
  path_exists w (config_path root name) = true ->
  exists w1,
    initProject root stringify name o w
    = (Ok (AlreadyExists (already_exists root name)), w1)
    /\ files w1 = files w /\ dirs w1 = dirs w.
Proof.
  intros He. unfold initProject, mbind, IO_bind, existsSync.
  unfold path_exists in He. rewrite He.
  eexists. split; [reflexivity |]. split; reflexivity.
Qed.

Lemma initProject_new name o w :
  path_exists w (config_path root name) = false ->
  exists w1,
    initProject root stringify name o w
    = (Ok (Done {| projectPath := project_path root name;
                   tasksPath := tasks_path root name;
                   configPath := config_path root name;
                   config := build_config name o |}), w1)
    /\ files w1
       = <[config_path root name
             := stringify (build_config name o) +:+ String LF ""]> (files w)
    /\ path_exists w1 (config_path root name) = true.
Proof.
  intros He. unfold initProject, mbind, IO_bind, existsSync.
  unfold path_exists in He. rewrite He.
  cbn [mkdirSync log_event files dirs trace].
  match goal with |- context [if ?c then mret () else _] => destruct c end;
    cbn;
    (eexists; split; [reflexivity |]; split; [reflexivity |]);
    unfold path_exists; cbn; rewrite lookup_insert;
    destruct (decide (config_path root name = config_path root name));
    try congruence; apply orb_true_r.
Qed.


End WithHost.


End InitProjectFacts.

(* ================================================================= *)
(** ** find_task.cjs *)

Module FindTaskFacts.
Import TaskInput Filename LogWork FindTask Spec.

Section WithFS.
Variable fs : FS.

Lemma check_file_found statusPath status ns file r :
  check_file fs statusPath status ns file = Some r ->
  endsWith ".md" file = true
  /\ found_path r = path_join statusPath file
  /\ found_status r = status
  /\ found_filename r = replace_first ".md" "" file.
Proof.
  unfold check_file. destruct (endsWith ".md" file); [| discriminate].
  cbn [negb].
  destruct (str_includes ns (toLowerCase (replace_first ".md" "" file))).
  { intros [= <-]. auto. }
  destruct (fs_read fs (path_join statusPath file)) as [content |];
    [| discriminate].
  cbn [mbind option_bind].
  destruct (frontmatter content) as [fm |]; [| discriminate].
  cbn [mbind option_bind].
  repeat match goal with
  | |- context [match ?x with _ => _ end] => destruct x
  end; try discriminate; intros [= <-]; auto.
Qed.

Lemma check_status_sublist tasksPath ns status rs :
  check_status fs tasksPath ns status = Ok rs ->
  sublist (map status_and_path rs) (status_files fs tasksPath status).
Proof.
  unfold check_status, status_files.
  set (sp := path_join tasksPath status).
  destruct (fs_exists fs sp); cbn [negb].
  2:{ intros [= <-]. apply sublist_nil_l. }
  destruct (fs_readdir fs sp) as [files |]; [| discriminate].
  intros [= <-]. cbn [default]. induction files as [| f files IH].
  - constructor.
  - cbn -[check_file endsWith path_join] in *.
    destruct (check_file fs sp status ns f) as [r |] eqn:E.
    + apply check_file_found in E as (He & Hp & Hs & _). rewrite He.
      cbn [map]. unfold status_and_path at 1. rewrite Hp, Hs.
      now apply sublist_skip.
    + destruct (endsWith ".md" f); [| exact IH].
      cbn [map]. now apply sublist_cons.
Qed.

(** X24.  The results of [findTaskFiles] are, with their status and
    path and in their order, among the [.md] files of the directories
    [new], [working] and [archived], taken in this order and in the order
    of each directory: no other file is reported, and none twice. *)
Theorem findTaskFiles_among_task_files (tasksPath searchTerm : string)
    (rs : list Found) :
  findTaskFiles fs tasksPath searchTerm = Ok rs ->
  sublist (map status_and_path rs) (task_files fs tasksPath).
Proof.
  unfold findTaskFiles, task_files.
  destruct (fs_exists fs tasksPath); cbn [negb].
  2:{ intros [= <-]. apply sublist_nil_l. }
  generalize (trim (toLowerCase searchTerm)). intros ns. revert rs.
  induction statuses as [| st sts IH]; intros rs.
  - intros [= <-]. constructor.
  - cbn [check_statuses flat_map].
    destruct (check_status fs tasksPath ns st) as [found |] eqn:E1;
      [| discriminate].
    cbn [mbind Result_bind].
    destruct (check_statuses fs tasksPath ns sts) as [more |] eqn:E2;
      [| discriminate].
    cbn [mbind Result_bind]. intros [= <-]. rewrite map_app.
    apply sublist_app;
      [now apply (check_status_sublist tasksPath ns st) | now apply IH].
Qed.

(** X25.  When [findTaskFiles] returns, it has found every [.md] file
    of the three directories whose name without [.md], in small letters,
    contains the search term in small letters and without white space at
    its ends: the file is reported as a match by file name. *)
Theorem findTaskFiles_finds_by_name (tasksPath searchTerm status file : string)
    (files : list string) (rs : list Found) :
  findTaskFiles fs tasksPath searchTerm = Ok rs ->
  fs_exists fs tasksPath = true ->
  In status statuses ->
  fs_exists fs (path_join tasksPath status) = true ->
  fs_readdir fs (path_join tasksPath status) = Some files ->
  In file files ->
  endsWith ".md" file = true ->
  str_includes (trim (toLowerCase searchTerm))
    (toLowerCase (replace_first ".md" "" file)) = true ->
  In {| found_path := path_join (path_join tasksPath status) file;
        found_status := status;
        found_filename := replace_first ".md" "" file;
        matchType := ByFilename; detail := None |} rs.
Proof.
  unfold findTaskFiles. intros Hrun Hroot Hst Hdir Hls Hfile Hmd Hinc.
  rewrite Hroot in Hrun. cbn [negb] in Hrun.
  set (ns := trim (toLowerCase searchTerm)) in *.
  assert (Hone : exists found,
            check_status fs tasksPath ns status = Ok found
            /\ In {| found_path := path_join (path_join tasksPath status) file;
                     found_status := status;
                     found_filename := replace_first ".md" "" file;
                     matchType := ByFilename; detail := None |} found).
  { unfold check_status. rewrite Hdir, Hls. cbn [negb].
    eexists. split; [reflexivity |].
    apply list_elem_of_In, list_elem_of_omap. exists file.
    split; [now apply list_elem_of_In |].
    unfold check_file. rewrite Hmd. cbn [negb]. now rewrite Hinc. }
  destruct Hone as (found & Hfound & Hin).
  revert rs Hrun. induction statuses as [| st sts IH]; intros rs Hrun; [easy |].
  cbn [check_statuses] in Hrun.
  destruct (check_status fs tasksPath ns st) as [found' |] eqn:E1;
    [| discriminate].
  cbn [mbind Result_bind] in Hrun.
  destruct (check_statuses fs tasksPath ns sts) as [more |] eqn:E2;
    [| discriminate].
  cbn [mbind Result_bind] in Hrun. injection Hrun as <-.
  apply in_or_app. destruct Hst as [-> | Hst].
  - left. rewrite Hfound in E1. now injection E1 as <-.
  - right. now apply (IH Hst).
Qed.

End WithFS.

Lemma findTaskFiles_finds_by_name_witness :
  exists rs,
    findTaskFiles one_task_fs "/tasks" " Dashboard " = Ok rs
    /\ In {| found_path := "/tasks/working/PROJ-123_dashboard.md";
             found_status := "working";
             found_filename := "PROJ-123_dashboard";
             matchType := ByFilename; detail := None |} rs.
Proof.
  eexists. split; [vm_compute; reflexivity |].
  apply (findTaskFiles_finds_by_name one_task_fs "/tasks" " Dashboard "
           "working" "PROJ-123_dashboard.md"
           ["PROJ-123_dashboard.md"; "notes.txt"]);
    try reflexivity.
  - right; left; reflexivity.
  - left; reflexivity.
Defined.

Lemma findTaskFiles_among_task_files_witness :
  sublist
    (map status_and_path
       [{| found_path := "/tasks/working/PROJ-123_dashboard.md";
           found_status := "working";
           found_filename := "PROJ-123_dashboard";
           matchType := ByFilename; detail := None |}])
    (task_files one_task_fs "/tasks").
Proof.
  apply (findTaskFiles_among_task_files one_task_fs "/tasks" " Dashboard ").
  vm_compute. reflexivity.
Defined.

End FindTaskFacts.

(* ================================================================= *)
(** ** The lines an update adds *)

Module Appends.
Import JSDate WeekInfo Worklog LogWork Spec ListFacts MergeFacts.

Lemma add_work_items_added items : forall c,
  exists added,
    add_work_items c items = c ++ added
    /\ Forall (new_work_line items c) added
    /\ List.NoDup added.
Proof.
  induction items as [| x items IH]; intros c.
  - exists []. split; [now rewrite app_nil_r |]. split; constructor.
  - change (add_work_items c (x :: items))
      with (add_work_items (add_work_item c x) items).
    unfold add_work_item. destruct (includes c (workLine x)) eqn:E.
    + destruct (IH c) as (added & Hc & Hnew & Hnd). exists added.
      split; [exact Hc |]. split; [| exact Hnd].
      eapply List.Forall_impl; [| exact Hnew].
      intros l [(w & Hw & ->) Hl]. split; [| exact Hl].
      exists w. split; [now right | reflexivity].
    + destruct (IH (c ++ [workLine x])) as (added & Hc & Hnew & Hnd).
      assert (Hx : ~ In (workLine x) c).
      { intros Hin. apply includes_In in Hin. congruence. }
      exists (workLine x :: added). rewrite Hc, <- app_assoc.
      split; [reflexivity |]. split.
      * constructor.
        { split; [| exact Hx]. exists x. split; [now left | reflexivity]. }
        eapply List.Forall_impl; [| exact Hnew].
        intros l [(w & Hw & ->) Hl]. split.
        { exists w. split; [now right | reflexivity]. }
        intros Hin. apply Hl. apply in_or_app. now left.
      * constructor; [| exact Hnd]. intros Hin.
        rewrite List.Forall_forall in Hnew.
        destruct (Hnew _ Hin) as [_ Hl]. apply Hl.
        apply in_or_app. right. now left.
Qed.

(** X26.  An update keeps the lines of the task it is for, in their
    order, and adds lines behind them only: each added line is the line of
    one of the given work items, was not among the task's lines, and is
    added once. *)
Theorem update_appends_to_task (h : Host) (info : Info) (dh id text : string)
    (items : list string) (secs : list TopSection) :
  let old := content_of (find_task (WeekInfo.weekNumber info) dh id secs) in
  exists t added,
    find_task (WeekInfo.weekNumber info) dh id
      (merge_sections h info dh id text items secs) = Some t
    /\ task_content t = old ++ added
    /\ Forall (new_work_line items old) added
    /\ List.NoDup added.
Proof.
  intros old.
  destruct (merge_sections_find_task h info dh id text items secs)
    as (t & Hfind & _ & _ & Hc).
  destruct (add_work_items_added items old) as (added & Hadd & Hnew & Hnd).
  exists t, added. split; [exact Hfind |]. split; [| now split].
  rewrite Hc. exact Hadd.
Qed.

End Appends.

(* ================================================================= *)
(** ** The header block of a worklog *)

Module HeaderBlocks.
Import JSDate WeekInfo Worklog LogWork Spec ParserFacts ParserErrors.

Lemma flushBuffer_opened st :
  opened st -> opened (flushBuffer st) /\ sections (flushBuffer st) = sections st.
Proof.
  unfold opened, flushBuffer. intros Ho. destruct (buffer st); [auto |].
  destruct (currentTask st), (currentDay st), (currentWeek st);
    cbn in *; auto; discriminate.
Qed.

Lemma flushBuffer_header st :
  nothing_open st -> sections st = [] ->
  nothing_open (flushBuffer st)
  /\ sections (flushBuffer st) = header_of (buffer st).
Proof.
  intros (Hw & Hd & Ht) Hs. split; [now apply flushBuffer_nothing_open |].
  unfold flushBuffer. destruct (buffer st) eqn:E; [exact Hs |].
  rewrite Ht, Hd, Hw, Hs. reflexivity.
Qed.

(** Once a week or a day is open, the sections only get weeks more. *)
Lemma run_opened lines : forall st hdr ws0 secs,
  opened st -> sections st = hdr ++ map WeekSection ws0 ->
  (st' ← run st lines; finish st') = Ok secs ->
  exists ws, secs = hdr ++ map WeekSection ws.
Proof.
  induction lines as [| l lines IH]; intros st hdr ws0 secs Ho Hs.
  - cbn [run mbind Result_bind]. unfold finish.
    destruct (flushBuffer_opened st Ho) as [_ Hs']. rewrite Hs', Hs.
    destruct (push_into push_task _ _) as [d |]; [| discriminate].
    cbn [mbind Result_bind].
    destruct (push_into push_day _ d) as [[w |] |]; cbn [mbind Result_bind];
      try discriminate; intros [= <-].
    + exists (ws0 ++ [w]). now rewrite map_app, app_assoc.
    + now exists ws0.
  - cbn [run]. destruct (step st l) as [st1 |] eqn:E; [| discriminate].
    cbn [mbind Result_bind]. revert E. unfold step.
    destruct (flushBuffer_opened st Ho) as [Ho' Hs'].
    destruct (week_header_re l).
    { intros [= <-]. apply (IH _ hdr (ws0 ++ weeks_of (close_week
                                       {| sections := [];
                                          currentWeek := currentWeek (flushBuffer st);
                                          currentDay := None; currentTask := None;
                                          buffer := [] |}))); [reflexivity |].
      cbn [sections]. unfold close_week. rewrite Hs', Hs.
      destruct (currentWeek (flushBuffer st)); cbn;
        rewrite ?map_app, ?app_nil_r, <- ?app_assoc; reflexivity. }
    destruct (day_header_re l).
    { destruct (push_into push_day _ _) as [w |]; [| discriminate].
      cbn [mbind Result_bind]. intros [= <-].
      apply (IH _ hdr ws0); [| cbn [sections]; now rewrite Hs', Hs].
      unfold opened. cbn. apply orb_true_r. }
    destruct (is_some (currentDay st) && task_line_re l) eqn:C.
    { apply andb_prop in C as [C _].
      destruct (flushBuffer_open st) as (_ & Hd & _). rewrite <- Hd in C.
      destruct (currentDay (flushBuffer st)) as [d |]; [| discriminate].
      assert (Hpush : exists d', push_into push_task (Some d)
                                   (currentTask (flushBuffer st)) = Ok (Some d')).
      { destruct (currentTask (flushBuffer st)); cbn; eauto. }
      destruct Hpush as [d' ->]. cbn [mbind Result_bind].
      destruct (task_groups_re l) as [[id text] |]; [| discriminate].
      intros [= <-].
      apply (IH _ hdr ws0); [| cbn [sections]; now rewrite Hs', Hs].
      unfold opened. cbn. apply orb_true_r. }
    intros [= <-]. now apply (IH _ hdr ws0).
Qed.

Lemma run_before_headers lines : forall st secs,
  nothing_open st -> sections st = [] ->
  (st' ← run st lines; finish st') = Ok secs ->
  exists ws,
    secs = header_of (buffer st ++ before_headers lines) ++ map WeekSection ws.
Proof.
  induction lines as [| l lines IH]; intros st secs Hn Hs.
  - cbn [run mbind Result_bind before_headers]. rewrite app_nil_r.
    unfold finish. destruct (flushBuffer_header st Hn Hs) as [(Hw & Hd & Ht) Hs'].
    rewrite Hw, Hd, Ht, Hs'. cbn. intros [= <-]. exists [].
    now rewrite app_nil_r.
  - cbn [run before_headers].
    destruct (step st l) as [st1 |] eqn:E; [| discriminate].
    cbn [mbind Result_bind]. revert E. unfold step.
    destruct (flushBuffer_header st Hn Hs) as [(Hw & Hd & Ht) Hs'].
    destruct (week_header_re l).
    { cbn [orb]. rewrite app_nil_r. intros [= <-] Hrun.
      apply (run_opened lines _ (header_of (buffer st)) [] secs) in Hrun;
        [exact Hrun | reflexivity |].
      cbn [sections]. unfold close_week. rewrite Hw, Hs'. now rewrite app_nil_r. }
    destruct (day_header_re l).
    { cbn [orb]. rewrite app_nil_r. rewrite Hw, Hd.
      cbn [push_into mbind Result_bind]. intros [= <-] Hrun.
      apply (run_opened lines _ (header_of (buffer st)) [] secs) in Hrun;
        [exact Hrun | reflexivity |].
      cbn [sections]. rewrite Hs'. now rewrite app_nil_r. }
    cbn [orb]. destruct Hn as (Hw0 & Hd0 & Ht0). rewrite Hd0.
    cbn [is_some andb]. intros [= <-] Hrun.
    apply IH in Hrun; [| now repeat split | exact Hs].
    destruct Hrun as [ws Hws].
    exists ws. cbn [buffer] in Hws. now rewrite <- app_assoc in Hws.
Qed.

(** X27.  When [parseWorklog] returns, the sections are at most one
    header block and then weeks only; the header block holds, as they
    are, the lines that stand before the first week header or day header,
    and there is none when no line stands there. *)
Theorem header_block_is_the_start (content : string) (secs : list TopSection) :
  parseWorklog content = Ok secs ->
  exists ws,
    secs = header_of (before_headers (split_lines content))
           ++ map WeekSection ws.
Proof.
  unfold parseWorklog, parse_lines. intros Hparse.
  destruct (run_before_headers (split_lines content) init secs)
    as [ws Hws]; [now cbv | reflexivity | exact Hparse |].
  now exists ws.
Qed.

Lemma header_block_is_the_start_witness :
  exists ws,
    sample_sections
    = header_of (before_headers (split_lines sample_text))
      ++ map WeekSection ws.
Proof.
  apply (header_block_is_the_start sample_text sample_sections).
  vm_compute. reflexivity.
Defined.

End HeaderBlocks.
